(** * Notion block / property synchronizer: model and verified properties

    The development embeds [libraries/notion/models.py],
    [libraries/sso_core/exceptions.py], [libraries/common.py] (the retry
    decorator) and the methods of [libraries/notion/notion_api.py] that
    fetch, convert and patch blocks and pages.

    Python values are modelled as a tree type [value]; a [dict] is an
    association list in insertion order, looked up by its first matching key.
    The records that the client decodes from JSON share no objects, and a
    block owns the children attached to it, so a tree describes them.
    Mutation of an argument is written as explicit state passing: a function
    that mutates a block returns the block as it is after the call, and a
    payload is the value it has when it is returned.  The two places where
    the code itself shares or copies an object are written out: the list
    [children] that [_convert_block_to_json] binds to several keys, and the
    [deepcopy] of [_set_bulleted_list_item_link].  Network calls act on a
    [world] that holds the responses the service is going to give and the
    trace of what the program did.

    A string is a sequence of bytes (UTF-8), numbers are integers, and a
    request is recorded without its headers.

    The loops of [vectorize_notion_database.py] that gather the paragraphs
    of the pages and upsert them in batches are embedded as well, with the
    encoder of the texts as a parameter. *)

From Stdlib Require Import String Ascii List ZArith Lia Bool PeanoNat.
From Stdlib Require Import DecimalString.
From Stdlib Require Import Permutation.
Import ListNotations.
Open Scope string_scope.
Open Scope Z_scope.

Set Warnings "-register-all".

(** ** Python values *)

(** [models.py], [class NotionBlockType(Enum)]. *)
Inductive NotionBlockType : Type :=
| PARAGRAPH | HEADING_3 | HEADING_2 | HEADING_1 | BULLETED_LIST_ITEM
| CHILD_DATABASE | DIVIDER | OTHER | COLUMN_LIST | TABLE | TABLE_ROW.

(** [models.py], [class NotionPagePropertyType(Enum)]; the catch-all member
    is written [P_OTHER] because [OTHER] names the block type. *)
Inductive NotionPagePropertyType : Type :=
| SELECT | PEOPLE | RICH_TEXT | RELATION | LAST_EDITED_TIME | TITLE | P_OTHER
| CREATED_TIME | CREATED_BY | DATE | FILES | MULTI_SELECT.

(** The attributes of a [NotionBlock] instance.  [type_name] is a string:
    [__init__] calls [.lower()] on it, which only a [str] has. *)
Record NotionBlock_ (V : Type) : Type := mkNotionBlock {
  object : V;
  id : V;
  type_name : string;
  type : NotionBlockType;
  content : V;
  has_children : V
}.
Arguments mkNotionBlock {V}.
Arguments object {V}.
Arguments id {V}.
Arguments type_name {V}.
Arguments type {V}.
Arguments content {V}.
Arguments has_children {V}.

(** JSON-like Python values, plus [NotionBlock] instances, which the code
    stores inside the [children] lists of a block's content.  Numbers are
    integers; floats are outside the model. *)
Inductive value : Type :=
| VNone
| VBool (b : bool)
| VInt (z : Z)
| VStr (s : string)
| VList (l : list value)
| VDict (d : list (string * value))
| VBlock (b : NotionBlock_ value).

Definition NotionBlock : Type := NotionBlock_ value.

Definition set_content (block : NotionBlock) (c : value) : NotionBlock :=
  mkNotionBlock (object block) (id block) (type_name block) (type block)
                c (has_children block).

(** Nesting depth, the measure that bounds the recursion of the block
    conversion. *)
Fixpoint depth (v : value) : nat :=
  match v with
  | VList l => S (fold_right (fun x n => Nat.max (depth x) n) 0%nat l)
  | VDict d => S (fold_right (fun kv n => Nat.max (depth (snd kv)) n) 0%nat d)
  | VBlock b =>
      S (Nat.max (depth (object b))
           (Nat.max (depth (id b))
              (Nat.max (depth (content b)) (depth (has_children b)))))
  | _ => 0%nat
  end.

(** ** Exceptions: [sso_core/exceptions.py] and the built-in ones the code
    can raise *)

Inductive exn : Type :=
| BadRequestException (message : string) (status_code : Z)
| BadPayloadException (message : string) (status_code : Z)
| ExceededRateLimitException (message : string) (status_code : Z)
| UnauthorizedException (message : string) (status_code : Z)
| ServerSideException (message : string) (status_code : Z)
| KeyError (key : value)
| IndexError
| TypeError
| AttributeError
| ValueError (message : string)
| JSONDecodeError
| ConnectionError
| RecursionError
| StopIteration.

(** [isinstance(e, BadRequestException)]: the class and its four
    subclasses. *)
Definition is_BadRequestException (e : exn) : bool :=
  match e with
  | BadRequestException _ _ | BadPayloadException _ _
  | ExceededRateLimitException _ _ | UnauthorizedException _ _
  | ServerSideException _ _ => true
  | _ => false
  end.

(** [e.message] and [e.status_code] of a member of the family. *)
Definition exn_message (e : exn) : string :=
  match e with
  | BadRequestException m _ | BadPayloadException m _
  | ExceededRateLimitException m _ | UnauthorizedException m _
  | ServerSideException m _ => m
  | ValueError m => m
  | _ => ""
  end.

Definition exn_status_code (e : exn) : Z :=
  match e with
  | BadRequestException _ c | BadPayloadException _ c
  | ExceededRateLimitException _ c | UnauthorizedException _ c
  | ServerSideException _ c => c
  | _ => 0
  end.

Definition is_KeyError (e : exn) : bool :=
  match e with KeyError _ => true | _ => false end.

(** The outcome of a call: a returned value or a raised exception. *)
Inductive res (A : Type) : Type :=
| Ok (a : A)
| Raise (e : exn).
Arguments Ok {A} a.
Arguments Raise {A} e.

Definition res_bind {A B : Type} (r : res A) (k : A -> res B) : res B :=
  match r with
  | Ok a => k a
  | Raise e => Raise e
  end.

Declare Scope res_scope.
Delimit Scope res_scope with res.
Notation "x <- r ;; k" := (res_bind r (fun x => k))
  (at level 61, r at next level, right associativity) : res_scope.
Open Scope res_scope.

(** ** Operations of Python on values *)

(** Dictionaries: lookup by the first matching key; assignment keeps the
    position of a key that exists and appends a new one. *)
Fixpoint dict_get (k : string) (d : list (string * value)) : option value :=
  match d with
  | [] => None
  | (k', v) :: d' => if String.eqb k k' then Some v else dict_get k d'
  end.

Fixpoint dict_set (k : string) (v : value) (d : list (string * value))
  : list (string * value) :=
  match d with
  | [] => [(k, v)]
  | (k', v') :: d' =>
      if String.eqb k k' then (k', v) :: d' else (k', v') :: dict_set k v d'
  end.

(** [v[k]] for a string [k]. *)
Definition getitem (v : value) (k : string) : res value :=
  match v with
  | VDict d =>
      match dict_get k d with
      | Some x => Ok x
      | None => Raise (KeyError (VStr k))
      end
  | _ => Raise TypeError
  end.

(** [v[0]]. *)
Definition getitem_0 (v : value) : res value :=
  match v with
  | VList (x :: _) => Ok x
  | VList [] => Raise IndexError
  | VStr (String c _) => Ok (VStr (String c EmptyString))
  | VStr EmptyString => Raise IndexError
  | VDict _ => Raise (KeyError (VInt 0))
  | _ => Raise TypeError
  end.

(** [v.get(k)]: only a [dict] has the method. *)
Definition get_method (v : value) (k : string) : res value :=
  match v with
  | VDict d =>
      match dict_get k d with
      | Some x => Ok x
      | None => Ok VNone
      end
  | _ => Raise AttributeError
  end.

(** [v[k] = x] for a string [k]. *)
Definition setitem (v : value) (k : string) (x : value) : res value :=
  match v with
  | VDict d => Ok (VDict (dict_set k x d))
  | _ => Raise TypeError
  end.

(** Truth value of an object in a condition. *)
Definition truthy (v : value) : bool :=
  match v with
  | VNone => false
  | VBool b => b
  | VInt z => negb (Z.eqb z 0)
  | VStr s => negb (String.eqb s "")
  | VList l => match l with [] => false | _ => true end
  | VDict d => match d with [] => false | _ => true end
  | VBlock _ => true
  end.

Fixpoint chars (s : string) : list value :=
  match s with
  | EmptyString => []
  | String c s' => VStr (String c EmptyString) :: chars s'
  end.

(** The elements a [for] loop visits: the items of a list, the keys of a
    dict, the characters of a string (its bytes, which are its characters
    when it is ASCII; for other strings the loop visits code points, which
    the model does not tell apart from bytes); other objects are not
    iterable. *)
Definition py_iter (v : value) : res (list value) :=
  match v with
  | VList l => Ok l
  | VDict d => Ok (map (fun kv => VStr (fst kv)) d)
  | VStr s => Ok (chars s)
  | _ => Raise TypeError
  end.

(** [v == s] for a [str] [s]. *)
Definition eq_str (v : value) (s : string) : bool :=
  match v with
  | VStr s' => String.eqb s' s
  | _ => false
  end.

(** [s.lower()] on the ASCII letters.  The names it is compared with below
    are ASCII and hold no letter whose lower-case form a non-ASCII character
    shares, so the comparison results are those of Python. *)
Definition lower_ascii (c : ascii) : ascii :=
  let n := nat_of_ascii c in
  if (Nat.leb 65 n && Nat.leb n 90)%bool then ascii_of_nat (n + 32) else c.

Fixpoint lower (s : string) : string :=
  match s with
  | EmptyString => EmptyString
  | String c s' => String (lower_ascii c) (lower s')
  end.

(** [v.lower()]: only a [str] has the method. *)
Definition lower_method (v : value) : res string :=
  match v with
  | VStr s => Ok (lower s)
  | _ => Raise AttributeError
  end.

(** ** [models.py] *)

Record NotionPageProperty : Type := mkNotionPageProperty {
  p_name : string;
  p_type_name : string;
  p_type : NotionPagePropertyType;
  p_content : value;
  p_children : list value
}.

(** [NotionPageProperty._determine_property_type], after [.lower()]. *)
Definition property_type_of_lower (t : string) : NotionPagePropertyType :=
  if String.eqb t "select" then SELECT
  else if String.eqb t "people" then PEOPLE
  else if String.eqb t "rich_text" then RICH_TEXT
  else if String.eqb t "relation" then RELATION
  else if String.eqb t "last_edited_time" then LAST_EDITED_TIME
  else if String.eqb t "title" then TITLE
  else if String.eqb t "created_time" then CREATED_TIME
  else if String.eqb t "created_by" then CREATED_BY
  else if String.eqb t "date" then DATE
  else if String.eqb t "files" then FILES
  else if String.eqb t "multi_select" then MULTI_SELECT
  else P_OTHER.

Definition _determine_property_type (type_name : value)
  : res NotionPagePropertyType :=
  t <- lower_method type_name ;;
  Ok (property_type_of_lower t).

(** [NotionPageProperty.__init__(name, property_dict)]. *)
Definition NotionPageProperty__init__ (name : string) (property_dict : value)
  : res NotionPageProperty :=
  tn <- getitem property_dict "type" ;;
  ty <- _determine_property_type tn ;;
  match tn with
  | VStr type_name =>
      c <- getitem property_dict type_name ;;
      Ok (mkNotionPageProperty name type_name ty c [])
  | _ => Raise AttributeError
  end.

(** [NotionPageProperty.to_dict]: the literal
    [{"type": self.type_name, self.type_name: self.content}]. *)
Definition NotionPageProperty_to_dict (p : NotionPageProperty) : value :=
  VDict (dict_set (p_type_name p) (p_content p)
           (dict_set "type" (VStr (p_type_name p)) [])).

(** [NotionBlock._determine_block_type]. *)
Definition block_type_of_lower (t : string) : NotionBlockType :=
  if String.eqb t "paragraph" then PARAGRAPH
  else if String.eqb t "heading_3" then HEADING_3
  else if String.eqb t "heading_2" then HEADING_2
  else if String.eqb t "heading_1" then HEADING_1
  else if String.eqb t "bulleted_list_item" then BULLETED_LIST_ITEM
  else if String.eqb t "child_database" then CHILD_DATABASE
  else if String.eqb t "divider" then DIVIDER
  else if String.eqb t "column_list" then COLUMN_LIST
  else if String.eqb t "table" then TABLE
  else if String.eqb t "table_row" then TABLE_ROW
  else OTHER.

Definition _determine_block_type (type_name : value) : res NotionBlockType :=
  t <- lower_method type_name ;;
  Ok (block_type_of_lower t).

(** [NotionBlock.__init__(block_dict)], the lookups in the order of the
    source. *)
Definition NotionBlock__init__ (block_dict : value) : res NotionBlock :=
  o <- getitem block_dict "object" ;;
  i <- getitem block_dict "id" ;;
  tn <- getitem block_dict "type" ;;
  ty <- _determine_block_type tn ;;
  match tn with
  | VStr type_name =>
      c <- getitem block_dict type_name ;;
      h <- getitem block_dict "has_children" ;;
      Ok (mkNotionBlock o i type_name ty c h)
  | _ => Raise AttributeError
  end.

(** [NotionBlock.to_dict]: the literal
    [{"object": self.object, "type": self.type_name,
      self.type_name: self.content}]; a key written twice keeps its first
    position and its last value. *)
Definition NotionBlock_to_dict (b : NotionBlock) : value :=
  VDict (dict_set (type_name b) (content b)
           (dict_set "type" (VStr (type_name b))
              (dict_set "object" (object b) []))).

(** ** The service and the trace of effects *)

(** [requests.Response]: the status, the body as text, and the body as
    decoded by [response.json()] ([None] when it is not JSON). *)
Record Response : Type := mkResponse {
  status_code : Z;
  text : string;
  json_body : option value
}.

(** The URLs the client formats, with the id that the f-string inserts. *)
Inductive url : Type :=
| url_page (page_id : value)
| url_block_children (parent_id : value)
| url_block (block_id : value)
| url_database_query (database_id : value).

Inductive event : Type :=
| Request (method : string) (u : url) (json : option value)
| Print (line : string)
| Sleep (seconds : Z).

(** The world: the responses the service gives to the coming requests, in
    order, and what the program has done so far. *)
Record world : Type := mkWorld {
  pending : list Response;
  trace : list event
}.

Definition log (e : event) (w : world) : world :=
  mkWorld (pending w) (trace w ++ [e]).

(** Computations over a state [S] that return or raise. *)
Definition St (S A : Type) : Type := S -> res A * S.

Definition ret {S A : Type} (a : A) : St S A := fun s => (Ok a, s).
Definition raise {S A : Type} (e : exn) : St S A := fun s => (Raise e, s).
Definition lift {S A : Type} (r : res A) : St S A := fun s => (r, s).

Definition bind {S A B : Type} (m : St S A) (k : A -> St S B) : St S B :=
  fun s =>
    match m s with
    | (Ok a, s') => k a s'
    | (Raise e, s') => (Raise e, s')
    end.

Declare Scope st_scope.
Delimit Scope st_scope with st.
Notation "x <~ m ;; k" := (bind m (fun x => k))
  (at level 61, m at next level, right associativity) : st_scope.
Open Scope st_scope.

(** A state that holds the world (the world itself, or the world next to a
    mutable argument). *)
Class HasWorld (S : Type) : Type := {
  get_world : S -> world;
  put_world : world -> S -> S
}.

#[export] Instance HasWorld_world : HasWorld world :=
  {| get_world := fun w => w; put_world := fun w _ => w |}.

#[export] Instance HasWorld_pair (X S : Type) `{HasWorld S}
  : HasWorld (X * S) :=
  {| get_world := fun s => get_world (snd s);
     put_world := fun w s => (fst s, put_world w (snd s)) |}.

Definition emit {S : Type} `{HasWorld S} (e : event) : St S unit :=
  fun s => (Ok tt, put_world (log e (get_world s)) s).

(** [requests.request(method, url, json=payload)]: the request is recorded
    with the payload as it is passed, and answered by the next pending
    response; a service that answers no more makes the call raise.  The
    encoding of the payload as JSON is not modelled: a payload that still
    holds a [NotionBlock] instance, which the library refuses with
    [TypeError] before anything is sent, is recorded like any other. *)
Definition requests_request {S : Type} `{HasWorld S}
    (method : string) (u : url) (json : option value) : St S Response :=
  fun s =>
    let w := log (Request method u json) (get_world s) in
    match pending w with
    | [] => (Raise ConnectionError, put_world w s)
    | r :: rs => (Ok r, put_world (mkWorld rs (trace w)) s)
    end.

(** [response.json()]. *)
Definition response_json (response : Response) : res value :=
  match json_body response with
  | Some v => Ok v
  | None => Raise JSONDecodeError
  end.

Definition string_of_Z (z : Z) : string :=
  NilZero.string_of_int (Z.to_int z).

(** ** [common.py]: [retry_on_bad_response] *)

Definition retry_message (error : exn) : string :=
  "Received bad response (" ++ string_of_Z (exn_status_code error) ++ "): ["
    ++ exn_message error ++ "]. Retrying in 30 seconds...".

(** The body of [wrapper]: [n] iterations of the [for] loop are left and
    [error] is the variable of that name; [raise error] with [error = None]
    is a [TypeError]. *)
Fixpoint retry_loop {S A : Type} `{HasWorld S}
    (n : nat) (error : option exn) (func : St S A) : St S A :=
  match n with
  | O => match error with
         | Some e => raise e
         | None => raise TypeError
         end
  | Datatypes.S n' =>
      fun s =>
        match func s with
        | (Ok a, s') => (Ok a, s')
        | (Raise e, s') =>
            if is_BadRequestException e then
              (_ <~ emit (Print (retry_message e)) ;;
               _ <~ emit (Sleep 30) ;;
               retry_loop n' (Some e) func) s'
            else (Raise e, s')
        end
  end.

Definition retry_on_bad_response {S A : Type} `{HasWorld S}
    (func : St S A) : St S A :=
  retry_loop 3 None func.

(** The state after the [print] and the [time.sleep(30)] that follow a
    caught error. *)
Definition pause {S : Type} `{HasWorld S} (e : exn) (s : S) : S :=
  snd ((_ <~ emit (Print (retry_message e)) ;; emit (Sleep 30)) s).

(** [func] with a counter of its calls next to its state; used to count the
    attempts of the wrapper. *)
Definition counting {S A : Type} (func : St S A) : St (nat * S) A :=
  fun ns =>
    let '(r, s') := func (snd ns) in (r, (Datatypes.S (fst ns), s')).

(** ** [notion_api.py] *)

(** [NotionAPI._check_response]. *)
Definition _check_response (response : Response) : res unit :=
  let c := status_code response in
  if c =? 429 then
    Raise (ExceededRateLimitException
             ("Notion API exceeded rate limit: " ++ text response) c)
  else if c =? 400 then
    Raise (BadPayloadException
             ("Notion API determined bad payload. Possibly exceeded size limit: "
                ++ text response) c)
  else if ((c =? 401) || (c =? 403))%bool then
    Raise (UnauthorizedException
             ("Notion API sent unauthorized: " ++ text response) c)
  else if c >=? 500 then
    Raise (ServerSideException
             ("Notion API server error: " ++ text response) c)
  else if negb (c =? 200) then
    Raise (BadRequestException
             ("Notion API returned error: " ++ text response) c)
  else Ok tt.

(** The decorated methods: [f__wrapped__] is the function as written and
    [f] the wrapper that the decorator puts in its place. *)

(** [NotionAPI._get_page]. *)
Definition _get_page__wrapped__ (page_id : value) : St world value :=
  response <~ requests_request "GET" (url_page page_id) None ;;
  _ <~ lift (_check_response response) ;;
  lift (response_json response).

Definition _get_page (page_id : value) : St world value :=
  retry_on_bad_response (_get_page__wrapped__ page_id).

(** [NotionAPI._get_block_children]. *)
Definition _get_block_children__wrapped__ (parent_id : value)
  : St world value :=
  response <~ requests_request "GET" (url_block_children parent_id) None ;;
  _ <~ lift (_check_response response) ;;
  lift (body <- response_json response ;; getitem body "results").

Definition _get_block_children (parent_id : value) : St world value :=
  retry_on_bad_response (_get_block_children__wrapped__ parent_id).

(** *** [NotionAPI._convert_block_to_json] *)

(** The innermost loop, [for child in block.content[key]]: a child that is a
    [NotionBlock] is replaced by its conversion [conv], and every child is
    appended to the list [children].  The result is the list, and the
    exception that interrupted the loop, if any. *)
Fixpoint convert_elems (conv : NotionBlock -> res (value * NotionBlock))
    (elems : list value) (children : list value) : list value * option exn :=
  match elems with
  | [] => (children, None)
  | child :: rest =>
      match child with
      | VBlock b =>
          match conv b with
          | Ok (j, _) => convert_elems conv rest (children ++ [j])
          | Raise e => (children, Some e)
          end
      | _ => convert_elems conv rest (children ++ [child])
      end
  end.

(** The loop [for key in ["children", "cells"]] with its
    [with suppress(KeyError)] body.  [c] is the content dict.  The state is
    the one list [children], created before the loop and shared by its
    iterations, and the keys that [block.content[key] = children] has bound to
    it so far.  A [KeyError] (from [block.content[key]]) ends the body of
    that key without the assignment; any other exception leaves the loop. *)
Fixpoint convert_keys (conv : NotionBlock -> res (value * NotionBlock))
    (c : list (string * value)) (keys : list string)
    (children : list value) (bound : list string)
  : res (list value * list string) :=
  match keys with
  | [] => Ok (children, bound)
  | key :: keys' =>
      match (coll <- getitem (VDict c) key ;; py_iter coll) with
      | Raise e =>
          if is_KeyError e then convert_keys conv c keys' children bound
          else Raise e
      | Ok elems =>
          match convert_elems conv elems children with
          | (children', None) =>
              convert_keys conv c keys' children' (bound ++ [key])
          | (children', Some e) =>
              if is_KeyError e then convert_keys conv c keys' children' bound
              else Raise e
          end
      end
  end.

(** [_convert_block_to_json] with the recursion depth bounded by [fuel].
    It returns the payload and the block as the call leaves it: the call
    assigns into [block.content].  Every key in [bound] holds a reference to
    the same list object [children], so after the loop each of them shows the
    final list. *)
Fixpoint convert_rec (fuel : nat) (block : NotionBlock)
  : res (value * NotionBlock) :=
  match fuel with
  | O => Raise RecursionError
  | Datatypes.S fuel' =>
      g <- get_method (content block) "children" ;;
      if truthy g then
        match content block with
        | VDict c =>
            st <- convert_keys (convert_rec fuel') c ["children"; "cells"]
                    [] [] ;;
            let '(children, bound) := st in
            let c' :=
              fold_left (fun d key => dict_set key (VList children) d)
                        bound c in
            let block' := set_content block (VDict c') in
            Ok (NotionBlock_to_dict block', block')
        | _ => Raise AttributeError
        end
      else Ok (NotionBlock_to_dict block, block)
  end.

(** The recursion descends into the blocks nested in [block], so the depth
    of [block] bounds it: with this fuel [RecursionError] is never raised
    (lemma [convert_never_RecursionError]).  The recursion limit of the
    interpreter is not modelled. *)
Definition _convert_block_to_json (block : NotionBlock)
  : res (value * NotionBlock) :=
  convert_rec (Datatypes.S (depth (VBlock block))) block.

(** [NotionAPI._update_block].  The block is part of the state: the
    conversion assigns into it, and each attempt of the wrapper converts the
    block that the previous attempt left.  Where the conversion raises, the
    block is not looked at again. *)
Definition _update_block__wrapped__ (block_id : value)
  : St (NotionBlock * world) unit :=
  fun s =>
    match _convert_block_to_json (fst s) with
    | Raise e => (Raise e, s)
    | Ok (payload, block') =>
        (response <~ requests_request "PATCH" (url_block block_id)
                       (Some payload) ;;
         lift (_check_response response)) (block', snd s)
    end.

Definition _update_block (block_id : value)
  : St (NotionBlock * world) unit :=
  retry_on_bad_response (_update_block__wrapped__ block_id).

(** [NotionAPI._query_database_by_title]. *)
Definition _query_database_by_title__wrapped__ (database_id : value)
    (query_term : string) : St world value :=
  let payload :=
    VDict [("page_size", VInt 100);
           ("filter",
            VDict [("or",
                    VList [VDict [("property", VStr "title");
                                  ("text",
                                   VDict [("contains",
                                           VStr query_term)])]])])] in
  response <~ requests_request "POST" (url_database_query database_id)
                (Some payload) ;;
  _ <~ lift (_check_response response) ;;
  lift (body <- response_json response ;; getitem body "results").

Definition _query_database_by_title (database_id : value)
    (query_term : string) : St world value :=
  retry_on_bad_response
    (_query_database_by_title__wrapped__ database_id query_term).

(** *** [NotionAPI._set_bulleted_list_item_link] *)

Fixpoint map_res {A B : Type} (f : A -> res B) (l : list A) : res (list B) :=
  match l with
  | [] => Ok []
  | x :: l' => y <- f x ;; ys <- map_res f l' ;; Ok (y :: ys)
  end.

Definition is_BULLETED_LIST_ITEM (t : NotionBlockType) : bool :=
  match t with BULLETED_LIST_ITEM => true | _ => false end.

(** A call [self._update_block(block_id, block)] from a caller that does not
    look at [block] afterwards. *)
Definition call_update_block (block_id : value) (block : NotionBlock)
  : St world unit :=
  fun w =>
    let '(r, s) := _update_block block_id (block, w) in (r, snd s).

(** [item["text"]["link"] = {"url": url}]: the item as the assignment
    leaves it. *)
Definition set_item_link (item : value) (url : string) : res value :=
  t <- getitem item "text" ;;
  t' <- setitem t "link" (VDict [("url", VStr url)]) ;;
  setitem item "text" t'.

(** The block that is handed to [_update_block].  [deepcopy(block)] is taken
    before the link is assigned into [item], an object of [block] and not of
    the copy; the copy receives the linked item only through
    [new_block.content["text"] = [item]]. *)
Definition block_to_send (block : NotionBlock) (item : value) (url : string)
    (replace_only_matched_text : bool) : res NotionBlock :=
  let new_block := block in
  item' <- set_item_link item url ;;
  if negb replace_only_matched_text then
    c <- setitem (content new_block) "text" (VList [item']) ;;
    Ok (set_content new_block c)
  else Ok new_block.

(** The body of [if item.get("plain_text") == text_to_match:]. *)
Definition on_match (block : NotionBlock) (item : value) (url : string)
    (replace_only_matched_text : bool) : St world unit :=
  new_block <~ lift (block_to_send block item url replace_only_matched_text) ;;
  _ <~ call_update_block (id new_block) new_block ;;
  raise StopIteration.

(** [for item in block.content["text"]]. *)
Fixpoint scan_items (text_to_match : string) (url : string)
    (replace_only_matched_text : bool) (block : NotionBlock)
    (items : list value) : St world unit :=
  match items with
  | [] => ret tt
  | item :: rest =>
      pt <~ lift (get_method item "plain_text") ;;
      _ <~ (if eq_str pt text_to_match
            then on_match block item url replace_only_matched_text
            else ret tt) ;;
      scan_items text_to_match url replace_only_matched_text block rest
  end.

(** [for block in bullet_list_blocks]. *)
Fixpoint scan_blocks (text_to_match : string) (url : string)
    (replace_only_matched_text : bool) (blocks : list NotionBlock)
  : St world unit :=
  match blocks with
  | [] => ret tt
  | block :: rest =>
      txt <~ lift (getitem (content block) "text") ;;
      items <~ lift (py_iter txt) ;;
      _ <~ scan_items text_to_match url replace_only_matched_text block items ;;
      scan_blocks text_to_match url replace_only_matched_text rest
  end.

(** [with suppress(StopIteration)]. *)
Definition suppress_StopIteration {S : Type} (m : St S unit) : St S unit :=
  fun s =>
    match m s with
    | (Raise StopIteration, s') => (Ok tt, s')
    | r => r
    end.

Definition not_found_message (text_to_match : string) : string :=
  "Could not find " ++ text_to_match ++ " in bullet list".

Definition _set_bulleted_list_item_link (text_to_match : string)
    (page_id : value) (url : string) (replace_only_matched_text : bool)
  : St world unit :=
  records <~ _get_block_children page_id ;;
  elems <~ lift (py_iter records) ;;
  page_children <~ lift (map_res NotionBlock__init__ elems) ;;
  let bullet_list_blocks :=
    filter (fun child : NotionBlock => is_BULLETED_LIST_ITEM (type child))
           page_children in
  suppress_StopIteration
    (_ <~ scan_blocks text_to_match url replace_only_matched_text
            bullet_list_blocks ;;
     raise (ValueError (not_found_message text_to_match))).

(** *** [NotionAPI._get_database_pages] *)

(** The key [\ufeffName]: the byte order mark in UTF-8, then [Name]. *)
Definition BOM_Name : string :=
  String "239"%char (String "187"%char (String "191"%char "Name")).

(** [n["title"][0]["text"]["content"]], the tail of the title lookup. *)
Definition title_text (n : value) : res value :=
  t <- getitem n "title" ;;
  f <- getitem_0 t ;;
  x <- getitem f "text" ;;
  getitem x "content".

(** [item["properties"][name]["title"][0]["text"]["content"]]. *)
Definition title_path (name : string) (item : value) : res value :=
  p <- getitem item "properties" ;;
  n <- getitem p name ;;
  title_text n.

(** The [try] / [except KeyError] around the title. *)
Definition extract_title (item : value) : res value :=
  match title_path BOM_Name item with
  | Ok title => Ok title
  | Raise e => if is_KeyError e then title_path "Name" item else Raise e
  end.

(** The dict [pages], keyed by the ids, in insertion order.  Lists and dicts
    are not hashable; [True] and [1], [False] and [0] are the same key.
    Decoded JSON holds no [NotionBlock]. *)
Definition hashable (k : value) : bool :=
  match k with
  | VList _ | VDict _ => false
  | _ => true
  end.

Definition key_eqb (a b : value) : bool :=
  match a, b with
  | VNone, VNone => true
  | VBool x, VBool y => Bool.eqb x y
  | VBool x, VInt y | VInt y, VBool x => Z.eqb y (if x then 1 else 0)
  | VInt x, VInt y => Z.eqb x y
  | VStr x, VStr y => String.eqb x y
  | _, _ => false
  end.

Fixpoint pages_set (k v : value) (pages : list (value * value))
  : list (value * value) :=
  match pages with
  | [] => [(k, v)]
  | (k', v') :: rest =>
      if key_eqb k k' then (k', v) :: rest else (k', v') :: pages_set k v rest
  end.

Fixpoint pages_get (k : value) (pages : list (value * value))
  : option value :=
  match pages with
  | [] => None
  | (k', v) :: rest => if key_eqb k k' then Some v else pages_get k rest
  end.

(** [for item in results]. *)
Fixpoint collect_items (items : list value) (pages : list (value * value))
  : res (list (value * value)) :=
  match items with
  | [] => Ok pages
  | item :: rest =>
      o <- getitem item "object" ;;
      if negb (eq_str o "page") then collect_items rest pages
      else
        title <- extract_title item ;;
        item' <- setitem item "title" title ;;
        i <- getitem item' "id" ;;
        if hashable i then collect_items rest (pages_set i item' pages)
        else Raise TypeError
  end.

(** What one iteration of the [while] loop does with the decoded response:
    the pages, [has_next] and the cursor after it. *)
Definition process_response (response : Response)
    (pages : list (value * value)) (cursor : value)
  : res (list (value * value) * value * value) :=
  response_data <- response_json response ;;
  results <- getitem response_data "results" ;;
  items <- py_iter results ;;
  pages' <- collect_items items pages ;;
  has_next <- get_method response_data "has_more" ;;
  if truthy has_next then
    c <- getitem response_data "next_cursor" ;;
    Ok (pages', has_next, c)
  else Ok (pages', has_next, cursor).

Definition query_payload (cursor : value) : value :=
  let payload := [("page_size", VInt 100)] in
  VDict (if truthy cursor then dict_set "start_cursor" cursor payload
         else payload).

(** The [while has_next] loop; [None] when it is still running after [fuel]
    iterations. *)
Fixpoint pages_loop (fuel : nat) (database_id : value)
    (pages : list (value * value)) (cursor : value) (w : world)
  : option (res (list (value * value)) * world) :=
  match fuel with
  | O => None
  | Datatypes.S fuel' =>
      match requests_request "POST" (url_database_query database_id)
              (Some (query_payload cursor)) w with
      | (Raise e, w') => Some (Raise e, w')
      | (Ok response, w') =>
          match process_response response pages cursor with
          | Raise e => Some (Raise e, w')
          | Ok (pages', has_next, cursor') =>
              if truthy has_next
              then pages_loop fuel' database_id pages' cursor' w'
              else Some (Ok pages', w')
          end
      end
  end.

Definition _get_database_pages (fuel : nat) (database_id : value) (w : world)
  : option (res (list (value * value)) * world) :=
  pages_loop fuel database_id [] VNone w.

(** ** The conversion as the specification words it *)

(** One element of a collection after normalization: a [NotionBlock]
    instance is converted by the operation itself, any other element passes
    unchanged. *)
Definition converted_elem (e e' : value) : Prop :=
  match e with
  | VBlock child =>
      exists child', _convert_block_to_json child = Ok (e', child')
  | _ => e' = e
  end.

(** Under [key], [c'] holds the normalized collection of [c] (and no
    collection when [c] has none). *)
Definition normalized_at (key : string) (c c' : list (string * value))
  : Prop :=
  match dict_get key c with
  | None => dict_get key c' = None
  | Some coll =>
      exists l l',
        coll = VList l /\ dict_get key c' = Some (VList l') /\
        Forall2 converted_elem l l'
  end.

(** The payload of [block] is its content [c'] wrapped under the type-tag
    key together with the [object] and [type] fields. *)
Definition wraps (block : NotionBlock) (c' : list (string * value))
    (payload : value) : Prop :=
  payload = NotionBlock_to_dict (set_content block (VDict c')).

(** The conversion of [block] as specified: both collections are
    normalized, each replaced by its own normalized collection, and the
    content is wrapped. *)
Definition toWirePayload_as_specified (block : NotionBlock) : Prop :=
  forall c,
    content block = VDict c ->
    dict_get "children" c <> None \/ dict_get "cells" c <> None ->
    exists c' payload block',
      _convert_block_to_json block = Ok (payload, block') /\
      wraps block c' payload /\
      normalized_at "children" c c' /\
      normalized_at "cells" c c'.

(** ** Vocabulary for the scan of [_set_bulleted_list_item_link] *)

(** The text runs of a block: the items the loop over
    [block.content["text"]] visits. *)
Definition runs_of (block : NotionBlock) : res (list value) :=
  txt <- getitem (content block) "text" ;; py_iter txt.

(** Whether the plain text of the run [item] equals [text_to_match];
    [None] when [item] is no record. *)
Definition run_matches (text_to_match : string) (item : value)
  : option bool :=
  match item with
  | VDict d =>
      match dict_get "plain_text" d with
      | Some pt => Some (eq_str pt text_to_match)
      | None => Some false
      end
  | _ => None
  end.

(** A block with runs, none of which has the plain text [text_to_match]. *)
Definition no_matching_run (text_to_match : string) (block : NotionBlock)
  : Prop :=
  exists items,
    runs_of block = Ok items /\
    Forall (fun item => run_matches text_to_match item = Some false) items.

(** The bulleted list items among the decoded children. *)
Definition bullet_list_blocks (page_children : list NotionBlock)
  : list NotionBlock :=
  filter (fun child : NotionBlock => is_BULLETED_LIST_ITEM (type child))
         page_children.

(** ** Vocabulary for the pagination of [_get_database_pages] *)

(** The field [k] of the decoded body of a response. *)
Definition body_field (r : Response) (k : string) : option value :=
  match json_body r with
  | Some (VDict d) => dict_get k d
  | _ => None
  end.

(** The service reports that more results exist and hands out [cursor]. *)
Definition more_page (r : Response) (cursor : string) : Prop :=
  (exists h, body_field r "has_more" = Some h /\ truthy h = true) /\
  body_field r "next_cursor" = Some (VStr cursor) /\
  cursor <> "".

(** The service reports that no more results exist. *)
Definition last_page (r : Response) : Prop :=
  (exists d, json_body r = Some (VDict d)) /\
  forall h, body_field r "has_more" = Some h -> truthy h = false.

Definition results_of (r : Response) : list value :=
  match body_field r "results" with
  | Some (VList l) => l
  | _ => []
  end.

(** A page record of the service, with its id and the title that the
    extraction finds in it. *)
Definition page_record (item : value) (page_id : string) (title : value)
  : Prop :=
  getitem item "object" = Ok (VStr "page") /\
  getitem item "id" = Ok (VStr page_id) /\
  extract_title item = Ok title.

(** Every result is a record with an [object] field, and the results that
    are pages have a string id and a title. *)
Definition well_formed_item (item : value) : Prop :=
  exists o,
    getitem item "object" = Ok o /\
    (eq_str o "page" = true ->
     exists page_id title, page_record item page_id title).

Definition well_formed_results (r : Response) : Prop :=
  (exists l, body_field r "results" = Some (VList l)) /\
  Forall well_formed_item (results_of r).

(** The record [item] with the field [title] added. *)
Definition with_title (item title : value) : value :=
  match item with
  | VDict d => VDict (dict_set "title" title d)
  | _ => item
  end.

(** The query for one page of results, without or with a start cursor. *)
Definition query (database_id : value) (cursor : option string) : event :=
  Request "POST" (url_database_query database_id)
    (Some (VDict (("page_size", VInt 100)
                    :: match cursor with
                       | Some c => [("start_cursor", VStr c)]
                       | None => []
                       end))).

(** ** Auxiliary definitions for the statements *)

Definition is_block (v : value) : bool :=
  match v with VBlock _ => true | _ => false end.

(** The start cursor as the loop holds it: [None] before the first query. *)
Definition cursor_value (cursor : option string) : value :=
  match cursor with
  | Some c => VStr c
  | None => VNone
  end.

(** The two properties of the mapping [pages] with respect to the results
    [seen] so far: each entry is a page record of the service under its id,
    with the title added, and each page id is a key. *)
Definition entries_from (seen : list value) (pages : list (value * value))
  : Prop :=
  forall k v,
    In (k, v) pages ->
    exists item page_id title,
      In item seen /\ page_record item page_id title /\
      k = VStr page_id /\ v = with_title item title.

Definition covers (seen : list value) (pages : list (value * value)) : Prop :=
  forall item page_id title,
    In item seen -> page_record item page_id title ->
    exists v, pages_get (VStr page_id) pages = Some v.

(** ** Example data *)

(** A property record and a block record as the service sends them. *)
Definition select_record : list (string * value) :=
  [("type", VStr "select");
   ("select", VDict [("name", VStr "Done")])].

Definition paragraph_record : list (string * value) :=
  [("object", VStr "block"); ("id", VStr "b-1"); ("type", VStr "paragraph");
   ("paragraph", VDict [("rich_text", VList [])]);
   ("has_children", VBool false)].

(** The value of a title property whose first run has the content [s]. *)
Definition title_property (s : string) : value :=
  VDict [("title", VList [VDict [("text", VDict [("content", VStr s)])]])].

(** A response with status 429, the error it is turned into and the warning
    that the retry wrapper prints for it; a response with a page. *)
Definition rate_limited : Response :=
  mkResponse 429 "slow down"
    (Some (VDict [("object", VStr "error"); ("status", VInt 429)])).

Definition rate_limit_error : exn :=
  ExceededRateLimitException "Notion API exceeded rate limit: slow down" 429.

Definition rate_limit_warning : string :=
  "Received bad response (429): [Notion API exceeded rate limit: slow down]. Retrying in 30 seconds...".

Definition page_found : Response :=
  mkResponse 200 "" (Some (VDict [("object", VStr "page")])).

(** A paragraph as a block instance and as a wire record; a divider as a
    wire record. *)
Definition paragraph_block : NotionBlock :=
  mkNotionBlock (VStr "block") (VStr "p-1") "paragraph" PARAGRAPH
                (VDict [("rich_text", VList [])]) (VBool false).

Definition paragraph_wire : value :=
  VDict [("object", VStr "block"); ("type", VStr "paragraph");
         ("paragraph", VDict [("rich_text", VList [])])].

Definition divider_wire : value :=
  VDict [("object", VStr "block"); ("type", VStr "divider");
         ("divider", VDict [])].

(** A row whose only collection is [cells], holding a block instance. *)
Definition cells_only_block : NotionBlock :=
  mkNotionBlock (VStr "block") (VStr "r-1") "table_row" TABLE_ROW
                (VDict [("cells", VList [VBlock paragraph_block])])
                (VBool false).

(** A block with both collections. *)
Definition both_keys_block : NotionBlock :=
  mkNotionBlock (VStr "block") (VStr "r-2") "table_row" TABLE_ROW
                (VDict [("children", VList [VBlock paragraph_block]);
                        ("cells", VList [VList []])])
                (VBool true).

(** A column whose children are a block instance and a wire record. *)
Definition column_block : NotionBlock :=
  mkNotionBlock (VStr "block") (VStr "c-1") "column" OTHER
                (VDict [("children",
                         VList [VBlock paragraph_block; divider_wire])])
                (VBool true).

(** A wire record with both collections, and the wire form of such a row. *)
Definition two_collections_record : list (string * value) :=
  [("object", VStr "block"); ("id", VStr "r-3"); ("type", VStr "table_row");
   ("table_row",
    VDict [("children", VList [paragraph_wire]);
           ("cells", VList [VList []])]);
   ("has_children", VBool true)].

Definition table_row_wire (children cells : list value) : value :=
  VDict [("object", VStr "block"); ("type", VStr "table_row");
         ("table_row",
          VDict [("children", VList children); ("cells", VList cells)])].

(** A text run without a link and the same run with the link [url]. *)
Definition run (txt : string) : value :=
  VDict [("plain_text", VStr txt);
         ("text", VDict [("content", VStr txt); ("link", VNone)])].

Definition linked_run (txt url : string) : value :=
  VDict [("plain_text", VStr txt);
         ("text", VDict [("content", VStr txt);
                         ("link", VDict [("url", VStr url)])])].

(** A bulleted list item with the given runs, as the service sends it and
    as the client sends it back. *)
Definition bullet_record (runs : list value) : value :=
  VDict [("object", VStr "block"); ("id", VStr "b-7");
         ("type", VStr "bulleted_list_item");
         ("bulleted_list_item", VDict [("text", VList runs)]);
         ("has_children", VBool false)].

Definition bullet_wire (runs : list value) : value :=
  VDict [("object", VStr "block"); ("type", VStr "bulleted_list_item");
         ("bulleted_list_item", VDict [("text", VList runs)])].

(** The answer to a request for the children of a page, and the answer to
    an update that the service accepts. *)
Definition children_response (records : list value) : Response :=
  mkResponse 200 "" (Some (VDict [("results", VList records)])).

Definition updated : Response := mkResponse 200 "" (Some (VDict [])).

(** A page record with its title under [title_key], before and after
    [_get_database_pages] has added the field [title]. *)
Definition page_item (page_id title_key title : string) : value :=
  VDict [("object", VStr "page"); ("id", VStr page_id);
         ("properties", VDict [(title_key, title_property title)])].

Definition page_item_titled (page_id title_key title : string) : value :=
  VDict [("object", VStr "page"); ("id", VStr page_id);
         ("properties", VDict [(title_key, title_property title)]);
         ("title", VStr title)].

(** One page of the results of a database query. *)
Definition results_page (items : list value) (has_more : bool)
    (next_cursor : value) : Response :=
  mkResponse 200 ""
    (Some (VDict [("object", VStr "list"); ("results", VList items);
                  ("has_more", VBool has_more);
                  ("next_cursor", next_cursor)])).

(** A database of three pages, served one page per query. *)
Definition first_results : Response :=
  results_page [page_item "id-1" BOM_Name "Spec A"] true (VStr "cur-1").

Definition second_results : Response :=
  results_page [page_item "id-2" "Name" "Spec B"] true (VStr "cur-2").

Definition third_results : Response :=
  results_page [page_item "id-3" "Name" "Spec C"] false VNone.

(** ** Further methods of [notion_api.py] *)

(** [NotionAPI._set_headers]. *)
Definition _set_headers (internal_integration_token : string)
  : list (string * value) :=
  [("Accept", VStr "application/json");
   ("Content-Type", VStr "application/json");
   ("Notion-Version", VStr "2022-06-28");
   ("Authorization", VStr ("Bearer " ++ internal_integration_token))].

(** [NotionAPI._get_headers]; [default_headers] is the attribute of that
    name, which [.copy()] leaves as it is.  [add_headers.items()] needs a
    dict. *)
Definition _get_headers (default_headers : list (string * value))
    (is_json : bool) (add_headers : value) : res (list (string * value)) :=
  let headers := default_headers in
  let headers :=
    if is_json
    then dict_set "content-type" (VStr "application/json; charset=UTF-8")
                  headers
    else headers in
  if truthy add_headers then
    match add_headers with
    | VDict items =>
        Ok (fold_left (fun h kv => dict_set (fst kv) (snd kv) h) items headers)
    | _ => Raise AttributeError
    end
  else Ok headers.

(** [NotionAPI._update_page].  The dict comprehension
    [{page_property.name: page_property.to_dict() ...}] assigns the
    properties in their order. *)
Definition properties_dict (properties : list NotionPageProperty)
  : list (string * value) :=
  fold_left
    (fun d page_property =>
       dict_set (p_name page_property)
                (NotionPageProperty_to_dict page_property) d)
    properties [].

Definition _update_page__wrapped__ (page_id : value)
    (properties : list NotionPageProperty) : St world unit :=
  let payload := VDict [("properties", VDict (properties_dict properties))] in
  response <~ requests_request "PATCH" (url_page page_id) (Some payload) ;;
  lift (_check_response response).

Definition _update_page (page_id : value)
    (properties : list NotionPageProperty) : St world unit :=
  retry_on_bad_response (_update_page__wrapped__ page_id properties).

(** [NotionAPI._get_all_children].  The loop [for child in children] assigns
    into the blocks of the list, which is returned; [rec] is the recursive
    call.  In [child.content["children"] = self._get_all_children(child.id)]
    the call comes before the assignment. *)
Fixpoint expand_children
    (rec : value -> world -> option (res (list NotionBlock) * world))
    (children : list NotionBlock) (w : world)
  : option (res (list NotionBlock) * world) :=
  match children with
  | [] => Some (Ok [], w)
  | child :: rest =>
      if truthy (has_children child) then
        match rec (id child) w with
        | None => None
        | Some (Raise e, w') => Some (Raise e, w')
        | Some (Ok sub, w') =>
            match setitem (content child) "children"
                          (VList (map VBlock sub)) with
            | Raise e => Some (Raise e, w')
            | Ok c' =>
                match expand_children rec rest w' with
                | None => None
                | Some (Raise e, w'') => Some (Raise e, w'')
                | Some (Ok rest', w'') =>
                    Some (Ok (set_content child c' :: rest'), w'')
                end
            end
        end
      else
        match expand_children rec rest w with
        | None => None
        | Some (Raise e, w') => Some (Raise e, w')
        | Some (Ok rest', w') => Some (Ok (child :: rest'), w')
        end
  end.

(** [None] when the recursion is deeper than [fuel]. *)
Fixpoint _get_all_children (fuel : nat) (parent_id : value) (w : world)
  : option (res (list NotionBlock) * world) :=
  match fuel with
  | O => None
  | Datatypes.S fuel' =>
      match _get_block_children parent_id w with
      | (Raise e, w1) => Some (Raise e, w1)
      | (Ok records, w1) =>
          match (elems <- py_iter records ;;
                 map_res NotionBlock__init__ elems) with
          | Raise e => Some (Raise e, w1)
          | Ok children =>
              expand_children (_get_all_children fuel') children w1
          end
      end
  end.

(** [NotionAPI.get_page_content]. *)

(** ["".join(parts)]: every part has to be a [str]. *)
Fixpoint join_str (parts : list value) : res string :=
  match parts with
  | [] => Ok ""
  | VStr s :: rest => r <- join_str rest ;; Ok (s ++ r)
  | _ :: _ => Raise TypeError
  end.

(** ["".join([t["plain_text"] for t in block["paragraph"]["rich_text"]])]. *)
Definition paragraph_text (block : value) : res string :=
  p <- getitem block "paragraph" ;;
  rt <- getitem p "rich_text" ;;
  items <- py_iter rt ;;
  parts <- map_res (fun t => getitem t "plain_text") items ;;
  join_str parts.

(** [for block in data["results"]]. *)
Fixpoint page_content_loop (blocks : list value) (page_content : list string)
  : res (list string) :=
  match blocks with
  | [] => Ok page_content
  | block :: rest =>
      ty <- getitem block "type" ;;
      if eq_str ty "paragraph" then
        paragraph <- paragraph_text block ;;
        page_content_loop rest (page_content ++ [paragraph])
      else page_content_loop rest page_content
  end.

Definition get_page_content (page_id : value) : St world (list string) :=
  response <~ requests_request "GET" (url_block_children page_id) None ;;
  lift (data <- response_json response ;;
        results <- getitem data "results" ;;
        blocks <- py_iter results ;;
        page_content_loop blocks []).

(** [NotionAPI._get_correct_user], from [names = user.split(" ")] on:
    [users_json] is what [self._list_all_users()] has returned, and
    [str_lower] is [str.lower]. *)

(** [s.split(" ")]; [cur] is the piece being read. *)
Fixpoint split_space_from (cur : string) (s : string) : list string :=
  match s with
  | EmptyString => [cur]
  | String c s' =>
      if Ascii.eqb c " "%char then cur :: split_space_from "" s'
      else split_space_from (cur ++ String c EmptyString) s'
  end.

Definition split_space (s : string) : list string := split_space_from "" s.

(** [needle in hay] for strings. *)
Fixpoint contains (needle hay : string) : bool :=
  (String.prefix needle hay
   || match hay with
      | EmptyString => false
      | String _ hay' => contains needle hay'
      end)%bool.

(** The loop [for name in names] over one user; [is_user] is the flag. *)
Fixpoint is_user_loop (str_lower : string -> string) (names : list string)
    (json_user : value) (is_user : bool) : res bool :=
  match names with
  | [] => Ok is_user
  | name :: rest =>
      n <- getitem json_user "name" ;;
      match n with
      | VStr user_name =>
          is_user_loop str_lower rest json_user
            (if negb (contains (str_lower name) (str_lower user_name))
             then false else is_user)
      | _ => Raise AttributeError
      end
  end.

(** [for json_user in users_json]; falling off the loop returns [None]. *)
Fixpoint find_user (str_lower : string -> string) (names : list string)
    (users : list value) : res value :=
  match users with
  | [] => Ok VNone
  | json_user :: rest =>
      is_user <- is_user_loop str_lower names json_user true ;;
      if is_user then Ok json_user else find_user str_lower names rest
  end.

Definition _get_correct_user (str_lower : string -> string)
    (users_json : value) (user : string) : res value :=
  let names := split_space user in
  users <- py_iter users_json ;;
  find_user str_lower names users.

(** ** Tables for the statements about classification *)

(** The tag that each member of the enumerations stands for; the catch-all
    members stand for none. *)
Definition block_type_tag (t : NotionBlockType) : option string :=
  match t with
  | PARAGRAPH => Some "paragraph"
  | HEADING_3 => Some "heading_3"
  | HEADING_2 => Some "heading_2"
  | HEADING_1 => Some "heading_1"
  | BULLETED_LIST_ITEM => Some "bulleted_list_item"
  | CHILD_DATABASE => Some "child_database"
  | DIVIDER => Some "divider"
  | COLUMN_LIST => Some "column_list"
  | TABLE => Some "table"
  | TABLE_ROW => Some "table_row"
  | OTHER => None
  end.

Definition property_type_tag (t : NotionPagePropertyType) : option string :=
  match t with
  | SELECT => Some "select"
  | PEOPLE => Some "people"
  | RICH_TEXT => Some "rich_text"
  | RELATION => Some "relation"
  | LAST_EDITED_TIME => Some "last_edited_time"
  | TITLE => Some "title"
  | CREATED_TIME => Some "created_time"
  | CREATED_BY => Some "created_by"
  | DATE => Some "date"
  | FILES => Some "files"
  | MULTI_SELECT => Some "multi_select"
  | P_OTHER => None
  end.

(** ** Auxiliary definitions for the further statements *)

(** Every request among the events [evs] is a [PATCH] of the block
    [block_id] with the payload [payload]. *)
Definition only_patches (block_id payload : value) (evs : list event)
  : Prop :=
  Forall (fun ev =>
            forall m u j,
              ev = Request m u j ->
              m = "PATCH" /\ u = url_block block_id /\ j = Some payload)
         evs.

(** A page record whose title list, under the key that the extraction
    reads, is empty. *)
Definition untitled_page (item : value) : Prop :=
  getitem item "object" = Ok (VStr "page") /\
  exists props n,
    getitem item "properties" = Ok (VDict props) /\
    (dict_get BOM_Name props = Some n \/
     (dict_get BOM_Name props = None /\ dict_get "Name" props = Some n)) /\
    getitem n "title" = Ok (VList []).

(** The service reports more results but hands out a cursor that counts as
    false ([None], an empty string). *)
Definition more_page_without_cursor (r : Response) : Prop :=
  (exists h, body_field r "has_more" = Some h /\ truthy h = true) /\
  exists c, body_field r "next_cursor" = Some c /\ truthy c = false.

(** Whether [get_page_content] takes the record [block] for a paragraph. *)
Definition is_paragraph_record (block : value) : bool :=
  match getitem block "type" with
  | Ok ty => eq_str ty "paragraph"
  | Raise _ => false
  end.

(** Whether the name of the user record [json_user], lower-cased, contains
    every token of [names], lower-cased. *)
Definition user_matches (str_lower : string -> string) (names : list string)
    (json_user : value) : bool :=
  match getitem json_user "name" with
  | Ok (VStr user_name) =>
      forallb (fun name => contains (str_lower name) (str_lower user_name))
              names
  | _ => false
  end.

(** A user record with a string under [name]. *)
Definition named_user (json_user : value) : Prop :=
  exists user_name, getitem json_user "name" = Ok (VStr user_name).

(** The concatenation of the strings [ss]. *)
Definition concat_all (ss : list string) : string :=
  fold_right String.append "" ss.

(** ** Further example data *)

(** A paragraph record with two runs and a heading record. *)
Definition two_run_paragraph : value :=
  VDict [("object", VStr "block"); ("id", VStr "p-2");
         ("type", VStr "paragraph");
         ("paragraph",
          VDict [("rich_text", VList [run "Hello, "; run "world"])]);
         ("has_children", VBool false)].

Definition heading_record : value :=
  VDict [("object", VStr "block"); ("id", VStr "h-1");
         ("type", VStr "heading_1");
         ("heading_1", VDict [("rich_text", VList [run "Title"])]);
         ("has_children", VBool false)].

(** Two users of the workspace. *)
Definition user_ada : value :=
  VDict [("object", VStr "user"); ("name", VStr "Ada Lovelace")].

Definition user_alan : value :=
  VDict [("object", VStr "user"); ("name", VStr "Alan Turing")].

(** A block of the service together with the blocks below it: the record
    the service answers for it, the block that record decodes to, and the
    blocks the service lists under it when the block has children. *)
Inductive remote_block : Type :=
| Remote (record : value) (block : NotionBlock)
         (children : option (list remote_block)).

Definition remote_record (t : remote_block) : value :=
  match t with Remote record _ _ => record end.

Definition remote_decoded (t : remote_block) : NotionBlock :=
  match t with Remote _ block _ => block end.

(** The record decodes to the block, [has_children] tells whether the
    service lists blocks under it, and the content of a block with children
    is an object. *)
Inductive well_formed_remote : remote_block -> Prop :=
| wf_leaf record block :
    NotionBlock__init__ record = Ok block ->
    truthy (has_children block) = false ->
    well_formed_remote (Remote record block None)
| wf_inner record block d children :
    NotionBlock__init__ record = Ok block ->
    truthy (has_children block) = true ->
    content block = VDict d ->
    Forall well_formed_remote children ->
    well_formed_remote (Remote record block (Some children)).

(** Levels of blocks below a block. *)
Fixpoint height (t : remote_block) : nat :=
  match t with
  | Remote _ _ None => O
  | Remote _ _ (Some children) =>
      Datatypes.S (list_max (map height children))
  end.

(** The answers of the service to the requests for the blocks below [t],
    and those requests, a block before the blocks under it and before the
    blocks after it. *)
Fixpoint answers_below (t : remote_block) : list Response :=
  match t with
  | Remote _ _ None => []
  | Remote _ _ (Some children) =>
      children_response (map remote_record children)
        :: flat_map answers_below children
  end.

Fixpoint requests_below (t : remote_block) : list event :=
  match t with
  | Remote _ _ None => []
  | Remote _ block (Some children) =>
      Request "GET" (url_block_children (id block)) None
        :: flat_map requests_below children
  end.

(** The block of [t] with the blocks below it nested under [children]. *)
Fixpoint nested (t : remote_block) : NotionBlock :=
  match t with
  | Remote _ block None => block
  | Remote _ block (Some children) =>
      match content block with
      | VDict d =>
          set_content block
            (VDict (dict_set "children"
                      (VList (map VBlock (map nested children))) d))
      | _ => block
      end
  end.

(** A toggle with a paragraph under it. *)
Definition toggle_record : value :=
  VDict [("object", VStr "block"); ("id", VStr "t-1");
         ("type", VStr "toggle");
         ("toggle", VDict [("rich_text", VList [])]);
         ("has_children", VBool true)].

Definition toggle_block : NotionBlock :=
  mkNotionBlock (VStr "block") (VStr "t-1") "toggle" OTHER
                (VDict [("rich_text", VList [])]) (VBool true).

Definition paragraph_b1 : NotionBlock :=
  mkNotionBlock (VStr "block") (VStr "b-1") "paragraph" PARAGRAPH
                (VDict [("rich_text", VList [])]) (VBool false).

Definition remote_toggle : remote_block :=
  Remote toggle_record toggle_block
         (Some [Remote (VDict paragraph_record) paragraph_b1 None]).

(** The record sent for the block of [t], the records of the blocks below
    it nested under [children]. *)
Fixpoint wire (t : remote_block) : value :=
  match t with
  | Remote _ block None => NotionBlock_to_dict block
  | Remote _ block (Some children) =>
      match content block with
      | VDict d =>
          NotionBlock_to_dict
            (set_content block
               (VDict (dict_set "children" (VList (map wire children)) d)))
      | _ => NotionBlock_to_dict block
      end
  end.

(** Contents as the service sends them: an object, which has no [children]
    in a block without children and no [cells] in a block with children. *)
Inductive plain_remote : remote_block -> Prop :=
| plain_leaf record block d :
    content block = VDict d ->
    dict_get "children" d = None ->
    plain_remote (Remote record block None)
| plain_inner record block d children :
    content block = VDict d ->
    dict_get "cells" d = None ->
    Forall plain_remote children ->
    plain_remote (Remote record block (Some children)).

(** [[self._convert_block_to_json(child) for child in children]] of
    [_create_new_page_under_database], for a list of distinct block
    objects. *)
Definition convert_all (children : list NotionBlock) : res (list value) :=
  map_res (fun child =>
             converted <- _convert_block_to_json child ;;
             Ok (fst converted))
          children.

(** ** The indexing script: [vectorize_notion_database.py] *)

(** The loop over [pages.items()]: the paragraphs of each page, without the
    empty ones, each with the id and the [url] of its page.  [page["url"]]
    is read after the content of the page has been fetched. *)
Fixpoint gather_page_content (items : list (value * value))
    (page_content : list (value * value * string))
  : St world (list (value * value * string)) :=
  match items with
  | [] => ret page_content
  | (page_id, page) :: rest =>
      paragraphs <~ get_page_content page_id ;;
      page_url <~ lift (getitem page "url") ;;
      gather_page_content rest
        (page_content ++
           map (fun paragraph => (page_id, page_url, paragraph))
               (filter (fun paragraph => negb (String.eqb paragraph ""))
                       paragraphs))%list
  end.

Definition batch_size : nat := 128.
Definition vector_limit : nat := Z.to_nat 100000.

(** [range(0, stop, step)] for a positive [step]. *)
Definition py_range_step (stop step : nat) : list nat :=
  map (fun k => k * step)%nat (seq 0 ((stop + step - 1) / step)).

(** [l[i:j]] for indices that are not negative. *)
Definition slice {A : Type} (l : list A) (i j : nat) : list A :=
  firstn (j - i) (skipn i l).

(** [str(x)] of an index. *)
Definition str_nat (x : nat) : string :=
  NilZero.string_of_uint (Nat.to_uint x).

(** [zip(ids, xc, metadatas)], which stops with its shortest argument. *)
Fixpoint zip3 {A B C : Type} (a : list A) (b : list B) (c : list C)
  : list (A * B * C) :=
  match a, b, c with
  | x :: a', y :: b', z :: c' => (x, y, z) :: zip3 a' b' c'
  | _, _, _ => []
  end.

Definition metadata_of (entry : value * value * string) : value :=
  let '(page_id, page_url, paragraph) := entry in
  VDict [("id", page_id); ("url", page_url); ("text", VStr paragraph)].

Section Upsert.

(** The embedding of a list of texts, by the remote model or the local one,
    is a function from outside the repository. *)
Variable vector : Type.
Variable encode : list string -> list vector.

(** The body of the loop [for i in range(0, len(sample), batch_size)]: the
    records passed to [index.upsert]. *)
Definition upsert_batch (sample : list (value * value * string)) (i : nat)
  : list (string * vector * value) :=
  let i_end := Nat.min (i + batch_size) (length sample) in
  let ids := map str_nat (seq i (i_end - i)) in
  let metadatas := map metadata_of (slice sample i i_end) in
  let texts := map (fun entry => snd entry) (slice sample i i_end) in
  let xc := encode texts in
  zip3 ids xc metadatas.

(** The batches upserted, in their order. *)
Definition upsert_batches (page_content : list (value * value * string))
  : list (list (string * vector * value)) :=
  let sample := firstn vector_limit page_content in
  map (upsert_batch sample) (py_range_step (length sample) batch_size).

End Upsert.

(** One page on the way of the script: its id and record, its [url], the
    answer to the request for its content and the texts of that answer. *)
Record visit : Type := mkVisit {
  visit_id : value;
  visit_page : value;
  visit_url : value;
  visit_answer : Response;
  visit_texts : list string
}.

Definition visit_ok (v : visit) : Prop :=
  getitem (visit_page v) "url" = Ok (visit_url v) /\
  exists blocks,
    body_field (visit_answer v) "results" = Some (VList blocks) /\
    page_content_loop blocks [] = Ok (visit_texts v).

(** The entries [l] numbered from [off]: the id of an entry is its index,
    in decimal, and its metadata are those of the entry. *)
Definition numbered (off : nat) (l : list (value * value * string))
  : list (string * value) :=
  combine (map str_nat (seq off (length l))) (map metadata_of l).

Definition id_and_metadata {vector : Type} (r : string * vector * value)
  : string * value :=
  (fst (fst r), snd r).

(** ** Three statements as the specification words them *)



(** The fallback of the title extraction as specified: whenever the lookup
    under the marked key fails, the title is the one found under [Name]. *)
Definition title_fallback_as_specified : Prop :=
  forall (item : value) (e : exn),
    title_path BOM_Name item = Raise e ->
    extract_title item = title_path "Name" item.

(** The round trip of a block record as specified: a type tag and a payload
    under it are enough for the record to decode and for the encoding to
    map the tag to the payload. *)
Definition block_roundtrip_as_specified : Prop :=
  forall (record : list (string * value)) (t : string) (c : value),
    dict_get "type" record = Some (VStr t) ->
    dict_get t record = Some c ->
    exists b,
      NotionBlock__init__ (VDict record) = Ok b /\
      getitem (NotionBlock_to_dict b) "type" = Ok (VStr t) /\
      getitem (NotionBlock_to_dict b) t = Ok c.



Definition empty_title_item : value :=
  VDict [("object", VStr "page"); ("id", VStr "id-4");
         ("properties",
          VDict [(BOM_Name, VDict [("title", VList [])]);
                 ("Name", title_property "Spec A")])].

Definition tag_and_payload_record : list (string * value) :=
  [("type", VStr "paragraph");
   ("paragraph", VDict [("rich_text", VList [])])].

(** * Verified properties *)

(** ** Facts about dictionaries *)

Lemma dict_get_set_same (k : string) (v : value) (d : list (string * value)) :
  dict_get k (dict_set k v d) = Some v.
Proof.
  induction d as [|[k' v'] d IH]; simpl.
  - now rewrite String.eqb_refl.
  - destruct (String.eqb k k') eqn:E; simpl; rewrite E; auto.
Qed.

Lemma dict_get_set_other (k k' : string) (v : value)
    (d : list (string * value)) :
  k <> k' -> dict_get k' (dict_set k v d) = dict_get k' d.
Proof.
  intros Hne. induction d as [|[k0 v0] d IH]; simpl.
  - destruct (String.eqb k' k) eqn:E; auto.
    apply String.eqb_eq in E. congruence.
  - destruct (String.eqb k k0) eqn:E; simpl.
    + apply String.eqb_eq in E. subst k0.
      destruct (String.eqb k' k) eqn:E'; auto.
      apply String.eqb_eq in E'. congruence.
    + destruct (String.eqb k' k0); auto.
Qed.

Lemma getitem_dict (k : string) (d : list (string * value)) (x : value) :
  getitem (VDict d) k = Ok x <-> dict_get k d = Some x.
Proof.
  unfold getitem. destruct (dict_get k d); split; intros H; congruence.
Qed.

Lemma getitem_Ok_dict (v : value) (k : string) (x : value) :
  getitem v k = Ok x -> exists d, v = VDict d /\ dict_get k d = Some x.
Proof.
  destruct v; simpl; try discriminate.
  intros H. exists d. split; auto. now apply getitem_dict.
Qed.

(** The type key of an encoded record holds the type name. *)
Lemma to_dict_type_key (t : string) (c : value) (rest : list (string * value)) :
  (t = "type" -> c = VStr t) ->
  dict_get "type" (dict_set t c (dict_set "type" (VStr t) rest)) = Some (VStr t).
Proof.
  intros Hc. destruct (String.eqb t "type") eqn:E.
  - apply String.eqb_eq in E. rewrite (Hc E). subst t.
    apply dict_get_set_same.
  - apply String.eqb_neq in E.
    rewrite dict_get_set_other by auto. apply dict_get_set_same.
Qed.

(** ** Decoding and encoding records *)

(** C9, amended.  Decoding a property record or a block record that holds a
    type tag [t] and a payload [c] under the key [t] succeeds (a block record
    also needs its [object], [id] and [has_children] fields), and encoding the
    result gives a record that maps [type] to [t] and [t] to the original
    payload [c]; away from the key clashes it is exactly the wrapping
    [{type: t, t: c}], for a block with the [object] field in front. *)
Theorem decode_encode_roundtrip :
  forall (name t : string) (record : list (string * value)) (c : value),
    dict_get "type" record = Some (VStr t) ->
    dict_get t record = Some c ->
    (exists p,
        NotionPageProperty__init__ name (VDict record) = Ok p /\
        p_content p = c /\
        getitem (NotionPageProperty_to_dict p) "type" = Ok (VStr t) /\
        getitem (NotionPageProperty_to_dict p) t = Ok c /\
        (t <> "type" ->
         NotionPageProperty_to_dict p = VDict [("type", VStr t); (t, c)]))
    /\
    (forall o i h,
        dict_get "object" record = Some o ->
        dict_get "id" record = Some i ->
        dict_get "has_children" record = Some h ->
        exists b,
          NotionBlock__init__ (VDict record) = Ok b /\
          content b = c /\
          getitem (NotionBlock_to_dict b) "type" = Ok (VStr t) /\
          getitem (NotionBlock_to_dict b) t = Ok c /\
          (t <> "type" -> t <> "object" ->
           NotionBlock_to_dict b =
             VDict [("object", o); ("type", VStr t); (t, c)])).
Proof.
  intros name t record c Ht Hc.
  assert (Htc : t = "type" -> c = VStr t) by (intros ->; congruence).
  split.
  - eexists. split.
    + unfold NotionPageProperty__init__, getitem. rewrite Ht. simpl.
      rewrite Hc. simpl. reflexivity.
    + unfold NotionPageProperty_to_dict; cbn [p_type_name p_content].
      repeat split.
      * apply getitem_dict. now apply to_dict_type_key.
      * apply getitem_dict, dict_get_set_same.
      * intros Hne. apply String.eqb_neq in Hne. simpl. now rewrite Hne.
  - intros o i h Ho Hi Hh. eexists. split.
    + unfold NotionBlock__init__, getitem. rewrite Ho, Hi, Ht. simpl.
      rewrite Hc, Hh. simpl. reflexivity.
    + unfold NotionBlock_to_dict; cbn [type_name content object].
      repeat split.
      * apply getitem_dict. now apply to_dict_type_key.
      * apply getitem_dict, dict_get_set_same.
      * intros H1 H2. apply String.eqb_neq in H1, H2. simpl.
        now rewrite H2, H1.
Qed.

Lemma decode_encode_roundtrip_witness :
  (exists p,
      NotionPageProperty__init__ "Status" (VDict select_record) = Ok p /\
      NotionPageProperty_to_dict p = VDict select_record)
  /\
  (exists b,
      NotionBlock__init__ (VDict paragraph_record) = Ok b /\
      NotionBlock_to_dict b =
        VDict [("object", VStr "block"); ("type", VStr "paragraph");
               ("paragraph", VDict [("rich_text", VList [])])]).
Proof.
  split.
  - destruct (decode_encode_roundtrip "Status" "select" select_record
                (VDict [("name", VStr "Done")]) eq_refl eq_refl)
      as [[p (Hp & _ & _ & _ & Heq)] _].
    exists p. split; [exact Hp | apply Heq; discriminate].
  - destruct (decode_encode_roundtrip "" "paragraph" paragraph_record
                (VDict [("rich_text", VList [])]) eq_refl eq_refl)
      as [_ Hb].
    destruct (Hb (VStr "block") (VStr "b-1") (VBool false)
                 eq_refl eq_refl eq_refl) as [b (Hb1 & _ & _ & _ & Heq)].
    exists b. split; [exact Hb1 | apply Heq; discriminate].
Defined.

(** C9 as the specification states it does not hold for blocks: a record
    that holds a type tag and the payload under it, and nothing else, does
    not decode; the construction raises [KeyError] for [object]. *)
Lemma block_roundtrip_as_specified_fails :
  ~ block_roundtrip_as_specified /\
  NotionBlock__init__ (VDict tag_and_payload_record)
  = Raise (KeyError (VStr "object")).
Proof.
  split; [|reflexivity].
  intros H.
  destruct (H tag_and_payload_record "paragraph"
              (VDict [("rich_text", VList [])]) eq_refl eq_refl)
    as (b & Hb & _).
  discriminate Hb.
Qed.

(** C10.  A block record that holds its type tag and the payload under it,
    but lacks one of the keys [object], [id] and [has_children], does not
    decode: the construction raises [KeyError] for the first key that is
    missing. *)
Theorem block_decode_requires_object_id_has_children :
  forall (record : list (string * value)) (t : string) (c : value),
    dict_get "type" record = Some (VStr t) ->
    dict_get t record = Some c ->
    dict_get "object" record = None \/
    dict_get "id" record = None \/
    dict_get "has_children" record = None ->
    exists k,
      (k = "object" \/ k = "id" \/ k = "has_children") /\
      dict_get k record = None /\
      NotionBlock__init__ (VDict record) = Raise (KeyError (VStr k)).
Proof.
  intros record t c Ht Hc Hmiss.
  unfold NotionBlock__init__, getitem.
  destruct (dict_get "object" record) as [o|] eqn:Ho.
  - destruct (dict_get "id" record) as [i|] eqn:Hi.
    + destruct (dict_get "has_children" record) as [h|] eqn:Hh.
      * destruct Hmiss as [H|[H|H]]; discriminate.
      * exists "has_children". rewrite Ht. simpl. rewrite Hc, Hh. simpl. auto.
    + exists "id". simpl. auto.
  - exists "object". simpl. auto.
Qed.

Lemma block_decode_requires_object_id_has_children_witness :
  exists k,
    (k = "object" \/ k = "id" \/ k = "has_children") /\
    dict_get k [("object", VStr "block"); ("type", VStr "divider");
                ("divider", VDict []); ("has_children", VBool false)] = None /\
    NotionBlock__init__
      (VDict [("object", VStr "block"); ("type", VStr "divider");
              ("divider", VDict []); ("has_children", VBool false)])
    = Raise (KeyError (VStr k)).
Proof.
  apply (block_decode_requires_object_id_has_children
           [("object", VStr "block"); ("type", VStr "divider");
            ("divider", VDict []); ("has_children", VBool false)]
           "divider" (VDict []) eq_refl eq_refl).
  right; left; reflexivity.
Defined.

(** ** Title extraction *)

(** C8, amended.  The title is looked up under the key with the byte order
    mark first; when that lookup raises [KeyError] the title is looked up
    under [Name], and the failure of this second lookup is the failure of
    the extraction and of the whole collection of the results.  Any other
    failure of the first lookup is the failure of the extraction, without a
    second lookup.  With the title under the marked key the extraction
    yields it, with the title under [Name] it yields that one, and with
    neither key it raises [KeyError]. *)
Theorem title_extraction_bom_then_name :
  (forall item title,
      title_path BOM_Name item = Ok title -> extract_title item = Ok title)
  /\
  (forall item k,
      title_path BOM_Name item = Raise (KeyError k) ->
      extract_title item = title_path "Name" item)
  /\
  (forall item e,
      title_path BOM_Name item = Raise e ->
      is_KeyError e = false ->
      extract_title item = Raise e)
  /\
  (forall item props n title,
      getitem item "properties" = Ok (VDict props) ->
      dict_get BOM_Name props = Some n ->
      title_text n = Ok title ->
      extract_title item = Ok title)
  /\
  (forall item props n,
      getitem item "properties" = Ok (VDict props) ->
      dict_get BOM_Name props = None ->
      dict_get "Name" props = Some n ->
      extract_title item = title_text n)
  /\
  (forall item props,
      getitem item "properties" = Ok (VDict props) ->
      dict_get BOM_Name props = None ->
      dict_get "Name" props = None ->
      extract_title item = Raise (KeyError (VStr "Name")))
  /\
  (forall item rest pages e,
      getitem item "object" = Ok (VStr "page") ->
      extract_title item = Raise e ->
      collect_items (item :: rest) pages = Raise e)
  /\
  extract_title
    (VDict [("properties", VDict [(BOM_Name, title_property "Spec A")])])
  = Ok (VStr "Spec A")
  /\
  extract_title
    (VDict [("properties", VDict [("Name", title_property "Spec B")])])
  = Ok (VStr "Spec B")
  /\
  extract_title (VDict [("properties", VDict [])])
  = Raise (KeyError (VStr "Name")).
Proof.
  repeat split.
  - intros item title H. unfold extract_title. now rewrite H.
  - intros item k H. unfold extract_title. now rewrite H.
  - intros item e H He. unfold extract_title. now rewrite H, He.
  - intros item props n title Hp Hn H. unfold extract_title, title_path.
    rewrite Hp. simpl. rewrite Hn. simpl. now rewrite H.
  - intros item props n Hp Hb Hn. unfold extract_title, title_path.
    rewrite Hp. simpl. rewrite Hb, Hn. reflexivity.
  - intros item props Hp Hb Hn. unfold extract_title, title_path.
    rewrite Hp. simpl. rewrite Hb, Hn. reflexivity.
  - intros item rest pages e Ho He. simpl. rewrite Ho. simpl.
    now rewrite He.
Qed.

Lemma title_extraction_bom_then_name_witness :
  extract_title
    (VDict [("object", VStr "page");
            ("properties", VDict [(BOM_Name, title_property "Spec A")])])
  = Ok (VStr "Spec A")
  /\
  extract_title
    (VDict [("object", VStr "page");
            ("properties", VDict [("Name", title_property "Spec B")])])
  = Ok (VStr "Spec B")
  /\
  extract_title
    (VDict [("object", VStr "page");
            ("properties", VDict [("Title", title_property "Spec C")])])
  = Raise (KeyError (VStr "Name"))
  /\
  extract_title empty_title_item = Raise IndexError.
Proof.
  destruct title_extraction_bom_then_name
    as (_ & _ & Hother & Hbom & Hname & Hnone & _).
  split; [|split; [|split]].
  - apply (Hbom _ [(BOM_Name, title_property "Spec A")]
             (title_property "Spec A")); reflexivity.
  - transitivity (title_text (title_property "Spec B")); [|reflexivity].
    apply (Hname _ [("Name", title_property "Spec B")]); reflexivity.
  - apply (Hnone _ [("Title", title_property "Spec C")]); reflexivity.
  - apply Hother; reflexivity.
Defined.

(** C8 as the specification states it does not hold: a page record with an
    empty title list under the marked key and a title under [Name] fails the
    first lookup, yet the extraction raises [IndexError] where the lookup
    under [Name] yields the title. *)
Lemma title_fallback_as_specified_fails :
  ~ title_fallback_as_specified /\
  title_path BOM_Name empty_title_item = Raise IndexError /\
  title_path "Name" empty_title_item = Ok (VStr "Spec A") /\
  extract_title empty_title_item = Raise IndexError.
Proof.
  split; [|repeat split].
  intros H. specialize (H empty_title_item IndexError eq_refl).
  discriminate H.
Qed.

(** ** The retry loop *)

Section Retry.
Context {S A : Type} `{HasWorld S}.
Variable func : St S A.

Lemma retry_loop_Ok (n : nat) (error : option exn) (s s' : S) (a : A) :
  func s = (Ok a, s') ->
  retry_loop (Datatypes.S n) error func s = (Ok a, s').
Proof. intros E. simpl. now rewrite E. Qed.

Lemma retry_loop_other (n : nat) (error : option exn) (s s' : S) (e : exn) :
  func s = (Raise e, s') ->
  is_BadRequestException e = false ->
  retry_loop (Datatypes.S n) error func s = (Raise e, s').
Proof. intros E F. simpl. now rewrite E, F. Qed.

Lemma retry_loop_bad (n : nat) (error : option exn) (s s' : S) (e : exn) :
  func s = (Raise e, s') ->
  is_BadRequestException e = true ->
  retry_loop (Datatypes.S n) error func s =
    retry_loop n (Some e) func (pause e s').
Proof. intros E F. simpl. now rewrite E, F. Qed.

Lemma retry_loop_counting (n : nat) :
  forall (error : option exn) (k : nat) (s : S),
  exists m : nat,
    (m <= n)%nat /\ (n <> 0%nat -> 1 <= m)%nat /\
    retry_loop n error (counting func) (k, s) =
      (fst (retry_loop n error func s),
       ((k + m)%nat, snd (retry_loop n error func s))).
Proof.
  induction n as [|n IH]; intros error k s.
  - exists 0%nat. repeat split; try lia.
    rewrite Nat.add_0_r. destruct error; reflexivity.
  - simpl. unfold counting at 1. simpl.
    destruct (func s) as [[a|e] s'] eqn:E.
    + exists 1%nat. repeat split; try lia. simpl.
      now rewrite Nat.add_1_r.
    + destruct (is_BadRequestException e) eqn:F.
      * unfold bind, emit. simpl.
        destruct (IH (Some e) (Datatypes.S k) (pause e s')) as (m & Hm & _ & Heq).
        exists (Datatypes.S m). repeat split; try lia.
        unfold pause, bind, emit in Heq. simpl in Heq.
        rewrite Heq. simpl. f_equal. f_equal. lia.
      * exists 1%nat. repeat split; try lia. simpl.
        now rewrite Nat.add_1_r.
Qed.
End Retry.

Lemma pause_world (e : exn) (w : world) :
  pause e w = mkWorld (pending w) (trace w ++ [Print (retry_message e); Sleep 30]).
Proof.
  unfold pause, bind, emit, log. simpl. now rewrite <- app_assoc.
Qed.

(** ** The retry policy *)

(** C5.  The wrapper returns the result of the first attempt that succeeds;
    an error outside the bad-request family leaves the wrapper at once,
    whichever attempt raises it; after each error of the family a warning is
    printed and 30 seconds are slept; after three such errors the last one
    is raised, and no fourth attempt is made: the wrapped function is called
    at least once and at most three times.  Three responses with status 429
    and then one with status 200 end in the rate-limit error, the fourth
    response unread. *)
Theorem retry_on_bad_response_policy :
  (forall (S A : Type) (HW : HasWorld S) (func : St S A) (s0 : S),
      (forall a s1,
          func s0 = (Ok a, s1) ->
          retry_on_bad_response func s0 = (Ok a, s1))
      /\
      (forall e s1,
          func s0 = (Raise e, s1) -> is_BadRequestException e = false ->
          retry_on_bad_response func s0 = (Raise e, s1))
      /\
      (forall e1 s1,
          func s0 = (Raise e1, s1) -> is_BadRequestException e1 = true ->
          (forall a s2,
              func (pause e1 s1) = (Ok a, s2) ->
              retry_on_bad_response func s0 = (Ok a, s2))
          /\
          (forall e s2,
              func (pause e1 s1) = (Raise e, s2) ->
              is_BadRequestException e = false ->
              retry_on_bad_response func s0 = (Raise e, s2))
          /\
          (forall e2 s2,
              func (pause e1 s1) = (Raise e2, s2) ->
              is_BadRequestException e2 = true ->
              (forall a s3,
                  func (pause e2 s2) = (Ok a, s3) ->
                  retry_on_bad_response func s0 = (Ok a, s3))
              /\
              (forall e s3,
                  func (pause e2 s2) = (Raise e, s3) ->
                  is_BadRequestException e = false ->
                  retry_on_bad_response func s0 = (Raise e, s3))
              /\
              (forall e3 s3,
                  func (pause e2 s2) = (Raise e3, s3) ->
                  is_BadRequestException e3 = true ->
                  retry_on_bad_response func s0 = (Raise e3, pause e3 s3))))
      /\
      (1 <= fst (snd (retry_on_bad_response (counting func) (0%nat, s0)))
       <= 3)%nat)
  /\
  (forall e w,
      pause e w
      = mkWorld (pending w)
                (trace w ++ [Print (retry_message e); Sleep 30]))
  /\
  _get_page (VStr "p")
    (mkWorld [rate_limited; rate_limited; rate_limited; page_found] [])
  = (Raise rate_limit_error,
     mkWorld [page_found]
       [Request "GET" (url_page (VStr "p")) None;
        Print rate_limit_warning; Sleep 30;
        Request "GET" (url_page (VStr "p")) None;
        Print rate_limit_warning; Sleep 30;
        Request "GET" (url_page (VStr "p")) None;
        Print rate_limit_warning; Sleep 30]).
Proof.
  split; [|split; [apply pause_world | vm_compute; reflexivity]].
  intros S A HW func s0. unfold retry_on_bad_response.
  split; [|split; [|split]].
  - intros a s1 E. now apply retry_loop_Ok.
  - intros e s1 E F. now apply retry_loop_other.
  - intros e1 s1 E1 F1. rewrite (retry_loop_bad func _ _ _ _ _ E1 F1).
    split; [|split].
    + intros a s2 E. now apply retry_loop_Ok.
    + intros e s2 E F. now apply retry_loop_other.
    + intros e2 s2 E2 F2. rewrite (retry_loop_bad func _ _ _ _ _ E2 F2).
      split; [|split].
      * intros a s3 E. now apply retry_loop_Ok.
      * intros e s3 E F. now apply retry_loop_other.
      * intros e3 s3 E3 F3. rewrite (retry_loop_bad func _ _ _ _ _ E3 F3).
        reflexivity.
  - destruct (retry_loop_counting func 3 None 0 s0) as (m & Hle & Hge & Heq).
    rewrite Heq. simpl. lia.
Qed.

Lemma retry_on_bad_response_policy_witness :
  retry_on_bad_response (_get_page__wrapped__ (VStr "p"))
    (mkWorld [rate_limited; rate_limited; rate_limited; page_found] [])
  = (Raise rate_limit_error,
     mkWorld [page_found]
       [Request "GET" (url_page (VStr "p")) None;
        Print rate_limit_warning; Sleep 30;
        Request "GET" (url_page (VStr "p")) None;
        Print rate_limit_warning; Sleep 30;
        Request "GET" (url_page (VStr "p")) None;
        Print rate_limit_warning; Sleep 30]).
Proof.
  destruct retry_on_bad_response_policy as [Hpolicy _].
  destruct (Hpolicy world value _ (_get_page__wrapped__ (VStr "p"))
              (mkWorld [rate_limited; rate_limited; rate_limited; page_found]
                       []))
    as (_ & _ & Hfirst & _).
  destruct (Hfirst rate_limit_error
              (mkWorld [rate_limited; rate_limited; page_found]
                       [Request "GET" (url_page (VStr "p")) None])
              eq_refl eq_refl) as (_ & _ & Hsecond).
  destruct (Hsecond rate_limit_error
              (mkWorld [rate_limited; page_found]
                       [Request "GET" (url_page (VStr "p")) None;
                        Print rate_limit_warning; Sleep 30;
                        Request "GET" (url_page (VStr "p")) None])
              eq_refl eq_refl) as (_ & _ & Hthird).
  exact (Hthird rate_limit_error
           (mkWorld [page_found]
                    [Request "GET" (url_page (VStr "p")) None;
                     Print rate_limit_warning; Sleep 30;
                     Request "GET" (url_page (VStr "p")) None;
                     Print rate_limit_warning; Sleep 30;
                     Request "GET" (url_page (VStr "p")) None])
           eq_refl eq_refl).
Defined.

(** ** Depth of nested values *)

Lemma depth_In_list (x : value) (l : list value) :
  In x l -> (depth x < depth (VList l))%nat.
Proof.
  simpl. induction l as [|y l IH]; simpl; intros Hin; [contradiction|].
  destruct Hin as [->|Hin]; [lia|]. specialize (IH Hin). lia.
Qed.

Lemma depth_dict_get (k : string) (d : list (string * value)) (v : value) :
  dict_get k d = Some v -> (depth v < depth (VDict d))%nat.
Proof.
  simpl. induction d as [|[k' v'] d IH]; simpl; intros Hget; [discriminate|].
  destruct (String.eqb k k').
  - injection Hget as ->. lia.
  - specialize (IH Hget). lia.
Qed.

Lemma depth_content (b : NotionBlock) :
  (depth (content b) < depth (VBlock b))%nat.
Proof. simpl. lia. Qed.

Lemma In_chars_not_block (s : string) (b : NotionBlock) :
  ~ In (VBlock b) (chars s).
Proof.
  induction s as [|c s IH]; simpl; [tauto|].
  intros [H|H]; [discriminate|auto].
Qed.

Lemma depth_py_iter (coll : value) (elems : list value) (b : NotionBlock) :
  py_iter coll = Ok elems -> In (VBlock b) elems ->
  (depth (VBlock b) < depth coll)%nat.
Proof.
  destruct coll; simpl; try discriminate; intros Heq Hin;
    injection Heq as <-.
  - exfalso. eapply In_chars_not_block; eauto.
  - now apply depth_In_list in Hin.
  - exfalso. apply in_map_iff in Hin. destruct Hin as (kv & Hkv & _).
    discriminate.
Qed.

(** ** The recursion of the conversion is bounded by the depth *)

Lemma convert_elems_ext (conv1 conv2 : NotionBlock -> res (value * NotionBlock))
    (elems : list value) :
  (forall b, In (VBlock b) elems -> conv1 b = conv2 b) ->
  forall children,
    convert_elems conv1 elems children = convert_elems conv2 elems children.
Proof.
  induction elems as [|child rest IH]; intros Hext children; simpl; auto.
  destruct child; try (apply IH; intros; apply Hext; now right).
  rewrite <- (Hext b) by now left.
  destruct (conv1 b) as [[j b']|e]; auto.
  apply IH. intros; apply Hext; now right.
Qed.

Lemma convert_keys_ext (conv1 conv2 : NotionBlock -> res (value * NotionBlock))
    (c : list (string * value)) :
  (forall b, (depth (VBlock b) < depth (VDict c))%nat -> conv1 b = conv2 b) ->
  forall keys children bound,
    convert_keys conv1 c keys children bound =
    convert_keys conv2 c keys children bound.
Proof.
  intros Hext keys. induction keys as [|key keys IH]; intros children bound;
    simpl; auto.
  destruct (dict_get key c) as [coll|] eqn:Hget; simpl; [|apply IH].
  destruct (py_iter coll) as [elems|e] eqn:Hit; [|destruct (is_KeyError e); auto].
  rewrite (convert_elems_ext conv1 conv2 elems).
  - destruct (convert_elems conv2 elems children) as [children' [e|]]; auto.
    destruct (is_KeyError e); auto.
  - intros b Hin. apply Hext.
    pose proof (depth_py_iter _ _ _ Hit Hin).
    pose proof (depth_dict_get _ _ _ Hget).
    lia.
Qed.

Lemma convert_rec_S (n : nat) (block : NotionBlock) :
  convert_rec (S n) block =
    (g <- get_method (content block) "children" ;;
     if truthy g then
       match content block with
       | VDict c =>
           st <- convert_keys (convert_rec n) c ["children"; "cells"] [] [] ;;
           let '(children, bound) := st in
           let c' :=
             fold_left (fun d key => dict_set key (VList children) d)
                       bound c in
           let block' := set_content block (VDict c') in
           Ok (NotionBlock_to_dict block', block')
       | _ => Raise AttributeError
       end
     else Ok (NotionBlock_to_dict block, block)).
Proof. reflexivity. Qed.

Lemma convert_rec_fuel (n : nat) :
  forall (m : nat) (b : NotionBlock),
    (depth (VBlock b) < n)%nat -> (depth (VBlock b) < m)%nat ->
    convert_rec n b = convert_rec m b.
Proof.
  induction n as [|n IH]; intros m b Hn Hm; [lia|].
  destruct m as [|m]; [lia|]. rewrite !convert_rec_S.
  destruct (get_method (content b) "children") as [g|e]; cbn [res_bind]; auto.
  destruct (truthy g); auto.
  destruct (content b) as [| | | | |c|] eqn:Hc; auto.
  rewrite (convert_keys_ext (convert_rec n) (convert_rec m) c); auto.
  intros b' Hb'. pose proof (depth_content b) as Hd. rewrite Hc in Hd.
  apply IH; lia.
Qed.

Lemma convert_rec_nested (b child : NotionBlock) :
  (depth (VBlock child) < depth (VBlock b))%nat ->
  convert_rec (depth (VBlock b)) child = _convert_block_to_json child.
Proof.
  intros H. unfold _convert_block_to_json. apply convert_rec_fuel; lia.
Qed.

(** The inner loop computes the elementwise normalization. *)
Lemma convert_elems_Forall2 (conv : NotionBlock -> res (value * NotionBlock))
    (l l' : list value) :
  (forall b, In (VBlock b) l -> conv b = _convert_block_to_json b) ->
  Forall2 converted_elem l l' ->
  forall children,
    convert_elems conv l children = ((children ++ l')%list, None).
Proof.
  intros Hconv HF. induction HF as [|e e' l l' He HF IH]; intros children;
    simpl.
  - now rewrite app_nil_r.
  - assert (Hrest : forall b, In (VBlock b) l -> conv b = _convert_block_to_json b)
      by (intros; apply Hconv; now right).
    destruct e; simpl in He; subst;
      try (rewrite (IH Hrest); now rewrite <- app_assoc).
    destruct He as [child' He]. rewrite Hconv by now left. rewrite He.
    rewrite (IH Hrest). now rewrite <- app_assoc.
Qed.

(** ** What the conversion does *)

(** C1, amended.  For a block whose content has no [children] value or a
    false one (an empty list), nothing is converted, a [cells] collection
    included, and the content is wrapped as it is.  For a block whose
    [children] value is a non-empty list and whose content has no [cells]
    key, every element of [children] is converted, a block instance by the
    conversion itself and any other element unchanged, the key [children] is
    bound to the normalized list, and the content is wrapped under its
    type-tag key together with the [object] and [type] fields. *)
Theorem convert_block_normalizes_children :
  forall (block : NotionBlock) (c : list (string * value)),
    content block = VDict c ->
    (dict_get "children" c = None \/
     (exists g, dict_get "children" c = Some g /\ truthy g = false) ->
     _convert_block_to_json block = Ok (NotionBlock_to_dict block, block))
    /\
    (forall l l',
        dict_get "children" c = Some (VList l) ->
        l <> [] ->
        dict_get "cells" c = None ->
        Forall2 converted_elem l l' ->
        exists c' payload,
          _convert_block_to_json block
            = Ok (payload, set_content block (VDict c')) /\
          c' = dict_set "children" (VList l') c /\
          wraps block c' payload /\
          normalized_at "children" c c' /\
          normalized_at "cells" c c').
Proof.
  intros block c Hc. unfold _convert_block_to_json. rewrite convert_rec_S.
  rewrite Hc. split.
  - intros [Hnone|(g & Hg & Hfalse)]; cbn [get_method].
    + now rewrite Hnone.
    + rewrite Hg. cbn [res_bind]. now rewrite Hfalse.
  - intros l l' Hl Hne Hcells HF.
    exists (dict_set "children" (VList l') c). eexists.
    assert (Hconv : forall b, In (VBlock b) l ->
              convert_rec (depth (VBlock block)) b = _convert_block_to_json b).
    { intros b Hin. apply convert_rec_nested.
      pose proof (depth_In_list _ _ Hin).
      pose proof (depth_dict_get _ _ _ Hl).
      pose proof (depth_content block) as Hd. rewrite Hc in Hd. lia. }
    split; [|split; [reflexivity|split; [reflexivity|split]]].
    + assert (Ht : truthy (VList l) = true)
        by (destruct l; [congruence|reflexivity]).
      cbn [get_method]. rewrite Hl. cbn [res_bind]. rewrite Ht.
      cbn [convert_keys getitem]. rewrite Hl, Hcells. cbn [res_bind py_iter].
      rewrite (convert_elems_Forall2 _ _ _ Hconv HF). cbn [is_KeyError app].
      reflexivity.
    + unfold normalized_at. rewrite Hl. exists l, l'.
      split; [reflexivity|]. split; [apply dict_get_set_same|exact HF].
    + unfold normalized_at. rewrite Hcells.
      rewrite dict_get_set_other by discriminate. exact Hcells.
Qed.

Lemma convert_block_normalizes_children_witness :
  _convert_block_to_json column_block
  = Ok (VDict [("object", VStr "block"); ("type", VStr "column");
               ("column",
                VDict [("children", VList [paragraph_wire; divider_wire])])],
        set_content column_block
          (VDict [("children", VList [paragraph_wire; divider_wire])])).
Proof.
  destruct (convert_block_normalizes_children column_block
              [("children", VList [VBlock paragraph_block; divider_wire])]
              eq_refl) as [_ H].
  destruct (H [VBlock paragraph_block; divider_wire]
              [paragraph_wire; divider_wire] eq_refl) as (c' & p & Hrun & -> & -> & _).
  - discriminate.
  - reflexivity.
  - constructor; [|constructor; [reflexivity|constructor]].
    exists paragraph_block. reflexivity.
  - exact Hrun.
Defined.

(** C1 as the specification states it does not hold: in a block whose only
    collection is [cells], the block instance in that collection stays
    unconverted; in a block with both collections, [children] does not
    receive its own normalized collection. *)
Lemma toWirePayload_as_specified_fails :
  ~ toWirePayload_as_specified cells_only_block /\
  ~ toWirePayload_as_specified both_keys_block.
Proof.
  split; intros H.
  - destruct (H _ eq_refl) as (c' & payload & block' & Hrun & Hw & _ & Hcells).
    { right. discriminate. }
    vm_compute in Hrun. injection Hrun as <- _.
    unfold wraps in Hw. vm_compute in Hw. injection Hw as <-.
    unfold normalized_at in Hcells. simpl in Hcells.
    destruct Hcells as (l & l' & Hl & Hl' & HF).
    injection Hl as <-. injection Hl' as <-.
    inversion HF as [|? ? ? ? He _]; subst. simpl in He.
    destruct He as [child' He]. vm_compute in He. discriminate.
  - destruct (H _ eq_refl) as (c' & payload & block' & Hrun & Hw & Hch & _).
    { left. discriminate. }
    vm_compute in Hrun. injection Hrun as <- _.
    unfold wraps in Hw. vm_compute in Hw. injection Hw as <-.
    unfold normalized_at in Hch. simpl in Hch.
    destruct Hch as (l & l' & Hl & Hl' & HF).
    injection Hl as <-. injection Hl' as <-.
    inversion HF as [|? ? ? ? _ HF']; subst.
    inversion HF'.
Qed.

(** C2.  A block decoded from a wire record with a [children] and a [cells]
    collection: the first conversion puts the elements of both collections
    under both keys, and the second conversion of the block that the first
    one left doubles them again, so the two payloads differ and neither
    reproduces the content of the record. *)
Theorem convert_twice_two_collections :
  exists block block1 block2,
    NotionBlock__init__ (VDict two_collections_record) = Ok block /\
    NotionBlock_to_dict block
      = table_row_wire [paragraph_wire] [VList []] /\
    _convert_block_to_json block
      = Ok (table_row_wire [paragraph_wire; VList []]
                           [paragraph_wire; VList []], block1) /\
    _convert_block_to_json block1
      = Ok (table_row_wire
              [paragraph_wire; VList []; paragraph_wire; VList []]
              [paragraph_wire; VList []; paragraph_wire; VList []], block2).
Proof.
  do 3 eexists. repeat split; vm_compute; reflexivity.
Qed.

(** ** The depth bound is enough: the conversion never runs out of it *)

Lemma convert_elems_error (conv : NotionBlock -> res (value * NotionBlock))
    (elems : list value) :
  forall children children' e,
    convert_elems conv elems children = (children', Some e) ->
    exists b, In (VBlock b) elems /\ conv b = Raise e.
Proof.
  induction elems as [|child rest IH]; intros children children' e; simpl.
  - discriminate.
  - destruct child;
      try (intros H; destruct (IH _ _ _ H) as (b0 & Hin & Hb0); eauto).
    destruct (conv b) as [[j b']|e'] eqn:Hb.
    + intros H; destruct (IH _ _ _ H) as (b0 & Hin & Hb0); eauto.
    + intros H. injection H as _ <-. eauto.
Qed.

Lemma convert_keys_error (conv : NotionBlock -> res (value * NotionBlock))
    (c : list (string * value)) (keys : list string) :
  forall children bound e,
    convert_keys conv c keys children bound = Raise e ->
    e = TypeError \/
    exists b, (depth (VBlock b) < depth (VDict c))%nat /\ conv b = Raise e.
Proof.
  induction keys as [|key keys IH]; intros children bound e;
    cbn [convert_keys]; [discriminate|].
  cbn [getitem]. destruct (dict_get key c) as [coll|] eqn:Hget;
    cbn [res_bind is_KeyError]; [|apply IH].
  destruct (py_iter coll) as [elems|e0] eqn:Hit.
  - destruct (convert_elems conv elems children) as [children' [e1|]] eqn:Hel;
      [|apply IH].
    destruct (is_KeyError e1) eqn:Hk; [apply IH|].
    intros H. injection H as <-.
    destruct (convert_elems_error _ _ _ _ _ Hel) as (b & Hin & Hb).
    right. exists b. split; [|exact Hb].
    pose proof (depth_py_iter _ _ _ Hit Hin).
    pose proof (depth_dict_get _ _ _ Hget). lia.
  - assert (e0 = TypeError) as ->
      by (destruct coll; simpl in Hit; congruence).
    cbn [is_KeyError]. intros H. injection H as <-. now left.
Qed.

Lemma convert_rec_enough_fuel (n : nat) :
  forall b : NotionBlock,
    (depth (VBlock b) < n)%nat -> convert_rec n b <> Raise RecursionError.
Proof.
  induction n as [|n IH]; intros b Hn; [lia|]. rewrite convert_rec_S.
  destruct (get_method (content b) "children") as [g|e] eqn:Hg;
    cbn [res_bind].
  - destruct (truthy g); [|discriminate].
    destruct (content b) as [| | | | |c|] eqn:Hc; try discriminate.
    destruct (convert_keys (convert_rec n) c ["children"; "cells"] [] [])
      as [[children bound]|e] eqn:Hk; cbn [res_bind]; [discriminate|].
    intros H. injection H as ->.
    destruct (convert_keys_error _ _ _ _ _ _ Hk) as [H|(b' & Hd & Hb')];
      [discriminate|].
    pose proof (depth_content b) as Hcb. rewrite Hc in Hcb.
    apply (IH b'); [lia|exact Hb'].
  - destruct (content b) as [| | | | |d|]; simpl in Hg; try congruence.
    destruct (dict_get "children" d); discriminate.
Qed.

Lemma convert_never_RecursionError (block : NotionBlock) :
  _convert_block_to_json block <> Raise RecursionError.
Proof. apply convert_rec_enough_fuel. lia. Qed.

(** ** A second conversion of a block without [cells] changes nothing *)

Lemma convert_rec_payload_dict (n : nat) (b b' : NotionBlock) (j : value) :
  convert_rec n b = Ok (j, b') -> is_block j = false.
Proof.
  destruct n as [|n]; [discriminate|]. rewrite convert_rec_S.
  destruct (get_method (content b) "children") as [g|e]; cbn [res_bind];
    [|discriminate].
  destruct (truthy g).
  - destruct (content b); try discriminate.
    destruct (convert_keys _ _ _ _ _) as [[children bound]|e];
      cbn [res_bind]; [|discriminate].
    intros H. injection H as <- _. reflexivity.
  - intros H. injection H as <- _. reflexivity.
Qed.

Lemma convert_elems_no_block (n : nat) (elems : list value) :
  forall children children' oe,
    convert_elems (convert_rec n) elems children = (children', oe) ->
    forallb (fun v => negb (is_block v)) children = true ->
    forallb (fun v => negb (is_block v)) children' = true.
Proof.
  induction elems as [|child rest IH]; intros children children' oe; simpl.
  - intros H. now injection H as <- _.
  - assert (Hstep : forall v, is_block v = false ->
              forallb (fun v => negb (is_block v)) children = true ->
              forallb (fun v => negb (is_block v)) (children ++ [v]) = true).
    { intros v Hv Hch. rewrite forallb_app, Hch. simpl. now rewrite Hv. }
    destruct child; try (intros H Hch; apply (IH _ _ _ H); now apply Hstep).
    destruct (convert_rec n b) as [[j b']|e] eqn:Hb.
    + intros H Hch. apply (IH _ _ _ H). apply Hstep; auto.
      eapply convert_rec_payload_dict; eauto.
    + intros H. now injection H as <- _.
Qed.

Lemma convert_elems_plain (conv : NotionBlock -> res (value * NotionBlock))
    (elems : list value) :
  forallb (fun v => negb (is_block v)) elems = true ->
  forall children,
    convert_elems conv elems children = ((children ++ elems)%list, None).
Proof.
  induction elems as [|child rest IH]; intros Hall children; simpl.
  - now rewrite app_nil_r.
  - simpl in Hall. apply andb_true_iff in Hall. destruct Hall as [Hc Hrest].
    destruct child; try discriminate;
      rewrite (IH Hrest); now rewrite <- app_assoc.
Qed.

Lemma dict_set_twice (k : string) (v v' : value) (d : list (string * value)) :
  dict_set k v (dict_set k v' d) = dict_set k v d.
Proof.
  induction d as [|[k0 v0] d IH]; simpl.
  - now rewrite String.eqb_refl.
  - destruct (String.eqb k k0) eqn:E; simpl; rewrite E; auto.
    now rewrite IH.
Qed.

Lemma set_content_same (b : NotionBlock) : set_content b (content b) = b.
Proof. now destruct b. Qed.

(** A block whose children are all wire records is its own conversion. *)
Lemma convert_plain_children (block : NotionBlock)
    (c : list (string * value)) (l : list value) :
  content block = VDict c ->
  dict_get "children" c = Some (VList l) ->
  dict_get "cells" c = None ->
  forallb (fun v => negb (is_block v)) l = true ->
  _convert_block_to_json block = Ok (NotionBlock_to_dict block, block).
Proof.
  intros Hc Hch Hcells Hplain. unfold _convert_block_to_json.
  rewrite convert_rec_S, Hc. cbn [get_method]. rewrite Hch. cbn [res_bind].
  destruct (truthy (VList l)); [|reflexivity].
  cbn [convert_keys getitem]. rewrite Hch, Hcells.
  cbn [res_bind py_iter is_KeyError].
  rewrite (convert_elems_plain _ _ Hplain). cbn [app fold_left].
  assert (Hsame : dict_set "children" (VList l) c = c).
  { clear -Hch.
    induction c as [|[k v] c IH]; cbn [dict_get dict_set] in *;
      [discriminate|].
    revert Hch. destruct (String.eqb "children" k); intros Hch.
    - now injection Hch as ->.
    - now rewrite (IH Hch). }
  cbn [res_bind fold_left]. rewrite Hsame, <- Hc, set_content_same.
  reflexivity.
Qed.

(** What a successful conversion of a block without [cells] leaves. *)
Lemma convert_result_without_cells (block block1 : NotionBlock)
    (payload : value) :
  (forall c, content block = VDict c -> dict_get "cells" c = None) ->
  _convert_block_to_json block = Ok (payload, block1) ->
  block1 = block \/
  exists c children',
    content block = VDict c /\
    block1 = set_content block (VDict (dict_set "children" (VList children') c)) /\
    payload = NotionBlock_to_dict block1 /\
    forallb (fun v => negb (is_block v)) children' = true.
Proof.
  intros Hcells. unfold _convert_block_to_json. rewrite convert_rec_S.
  destruct (get_method (content block) "children") as [g|e];
    cbn [res_bind]; [|discriminate].
  destruct (truthy g).
  - destruct (content block) as [| | | | |c|] eqn:Hc; try discriminate.
    specialize (Hcells c eq_refl).
    cbn [convert_keys getitem]. rewrite Hcells.
    destruct (dict_get "children" c) as [coll|];
      cbn [res_bind is_KeyError].
    + destruct (py_iter coll) as [elems|e0].
      * destruct (convert_elems _ elems []) as [children' oe] eqn:Hel.
        pose proof (convert_elems_no_block _ _ _ _ _ Hel eq_refl) as Hplain.
        destruct oe as [e1|].
        -- destruct (is_KeyError e1); [|discriminate].
           cbn [res_bind fold_left]. intros H. injection H as _ <-.
           left. rewrite <- Hc. apply set_content_same.
        -- cbn [res_bind fold_left app]. intros H. injection H as <- <-.
           right. exists c, children'. auto.
      * destruct (is_KeyError e0); [|discriminate].
        cbn [res_bind fold_left]. intros H. injection H as _ <-.
        left. rewrite <- Hc. apply set_content_same.
    + cbn [res_bind fold_left]. intros H. injection H as _ <-.
      left. rewrite <- Hc. apply set_content_same.
  - intros H. injection H as _ <-. now left.
Qed.

Theorem convert_again_without_cells :
  forall (block block1 : NotionBlock) (payload : value),
    (forall c, content block = VDict c -> dict_get "cells" c = None) ->
    _convert_block_to_json block = Ok (payload, block1) ->
    _convert_block_to_json block1 = Ok (payload, block1).
Proof.
  intros block block1 payload Hcells Hrun.
  destruct (convert_result_without_cells _ _ _ Hcells Hrun)
    as [->|(c & children' & Hc & -> & -> & Hplain)]; [exact Hrun|].
  apply (convert_plain_children _
           (dict_set "children" (VList children') c) children').
  - reflexivity.
  - apply dict_get_set_same.
  - rewrite dict_get_set_other by discriminate. now apply Hcells.
  - exact Hplain.
Qed.

(** ** The scan for the first matching run *)

Lemma run_matches_get (text : string) (item : value) (m : bool) :
  run_matches text item = Some m ->
  exists pt, get_method item "plain_text" = Ok pt /\ eq_str pt text = m.
Proof.
  destruct item; simpl; try discriminate.
  destruct (dict_get "plain_text" d) as [pt|]; intros H; injection H as <-.
  - now exists pt.
  - now exists VNone.
Qed.

Section Scan.
Variables (text url : string) (flag : bool).


Lemma scan_items_no_match (block : NotionBlock) (items : list value)
    (w : world) :
  Forall (fun item => run_matches text item = Some false) items ->
  scan_items text url flag block items w = (Ok tt, w).
Proof.
  induction 1 as [|item items Hitem _ IH]; simpl; [reflexivity|].
  destruct (run_matches_get _ _ _ Hitem) as (pt & Hpt & Hne).
  unfold bind at 1, lift at 1. rewrite Hpt, Hne.
  unfold bind at 1, ret at 1. exact IH.
Qed.


Lemma scan_blocks_step (block : NotionBlock) (rest : list NotionBlock)
    (items : list value) (w : world) :
  runs_of block = Ok items ->
  scan_blocks text url flag (block :: rest) w
  = (_ <~ scan_items text url flag block items ;;
     scan_blocks text url flag rest) w.
Proof.
  unfold runs_of. intros Hr. simpl. unfold bind at 1 2, lift.
  destruct (getitem (content block) "text") as [txt|e];
    simpl in Hr; [|discriminate].
  rewrite Hr. reflexivity.
Qed.


End Scan.

Lemma check_response_200 (response : Response) :
  status_code response = 200 -> _check_response response = Ok tt.
Proof. unfold _check_response. intros ->. reflexivity. Qed.


(** C3.  Failing input: a bulleted list item with the runs [See: ] and
    [Click here], searched for [Click here].  With
    [replace_only_matched_text = True] the block sent holds both runs and no
    link; with [False] it holds the matched run alone, with the link.  With
    [True] the block handed to [_update_block] is, for every block and run,
    the copy of the block as it was fetched. *)
Theorem set_link_keeping_runs_sends_no_link :
  _set_bulleted_list_item_link "Click here" (VStr "pg") "http://x" true
    (mkWorld [children_response
                [bullet_record [run "See: "; run "Click here"]]; updated] [])
  = (Ok tt,
     mkWorld []
       [Request "GET" (url_block_children (VStr "pg")) None;
        Request "PATCH" (url_block (VStr "b-7"))
          (Some (bullet_wire [run "See: "; run "Click here"]))])
  /\
  _set_bulleted_list_item_link "Click here" (VStr "pg") "http://x" false
    (mkWorld [children_response
                [bullet_record [run "See: "; run "Click here"]]; updated] [])
  = (Ok tt,
     mkWorld []
       [Request "GET" (url_block_children (VStr "pg")) None;
        Request "PATCH" (url_block (VStr "b-7"))
          (Some (bullet_wire [linked_run "Click here" "http://x"]))])
  /\
  (forall block item url,
      block_to_send block item url true
      = (_ <- set_item_link item url ;; Ok block)).
Proof.
  split; [vm_compute; reflexivity|]. split; [vm_compute; reflexivity|].
  reflexivity.
Qed.







(** ** The mapping from page ids to records *)

Lemma pages_set_In (k v k' v' : value) (pages : list (value * value)) :
  In (k', v') (pages_set k v pages) ->
  In (k', v') pages \/
  (v' = v /\ (k' = k \/ (key_eqb k k' = true /\ exists v0, In (k', v0) pages))).
Proof.
  induction pages as [|[k0 v0] pages IH]; cbn [pages_set In].
  - intros [H|[]]. injection H as <- <-. right. auto.
  - destruct (key_eqb k k0) eqn:E; cbn [In].
    + intros [H|H]; [|auto]. injection H as <- <-.
      right. split; auto. right. split; auto. exists v0. auto.
    + intros [H|H]; [auto|]. destruct (IH H) as [H'|(-> & [->|(Hk & v1 & Hv1)])];
        auto.
      right. split; auto. right. split; auto. exists v1. auto.
Qed.

Lemma pages_get_set_same (s : string) (v : value)
    (pages : list (value * value)) :
  pages_get (VStr s) (pages_set (VStr s) v pages) = Some v.
Proof.
  induction pages as [|[k0 v0] pages IH]; cbn [pages_set].
  - simpl. now rewrite String.eqb_refl.
  - destruct (key_eqb (VStr s) k0) eqn:E; cbn [pages_get]; now rewrite E.
Qed.

Lemma pages_get_set_mono (k k' v : value) (pages : list (value * value)) :
  pages_get k' pages <> None -> pages_get k' (pages_set k v pages) <> None.
Proof.
  induction pages as [|[k0 v0] pages IH]; cbn [pages_set pages_get];
    [congruence|].
  destruct (key_eqb k k0); cbn [pages_get]; destruct (key_eqb k' k0); auto;
    discriminate.
Qed.

Lemma key_eqb_str (s : string) (k : value) :
  key_eqb (VStr s) k = true -> k = VStr s.
Proof.
  destruct k; simpl; try discriminate. intros H.
  apply String.eqb_eq in H. now subst.
Qed.

Lemma collect_items_invariant (items : list value) :
  Forall well_formed_item items ->
  forall seen pages,
    entries_from seen pages -> covers seen pages ->
    exists pages',
      collect_items items pages = Ok pages' /\
      entries_from (seen ++ items) pages' /\
      covers (seen ++ items) pages'.
Proof.
  induction 1 as [|item items (o & Ho & Hpage) _ IH]; intros seen pages He Hc.
  - exists pages. rewrite app_nil_r. auto.
  - replace (seen ++ item :: items)%list with ((seen ++ [item]) ++ items)%list
      by now rewrite <- app_assoc.
    cbn [collect_items]. rewrite Ho. cbn [res_bind].
    destruct (eq_str o "page") eqn:Eo; cbn [negb].
    + destruct (Hpage eq_refl) as (page_id & title & Hrec).
      pose proof Hrec as (_ & Hid & Htitle).
      rewrite Htitle. cbn [res_bind].
      destruct item as [| | | | |d|]; try discriminate.
      cbn [setitem res_bind getitem].
      apply getitem_dict in Hid.
      rewrite dict_get_set_other by discriminate. rewrite Hid.
      cbn [hashable]. apply IH.
      * intros k v Hin. apply pages_set_In in Hin.
        destruct Hin as [Hin|(-> & Hk)].
        -- destruct (He k v Hin) as (it & pid & t & Hit & Hr & Hk & Hv).
           exists it, pid, t.
           split; [apply in_or_app; now left|]. auto.
        -- exists (VDict d), page_id, title.
           split; [apply in_or_app; right; now left|].
           split; [exact Hrec|]. split; [|reflexivity].
           destruct Hk as [->|(Hk & _)]; auto.
           now apply key_eqb_str in Hk.
      * intros it pid t Hin Hr. apply in_app_or in Hin.
        destruct Hin as [Hin|[<-|[]]].
        -- destruct (Hc it pid t Hin Hr) as [v Hv].
           destruct (pages_get (VStr pid)
                       (pages_set (VStr page_id)
                          (VDict (dict_set "title" title d)) pages)) eqn:E;
             [eauto|].
           exfalso. revert E. apply pages_get_set_mono. congruence.
        -- destruct Hr as (_ & Hid' & _). apply getitem_dict in Hid'.
           rewrite Hid in Hid'. injection Hid' as <-.
           eexists. apply pages_get_set_same.
    + apply IH.
      * intros k v Hin. destruct (He k v Hin) as (it & pid & t & Hit & Hr).
        exists it, pid, t. split; auto. apply in_or_app. auto.
      * intros it pid t Hin Hr. apply in_app_or in Hin.
        destruct Hin as [Hin|[<-|[]]]; [eauto|].
        destruct Hr as (Hobj & _). rewrite Ho in Hobj. injection Hobj as ->.
        discriminate.
Qed.

(** ** The loop over the pages of results *)

Lemma body_field_dict (r : Response) (k : string) (v : value) :
  body_field r k = Some v ->
  exists d, json_body r = Some (VDict d) /\ dict_get k d = Some v.
Proof.
  unfold body_field. destruct (json_body r) as [[| | | | |d|]|];
    try discriminate. eauto.
Qed.

Lemma process_response_results (r : Response) (d : list (string * value))
    (pages : list (value * value)) (cursor : value) (seen : list value) :
  json_body r = Some (VDict d) ->
  well_formed_results r ->
  entries_from seen pages -> covers seen pages ->
  exists pages',
    entries_from (seen ++ results_of r) pages' /\
    covers (seen ++ results_of r) pages' /\
    process_response r pages cursor
    = (has_next <- get_method (VDict d) "has_more" ;;
       if truthy has_next then
         c <- getitem (VDict d) "next_cursor" ;; Ok (pages', has_next, c)
       else Ok (pages', has_next, cursor)).
Proof.
  intros Hbody [[l Hl] Hwf] He Hc.
  assert (Hres : results_of r = l) by (unfold results_of; now rewrite Hl).
  rewrite Hres in *.
  destruct (collect_items_invariant _ Hwf _ _ He Hc) as (pages' & Hcol & He' & Hc').
  exists pages'. split; [exact He'|]. split; [exact Hc'|].
  unfold body_field in Hl. rewrite Hbody in Hl.
  unfold process_response, response_json. rewrite Hbody.
  cbn [res_bind getitem]. rewrite Hl. cbn [res_bind py_iter].
  rewrite Hcol. reflexivity.
Qed.

Lemma query_payload_cursor (database_id : value) (cursor : option string) :
  (forall c, cursor = Some c -> c <> "") ->
  Request "POST" (url_database_query database_id)
          (Some (query_payload (cursor_value cursor)))
  = query database_id cursor.
Proof.
  intros Hc. unfold query, query_payload. destruct cursor as [c|]; simpl; auto.
  destruct (String.eqb c "") eqn:E; auto.
  apply String.eqb_eq in E. exfalso. now apply (Hc c).
Qed.

Lemma pages_loop_script (database_id : value) (last : Response)
    (rest : list Response) (script : list (Response * string)) :
  Forall (fun rc => more_page (fst rc) (snd rc) /\
                    well_formed_results (fst rc)) script ->
  last_page last -> well_formed_results last ->
  forall (fuel : nat) (pages : list (value * value)) (cursor : option string)
         (tr : list event) (seen : list value),
    (length script < fuel)%nat ->
    (forall c, cursor = Some c -> c <> "") ->
    entries_from seen pages -> covers seen pages ->
    exists pages',
      pages_loop fuel database_id pages (cursor_value cursor)
        (mkWorld (map fst script ++ last :: rest) tr)
      = Some (Ok pages',
              mkWorld rest
                (tr ++ query database_id cursor
                    :: map (fun rc => query database_id (Some (snd rc)))
                           script)) /\
      entries_from
        (seen ++ flat_map results_of (map fst script ++ [last])) pages' /\
      covers
        (seen ++ flat_map results_of (map fst script ++ [last])) pages'.
Proof.
  intros Hscript [[dl Hdl] Hlast] Hwfl.
  induction Hscript as [|[r c] script [Hmore Hwf] _ IH];
    intros fuel pages cursor tr seen Hfuel Hcur He Hc;
    (destruct fuel as [|fuel]; [simpl in Hfuel; lia|]);
    cbn [pages_loop map app fst snd flat_map];
    unfold requests_request; cbn [get_world put_world HasWorld_world log
                                  pending trace];
    rewrite (query_payload_cursor database_id cursor Hcur).
  - destruct (process_response_results _ _ _ (cursor_value cursor) _
                Hdl Hwfl He Hc)
      as (pages' & He' & Hc' & ->).
    exists pages'. rewrite app_nil_r. split; [|auto].
    cbn [get_method]. specialize (Hlast). unfold body_field in Hlast.
    rewrite Hdl in Hlast.
    destruct (dict_get "has_more" dl) as [h|]; cbn [res_bind].
    + pose proof (Hlast h eq_refl) as Hf. rewrite Hf. cbn [res_bind].
      now rewrite Hf.
    + reflexivity.
  - cbn [fst snd] in Hmore, Hwf.
    destruct Hmore as ((h & Hh & Hth) & Hnext & Hne).
    destruct (body_field_dict _ _ _ Hh) as (d & Hd & Hhd).
    destruct (process_response_results _ _ _ (cursor_value cursor) _
                Hd Hwf He Hc)
      as (pages' & He' & Hc' & ->).
    unfold body_field in Hnext. rewrite Hd in Hnext.
    cbn [get_method getitem]. rewrite Hhd. cbn [res_bind]. rewrite Hth, Hnext.
    cbn [res_bind]. rewrite Hth.
    destruct (IH fuel pages' (Some c)
                 (tr ++ [query database_id cursor])%list
                 (seen ++ results_of r)%list)
      as (pages'' & Hrun & He'' & Hc'').
    + simpl in Hfuel. lia.
    + intros c' Hc'eq. injection Hc'eq as <-. exact Hne.
    + exact He'.
    + exact Hc'.
    + exists pages''. cbn [cursor_value] in Hrun. rewrite Hrun.
      rewrite <- !app_assoc. cbn [app]. rewrite <- !app_assoc in He'', Hc''.
      auto.
Qed.

Lemma pages_loop_ignores_status (fuel : nat) (database_id : value)
    (pages : list (value * value)) (cursor : value)
    (r r' : Response) (rs : list Response) (tr : list event) :
  json_body r = json_body r' ->
  pages_loop fuel database_id pages cursor (mkWorld (r :: rs) tr)
  = pages_loop fuel database_id pages cursor (mkWorld (r' :: rs) tr).
Proof.
  intros Hbody. destruct fuel as [|fuel]; [reflexivity|].
  cbn [pages_loop]. unfold requests_request.
  cbn [get_world put_world HasWorld_world log pending trace].
  unfold process_response, response_json. now rewrite Hbody.
Qed.

(** C6.  Failing input: a service that answers every query with status 429.
    [_get_database_pages] sends one query, does not look at the status and
    fails with [KeyError] on the body, where [_query_database_by_title], a
    query of the same endpoint, raises the rate-limit error after three
    attempts.  Whatever the status and the text of a response are,
    [_get_database_pages] does what it does for its body. *)
Theorem get_database_pages_unchecked_unretried :
  _get_database_pages 3 (VStr "db")
    (mkWorld [rate_limited; rate_limited; rate_limited] [])
  = Some (Raise (KeyError (VStr "results")),
          mkWorld [rate_limited; rate_limited]
            [Request "POST" (url_database_query (VStr "db"))
                     (Some (VDict [("page_size", VInt 100)]))])
  /\
  (exists payload,
      _query_database_by_title (VStr "db") "Spec"
        (mkWorld [rate_limited; rate_limited; rate_limited] [])
      = (Raise rate_limit_error,
         mkWorld []
           [Request "POST" (url_database_query (VStr "db")) (Some payload);
            Print rate_limit_warning; Sleep 30;
            Request "POST" (url_database_query (VStr "db")) (Some payload);
            Print rate_limit_warning; Sleep 30;
            Request "POST" (url_database_query (VStr "db")) (Some payload);
            Print rate_limit_warning; Sleep 30]))
  /\
  (forall fuel database_id status status' txt txt' body rs tr,
      _get_database_pages fuel database_id
        (mkWorld (mkResponse status txt body :: rs) tr)
      = _get_database_pages fuel database_id
          (mkWorld (mkResponse status' txt' body :: rs) tr)).
Proof.
  split; [vm_compute; reflexivity|]. split.
  - eexists. vm_compute. reflexivity.
  - intros. unfold _get_database_pages.
    now apply pages_loop_ignores_status.
Qed.

(** C7.  Against a service that answers with pages of results, all but the
    last one reporting more results and a cursor, [_get_database_pages]
    sends one query per page: the first without a start cursor, each later
    one with the cursor of the response before it.  It returns one mapping;
    every entry is a page record of the service, keyed by its id and
    augmented with its extracted title, and every page id is a key. *)
Theorem get_database_pages_follows_cursor :
  forall (database_id : value) (script : list (Response * string))
         (last : Response) (rest : list Response) (tr : list event)
         (fuel : nat),
    Forall (fun rc => more_page (fst rc) (snd rc) /\
                      well_formed_results (fst rc)) script ->
    last_page last ->
    well_formed_results last ->
    (length script < fuel)%nat ->
    exists pages,
      _get_database_pages fuel database_id
        (mkWorld (map fst script ++ last :: rest) tr)
      = Some (Ok pages,
              mkWorld rest
                (tr ++ query database_id None
                    :: map (fun rc => query database_id (Some (snd rc)))
                           script)) /\
      (forall k v,
          In (k, v) pages ->
          exists item page_id title,
            In item (flat_map results_of (map fst script ++ [last])) /\
            page_record item page_id title /\
            k = VStr page_id /\
            v = with_title item title) /\
      (forall item page_id title,
          In item (flat_map results_of (map fst script ++ [last])) ->
          page_record item page_id title ->
          exists v, pages_get (VStr page_id) pages = Some v).
Proof.
  intros database_id script last rest tr fuel Hscript Hlast Hwf Hfuel.
  destruct (pages_loop_script database_id last rest script Hscript Hlast Hwf
              fuel [] None tr [] Hfuel) as (pages & Hrun & He & Hc).
  - discriminate.
  - intros k v [].
  - intros item page_id title [].
  - exists pages. auto.
Qed.

Lemma page_item_well_formed (page_id title_key title : string) :
  title_key = BOM_Name \/ title_key = "Name" ->
  well_formed_item (page_item page_id title_key title).
Proof.
  intros Hkey. exists (VStr "page"). split; [reflexivity|]. intros _.
  exists page_id, (VStr title). repeat split.
  destruct Hkey as [->| ->]; reflexivity.
Qed.

Lemma get_database_pages_follows_cursor_witness :
  _get_database_pages 3 (VStr "db")
    (mkWorld [first_results; second_results; third_results] [])
  = Some (Ok [(VStr "id-1", page_item_titled "id-1" BOM_Name "Spec A");
              (VStr "id-2", page_item_titled "id-2" "Name" "Spec B");
              (VStr "id-3", page_item_titled "id-3" "Name" "Spec C")],
          mkWorld []
            [query (VStr "db") None;
             query (VStr "db") (Some "cur-1");
             query (VStr "db") (Some "cur-2")]).
Proof.
  destruct (get_database_pages_follows_cursor (VStr "db")
              [(first_results, "cur-1"); (second_results, "cur-2")]
              third_results [] [] 3) as (pages & Hrun & _).
  - repeat constructor; try discriminate.
    + exists (VBool true). split; reflexivity.
    + exists [page_item "id-1" BOM_Name "Spec A"]. reflexivity.
    + apply page_item_well_formed. now left.
    + exists (VBool true). split; reflexivity.
    + exists [page_item "id-2" "Name" "Spec B"]. reflexivity.
    + apply page_item_well_formed. now right.
  - split; [eexists; reflexivity|].
    intros h Hh. injection Hh as <-. reflexivity.
  - split; [eexists; reflexivity|].
    repeat constructor. apply page_item_well_formed. now right.
  - simpl. lia.
  - cbn [map fst snd app] in Hrun. rewrite Hrun. f_equal. f_equal.
    vm_compute in Hrun. now injection Hrun as <-.
Defined.

(** * Further properties of the code *)

(** ** The status check *)

(** X1.  [_check_response] returns exactly for the status 200; for every
    other status, other success codes included, it raises an exception of
    the bad-request family that carries the status, of the class that the
    status selects: 429 rate limit, 400 bad payload, 401 and 403
    unauthorized, 500 and above server side, anything else the base
    class. *)
Theorem check_response_taxonomy :
  forall response : Response,
    (_check_response response = Ok tt <-> status_code response = 200) /\
    (forall e,
        _check_response response = Raise e ->
        is_BadRequestException e = true /\
        exn_status_code e = status_code response /\
        (status_code response = 429 ->
         exists m, e = ExceededRateLimitException m 429) /\
        (status_code response = 400 ->
         exists m, e = BadPayloadException m 400) /\
        (status_code response = 401 \/ status_code response = 403 ->
         exists m, e = UnauthorizedException m (status_code response)) /\
        (500 <= status_code response ->
         exists m, e = ServerSideException m (status_code response)) /\
        (status_code response < 500 ->
         status_code response <> 429 -> status_code response <> 400 ->
         status_code response <> 401 -> status_code response <> 403 ->
         exists m, e = BadRequestException m (status_code response))).
Proof.
  intros response. unfold _check_response.
  destruct (Z.eqb_spec (status_code response) 429) as [E429|N429].
  { split; [split; [discriminate|lia]|].
    intros e H. injection H as <-. rewrite E429.
    repeat split; try lia; eauto. }
  destruct (Z.eqb_spec (status_code response) 400) as [E400|N400].
  { split; [split; [discriminate|lia]|].
    intros e H. injection H as <-. rewrite E400.
    repeat split; try lia; eauto. }
  destruct (Z.eqb_spec (status_code response) 401) as [E401|N401].
  { split; [split; [discriminate|lia]|].
    intros e H. injection H as <-. rewrite E401.
    repeat split; try lia; eauto. }
  destruct (Z.eqb_spec (status_code response) 403) as [E403|N403].
  { split; [split; [discriminate|lia]|].
    intros e H. injection H as <-. rewrite E403.
    repeat split; try lia; eauto. }
  cbn [orb].
  destruct (Z.geb_spec (status_code response) 500) as [G500|L500].
  { split; [split; [discriminate|lia]|].
    intros e H. injection H as <-.
    repeat split; try lia; eauto. }
  destruct (Z.eqb_spec (status_code response) 200) as [E200|N200].
  { split; [split; auto|]. discriminate. }
  split; [split; [discriminate|lia]|].
  intros e H. injection H as <-.
  repeat split; try lia; eauto.
Qed.

Lemma check_response_taxonomy_witness :
  _check_response (mkResponse 201 "created" None)
  = Raise (BadRequestException "Notion API returned error: created" 201).
Proof.
  destruct (check_response_taxonomy (mkResponse 201 "created" None))
    as [_ H].
  destruct (_check_response (mkResponse 201 "created" None)) as [u|e] eqn:E.
  - discriminate E.
  - destruct (H e eq_refl) as (_ & _ & _ & _ & _ & _ & Hbase).
    destruct Hbase as [m Hm]; try (cbn; lia).
    rewrite Hm in E. injection E as <-. now rewrite Hm.
Defined.

(** ** Classification of type tags *)

Lemma lower_ascii_idempotent (c : ascii) :
  lower_ascii (lower_ascii c) = lower_ascii c.
Proof. destruct c as [[] [] [] [] [] [] [] []]; reflexivity. Qed.

Lemma lower_idempotent (s : string) : lower (lower s) = lower s.
Proof.
  induction s as [|c s IH]; simpl; [reflexivity|].
  now rewrite lower_ascii_idempotent, IH.
Qed.

Lemma block_type_of_lower_tag (s : string) :
  match block_type_tag (block_type_of_lower s) with
  | Some tag => s = tag
  | None => forall t, block_type_tag t <> Some s
  end.
Proof.
  unfold block_type_of_lower.
  repeat match goal with
         | |- context [String.eqb s ?k] =>
             destruct (String.eqb_spec s k) as [->|?]; [reflexivity|]
         end.
  cbn [block_type_tag]. intros [] H; simpl in H; try discriminate;
    injection H as H; congruence.
Qed.

Lemma property_type_of_lower_tag (s : string) :
  match property_type_tag (property_type_of_lower s) with
  | Some tag => s = tag
  | None => forall t, property_type_tag t <> Some s
  end.
Proof.
  unfold property_type_of_lower.
  repeat match goal with
         | |- context [String.eqb s ?k] =>
             destruct (String.eqb_spec s k) as [->|?]; [reflexivity|]
         end.
  cbn [property_type_tag]. intros [] H; simpl in H; try discriminate;
    injection H as H; congruence.
Qed.

(** X2.  [_determine_block_type] never fails on a string and looks at it up
    to the case of its letters only.  It answers a member other than [OTHER]
    exactly when the lower-cased tag is the name of that member, and [OTHER]
    exactly when it is none of the ten names; on anything but a string the
    call of [.lower()] raises [AttributeError]. *)
Theorem determine_block_type_characterized :
  (forall s : string,
      exists t,
        _determine_block_type (VStr s) = Ok t /\
        _determine_block_type (VStr (lower s)) = Ok t /\
        (forall tag, block_type_tag t = Some tag <-> lower s = tag /\ t <> OTHER)
        /\
        (t = OTHER <-> forall t', block_type_tag t' <> Some (lower s)))
  /\
  (forall v : value,
      (forall s, v <> VStr s) ->
      _determine_block_type v = Raise AttributeError).
Proof.
  split.
  - intros s. exists (block_type_of_lower (lower s)).
    split; [reflexivity|]. split.
    { unfold _determine_block_type. simpl. now rewrite lower_idempotent. }
    pose proof (block_type_of_lower_tag (lower s)) as Htag.
    destruct (block_type_tag (block_type_of_lower (lower s))) as [tag0|] eqn:E.
    + split.
      * intros tag. split.
        -- intros H. injection H as <-. split; [auto|].
           intros Hother. rewrite Hother in E. discriminate.
        -- intros [<- _]. now rewrite Htag.
      * split.
        -- intros Hother. rewrite Hother in E. discriminate.
        -- intros Hnone. exfalso. apply (Hnone (block_type_of_lower (lower s))).
           now rewrite E, Htag.
    + assert (Hother : block_type_of_lower (lower s) = OTHER)
        by (destruct (block_type_of_lower (lower s)); simpl in E;
            congruence).
      split.
      * intros tag. split; [discriminate|]. intros [_ H]. congruence.
      * split; auto.
  - intros v Hv. destruct v; try reflexivity. exfalso. now apply (Hv s).
Qed.

Lemma determine_block_type_characterized_witness :
  _determine_block_type (VInt 3) = Raise AttributeError.
Proof.
  apply (proj2 determine_block_type_characterized). discriminate.
Defined.

(** X3.  [_determine_property_type] likewise: a member other than the
    catch-all exactly for the eleven names, in any letter case, the
    catch-all for every other string, [AttributeError] for a tag that is no
    string. *)
Theorem determine_property_type_characterized :
  (forall s : string,
      exists t,
        _determine_property_type (VStr s) = Ok t /\
        _determine_property_type (VStr (lower s)) = Ok t /\
        (forall tag,
            property_type_tag t = Some tag <-> lower s = tag /\ t <> P_OTHER)
        /\
        (t = P_OTHER <-> forall t', property_type_tag t' <> Some (lower s)))
  /\
  (forall v : value,
      (forall s, v <> VStr s) ->
      _determine_property_type v = Raise AttributeError).
Proof.
  split.
  - intros s. exists (property_type_of_lower (lower s)).
    split; [reflexivity|]. split.
    { unfold _determine_property_type. simpl. now rewrite lower_idempotent. }
    pose proof (property_type_of_lower_tag (lower s)) as Htag.
    destruct (property_type_tag (property_type_of_lower (lower s)))
      as [tag0|] eqn:E.
    + split.
      * intros tag. split.
        -- intros H. injection H as <-. split; [auto|].
           intros Hother. rewrite Hother in E. discriminate.
        -- intros [<- _]. now rewrite Htag.
      * split.
        -- intros Hother. rewrite Hother in E. discriminate.
        -- intros Hnone. exfalso.
           apply (Hnone (property_type_of_lower (lower s))).
           now rewrite E, Htag.
    + assert (Hother : property_type_of_lower (lower s) = P_OTHER)
        by (destruct (property_type_of_lower (lower s)); simpl in E;
            congruence).
      split.
      * intros tag. split; [discriminate|]. intros [_ H]. congruence.
      * split; auto.
  - intros v Hv. destruct v; try reflexivity. exfalso. now apply (Hv s).
Qed.

Lemma determine_property_type_characterized_witness :
  _determine_property_type VNone = Raise AttributeError.
Proof.
  apply (proj2 determine_property_type_characterized). discriminate.
Defined.

(** ** Encoding and decoding once more *)

(** X4.  A property that was decoded from a record is decoded again from its
    own encoding: [NotionPageProperty(name, p.to_dict())] is [p]. *)
Theorem property_encode_decode :
  forall (name : string) (record : value) (p : NotionPageProperty),
    NotionPageProperty__init__ name record = Ok p ->
    NotionPageProperty__init__ name (NotionPageProperty_to_dict p) = Ok p.
Proof.
  intros name record p. unfold NotionPageProperty__init__.
  destruct (getitem record "type") as [tn|e] eqn:Ht; cbn [res_bind];
    [|discriminate].
  destruct tn as [| | |t| | |]; try discriminate.
  cbn [_determine_property_type lower_method res_bind].
  destruct (getitem record t) as [c|e] eqn:Hc; cbn [res_bind];
    [|discriminate].
  intros H. injection H as <-.
  unfold NotionPageProperty_to_dict. cbn [p_type_name p_content].
  assert (Hty : getitem (VDict (dict_set t c (dict_set "type" (VStr t) [])))
                        "type" = Ok (VStr t)).
  { apply getitem_dict. apply to_dict_type_key. intros ->. congruence. }
  rewrite Hty. cbn [res_bind _determine_property_type lower_method].
  assert (Hpay : getitem (VDict (dict_set t c (dict_set "type" (VStr t) [])))
                         t = Ok c)
    by apply getitem_dict, dict_get_set_same.
  now rewrite Hpay.
Qed.

Lemma property_encode_decode_witness :
  exists p,
    NotionPageProperty__init__ "Status" (VDict select_record) = Ok p /\
    NotionPageProperty__init__ "Status" (NotionPageProperty_to_dict p) = Ok p.
Proof.
  eexists. split; [reflexivity|].
  apply (property_encode_decode "Status" (VDict select_record)).
  reflexivity.
Defined.

(** X5.  The encoding of a block is never decoded as a block: [to_dict]
    leaves out [id] and [has_children], and [NotionBlock(block.to_dict())]
    raises [KeyError] for one of the two. *)
Theorem block_encoding_not_decodable :
  forall block : NotionBlock,
    exists k,
      (k = "id" \/ k = "has_children") /\
      NotionBlock__init__ (NotionBlock_to_dict block)
      = Raise (KeyError (VStr k)).
Proof.
  intros block. unfold NotionBlock_to_dict, NotionBlock__init__.
  set (d := dict_set (type_name block) (content block)
              (dict_set "type" (VStr (type_name block))
                 (dict_set "object" (object block) []))).
  assert (Hobj : exists o, dict_get "object" d = Some o).
  { unfold d. destruct (String.eqb_spec (type_name block) "object") as [->|Hn].
    - eexists. apply dict_get_set_same.
    - eexists. rewrite dict_get_set_other by auto. reflexivity. }
  destruct Hobj as [o Hobj]. cbn [getitem]. rewrite Hobj. cbn [res_bind].
  destruct (String.eqb_spec (type_name block) "id") as [Hid|Hnid].
  - exists "has_children". split; [now right|].
    unfold d. rewrite Hid. reflexivity.
  - exists "id". split; [now left|].
    assert (Hnone : dict_get "id" d = None).
    { unfold d. rewrite dict_get_set_other by auto. reflexivity. }
    now rewrite Hnone.
Qed.

(** ** More on the conversion of blocks *)

(** X6.  A successful conversion touches nothing but the content of the
    block: [object], [id], the type and [has_children] stay, the content is
    still a dict, and the payload returned is the encoding of the block as
    the call leaves it. *)
Theorem convert_changes_content_only :
  forall (block block' : NotionBlock) (payload : value),
    _convert_block_to_json block = Ok (payload, block') ->
    object block' = object block /\
    id block' = id block /\
    type_name block' = type_name block /\
    type block' = type block /\
    has_children block' = has_children block /\
    (exists c', content block' = VDict c') /\
    payload = NotionBlock_to_dict block'.
Proof.
  intros block block' payload. unfold _convert_block_to_json.
  rewrite convert_rec_S.
  destruct (get_method (content block) "children") as [g|e] eqn:Hg;
    cbn [res_bind]; [|discriminate].
  assert (Hdict : exists c, content block = VDict c).
  { destruct (content block); try discriminate. eauto. }
  destruct Hdict as [c Hc].
  destruct (truthy g).
  - rewrite Hc.
    destruct (convert_keys _ c ["children"; "cells"] [] [])
      as [[children bound]|e]; cbn [res_bind]; [|discriminate].
    intros H. injection H as <- <-. cbn. repeat split. eauto.
  - intros H. injection H as <- <-. repeat split. eauto.
Qed.

Lemma convert_changes_content_only_witness :
  exists payload block',
    _convert_block_to_json column_block = Ok (payload, block') /\
    id block' = VStr "c-1" /\ has_children block' = VBool true /\
    payload = NotionBlock_to_dict block'.
Proof.
  eexists. eexists. split; [reflexivity|].
  destruct (convert_changes_content_only column_block _ _ eq_refl)
    as (_ & Hid & _ & _ & Hh & _ & Hp).
  repeat split; assumption.
Defined.

Lemma convert_rec_errors (n : nat) :
  forall (b : NotionBlock) (e : exn),
    convert_rec n b = Raise e ->
    e = RecursionError \/ e = AttributeError \/ e = TypeError.
Proof.
  induction n as [|n IH]; intros b e.
  - intros H. injection H as <-. auto.
  - rewrite convert_rec_S.
    destruct (get_method (content b) "children") as [g|e0] eqn:Hg;
      cbn [res_bind].
    + destruct (truthy g); [|discriminate].
      destruct (content b) as [| | | | |c|]; try discriminate.
      destruct (convert_keys (convert_rec n) c ["children"; "cells"] [] [])
        as [[children bound]|e1] eqn:Hk; cbn [res_bind]; [discriminate|].
      intros H. injection H as <-.
      destruct (convert_keys_error _ _ _ _ _ _ Hk) as [->|(b' & _ & Hb')];
        eauto.
    + intros H. injection H as <-.
      destruct (content b) as [| | | | |d|]; simpl in Hg;
        try (injection Hg as <-; auto).
      destruct (dict_get "children" d); discriminate.
Qed.

(** X7.  The conversion raises nothing but [AttributeError] and
    [TypeError]: a [KeyError] never leaves it.  It raises [AttributeError]
    whenever the content of the block is no dict. *)
Theorem convert_raises_attribute_or_type_error :
  forall block : NotionBlock,
    (forall e,
        _convert_block_to_json block = Raise e ->
        e = AttributeError \/ e = TypeError) /\
    ((forall c, content block <> VDict c) ->
     _convert_block_to_json block = Raise AttributeError).
Proof.
  intros block. split.
  - intros e H. pose proof (convert_never_RecursionError block) as Hrec.
    destruct (convert_rec_errors _ _ _ H) as [->|Hor]; [congruence|exact Hor].
  - intros Hc. unfold _convert_block_to_json. rewrite convert_rec_S.
    destruct (content block) as [| | | | |c|]; try reflexivity.
    exfalso. now apply (Hc c).
Qed.

Lemma convert_raises_attribute_or_type_error_witness :
  _convert_block_to_json
    (mkNotionBlock (VStr "block") (VStr "u-1") "unsupported" OTHER
                   VNone (VBool false))
  = Raise AttributeError.
Proof.
  apply (proj2 (convert_raises_attribute_or_type_error
                  (mkNotionBlock (VStr "block") (VStr "u-1") "unsupported"
                                 OTHER VNone (VBool false)))).
  discriminate.
Defined.

(** ** The decorated methods against a single answer *)

Lemma check_response_not_200 (response : Response) :
  status_code response <> 200 ->
  exists e,
    _check_response response = Raise e /\ is_BadRequestException e = true.
Proof.
  intros Hne. unfold _check_response. cbv zeta.
  repeat match goal with
         | |- context [if ?b then _ else _] =>
             destruct b eqn:?; [eexists; split; reflexivity|]
         end.
  match goal with H : negb (status_code response =? 200) = false |- _ =>
    apply negb_false_iff, Z.eqb_eq in H; contradiction end.
Qed.

Lemma get_block_children_attempt (parent_id : value) (r : Response)
    (rs : list Response) (tr : list event) :
  _get_block_children__wrapped__ parent_id (mkWorld (r :: rs) tr)
  = (_ <- _check_response r ;;
     body <- response_json r ;; getitem body "results",
     mkWorld rs (tr ++ [Request "GET" (url_block_children parent_id) None])).
Proof.
  unfold _get_block_children__wrapped__, bind, requests_request, lift.
  cbn [get_world put_world HasWorld_world log pending trace].
  destruct (_check_response r) as [[]|e]; reflexivity.
Qed.

Lemma decode_results_not_family (r : Response) (e : exn) :
  (body <- response_json r ;; getitem body "results") = Raise e ->
  is_BadRequestException e = false.
Proof.
  unfold response_json. destruct (json_body r) as [body|]; cbn [res_bind].
  - destruct body; simpl; try (intros H; injection H as <-; reflexivity).
    destruct (dict_get "results" d); [discriminate|].
    intros H; injection H as <-; reflexivity.
  - intros H; injection H as <-; reflexivity.
Qed.

(** X8.  [_get_block_children] against an answer with status 200 makes one
    request and is done: it returns the [results] of the body, and a body
    that is no JSON or holds no [results] raises its error at once, without
    a retry.  Against one answer with another status followed by one with
    status 200, it warns, sleeps 30 seconds, asks again and gives the
    outcome of the second answer. *)
Theorem get_block_children_single_answer :
  forall (parent_id : value) (r : Response) (rs : list Response)
         (tr : list event),
    (status_code r = 200 ->
     _get_block_children parent_id (mkWorld (r :: rs) tr)
     = (body <- response_json r ;; getitem body "results",
        mkWorld rs
          (tr ++ [Request "GET" (url_block_children parent_id) None])))
    /\
    (forall r2 rs2,
        status_code r <> 200 -> rs = r2 :: rs2 -> status_code r2 = 200 ->
        exists e,
          _check_response r = Raise e /\
          _get_block_children parent_id (mkWorld (r :: rs) tr)
          = (body <- response_json r2 ;; getitem body "results",
             mkWorld rs2
               (tr ++ [Request "GET" (url_block_children parent_id) None;
                       Print (retry_message e); Sleep 30;
                       Request "GET" (url_block_children parent_id) None]))).
Proof.
  intros parent_id r rs tr.
  assert (Hok : forall (n : nat) (err : option exn) r0 rs0 tr0,
             status_code r0 = 200 ->
             retry_loop (Datatypes.S n) err
               (_get_block_children__wrapped__ parent_id)
               (mkWorld (r0 :: rs0) tr0)
             = (body <- response_json r0 ;; getitem body "results",
                mkWorld rs0
                  (tr0 ++ [Request "GET" (url_block_children parent_id)
                                   None]))).
  { intros n err r0 rs0 tr0 H200.
    pose proof (get_block_children_attempt parent_id r0 rs0 tr0) as Hatt.
    rewrite (check_response_200 _ H200) in Hatt. cbn [res_bind] in Hatt.
    destruct (body <- response_json r0 ;; getitem body "results")
      as [v|e] eqn:Hdec.
    - now apply retry_loop_Ok.
    - apply retry_loop_other; [exact Hatt|].
      now apply (decode_results_not_family r0). }
  split.
  - intros H200. unfold _get_block_children, retry_on_bad_response.
    now apply Hok.
  - intros r2 rs2 Hne -> H200.
    destruct (check_response_not_200 _ Hne) as (e & He & Hfam).
    exists e. split; [exact He|].
    unfold _get_block_children, retry_on_bad_response.
    pose proof (get_block_children_attempt parent_id r (r2 :: rs2) tr) as Hatt.
    rewrite He in Hatt. cbn [res_bind] in Hatt.
    rewrite (retry_loop_bad _ _ _ _ _ _ Hatt Hfam).
    rewrite pause_world. cbn [pending trace].
    rewrite (Hok 1%nat (Some e) r2 rs2 _ H200).
    rewrite <- !app_assoc. reflexivity.
Qed.

Lemma get_block_children_single_answer_witness :
  _get_block_children (VStr "pg")
    (mkWorld [rate_limited; children_response [paragraph_wire]] [])
  = (Ok (VList [paragraph_wire]),
     mkWorld []
       [Request "GET" (url_block_children (VStr "pg")) None;
        Print rate_limit_warning; Sleep 30;
        Request "GET" (url_block_children (VStr "pg")) None])
  /\
  _get_block_children (VStr "pg")
    (mkWorld [mkResponse 200 "<html>" None; children_response []] [])
  = (Raise JSONDecodeError,
     mkWorld [children_response []]
       [Request "GET" (url_block_children (VStr "pg")) None]).
Proof.
  split.
  - destruct (get_block_children_single_answer (VStr "pg") rate_limited
                [children_response [paragraph_wire]] []) as [_ H].
    assert (Hne : status_code rate_limited <> 200) by discriminate.
    destruct (H (children_response [paragraph_wire]) [] Hne eq_refl eq_refl)
      as (e & He & Hrun).
    vm_compute in He. injection He as <-. exact Hrun.
  - destruct (get_block_children_single_answer (VStr "pg")
                (mkResponse 200 "<html>" None) [children_response []] [])
      as [H _].
    exact (H eq_refl).
Defined.

(** ** Retries of [_update_block] *)

Lemma pause_pair (X : Type) (e : exn) (x : X) (w : world) :
  pause e (x, w) = (x, pause e w).
Proof. reflexivity. Qed.

Lemma update_block_attempt (block_id : value) (b b1 : NotionBlock)
    (payload : value) (w : world) :
  _convert_block_to_json b = Ok (payload, b1) ->
  _update_block__wrapped__ block_id (b, w)
  = match pending w with
    | [] =>
        (Raise ConnectionError,
         (b1, mkWorld []
                (trace w ++
                 [Request "PATCH" (url_block block_id) (Some payload)])))
    | r :: rs =>
        (_check_response r,
         (b1, mkWorld rs
                (trace w ++
                 [Request "PATCH" (url_block block_id) (Some payload)])))
    end.
Proof.
  intros Hconv. unfold _update_block__wrapped__. cbn [fst snd].
  rewrite Hconv. unfold bind, requests_request, lift. cbn.
  unfold log. destruct (pending w) as [|r rs] eqn:Hp; [reflexivity|].
  destruct (_check_response r) as [[]|e]; reflexivity.
Qed.

Lemma update_block_retries (block_id : value) (block1 : NotionBlock)
    (payload : value) :
  _convert_block_to_json block1 = Ok (payload, block1) ->
  forall (n : nat) (err : option exn) (b : NotionBlock) (w : world)
         (r : res unit) (b' : NotionBlock) (w' : world),
    _convert_block_to_json b = Ok (payload, block1) ->
    retry_loop n err (_update_block__wrapped__ block_id) (b, w)
    = (r, (b', w')) ->
    (n <> 0%nat -> b' = block1) /\
    exists evs,
      trace w' = (trace w ++ evs)%list /\ only_patches block_id payload evs.
Proof.
  intros Hfix. induction n as [|n IH]; intros err b w r b' w' Hconv Hrun.
  - split; [congruence|]. exists []. rewrite app_nil_r.
    destruct err; simpl in Hrun; injection Hrun as _ _ <-;
      split; auto; constructor.
  - split; [intros _|].
    + cbn [retry_loop] in Hrun.
      rewrite (update_block_attempt block_id b block1 payload w Hconv)
        in Hrun.
      destruct (pending w) as [|r0 rs].
      * cbn [is_BadRequestException] in Hrun. now injection Hrun as _ <- _.
      * destruct (_check_response r0) as [[]|e].
        -- now injection Hrun as _ <- _.
        -- destruct (is_BadRequestException e).
           ++ change ((_ <~ emit (Print (retry_message e)) ;;
                       _ <~ emit (Sleep 30) ;;
                       retry_loop n (Some e)
                         (_update_block__wrapped__ block_id))
                        (block1,
                         mkWorld rs
                           (trace w ++
                            [Request "PATCH" (url_block block_id)
                                     (Some payload)])))
                with (retry_loop n (Some e)
                        (_update_block__wrapped__ block_id)
                        (pause e
                           (block1,
                            mkWorld rs
                              (trace w ++
                               [Request "PATCH" (url_block block_id)
                                        (Some payload)])))) in Hrun.
              rewrite pause_pair in Hrun.
              destruct n as [|n'].
              ** destruct (IH (Some e) _ _ _ _ _ Hfix Hrun) as [_ _].
                 simpl in Hrun. now injection Hrun as _ <- _.
              ** now apply (IH (Some e) _ _ _ _ _ Hfix Hrun).
           ++ now injection Hrun as _ <- _.
    + cbn [retry_loop] in Hrun.
      rewrite (update_block_attempt block_id b block1 payload w Hconv)
        in Hrun.
      assert (Hone : only_patches block_id payload
                       [Request "PATCH" (url_block block_id) (Some payload)]).
      { constructor; [|constructor]. intros m u j H.
        injection H as <- <- <-. auto. }
      destruct (pending w) as [|r0 rs].
      * cbn [is_BadRequestException] in Hrun. injection Hrun as _ _ <-.
        eexists. split; [reflexivity|exact Hone].
      * destruct (_check_response r0) as [[]|e].
        -- injection Hrun as _ _ <-. eexists. split; [reflexivity|exact Hone].
        -- destruct (is_BadRequestException e).
           ++ change ((_ <~ emit (Print (retry_message e)) ;;
                       _ <~ emit (Sleep 30) ;;
                       retry_loop n (Some e)
                         (_update_block__wrapped__ block_id))
                        (block1,
                         mkWorld rs
                           (trace w ++
                            [Request "PATCH" (url_block block_id)
                                     (Some payload)])))
                with (retry_loop n (Some e)
                        (_update_block__wrapped__ block_id)
                        (pause e
                           (block1,
                            mkWorld rs
                              (trace w ++
                               [Request "PATCH" (url_block block_id)
                                        (Some payload)])))) in Hrun.
              rewrite pause_pair, pause_world in Hrun. cbn [pending trace] in Hrun.
              destruct (IH (Some e) _ _ _ _ _ Hfix Hrun) as [_ (evs & Htr & Hevs)].
              cbn [trace] in Htr. rewrite Htr.
              exists ([Request "PATCH" (url_block block_id) (Some payload)]
                        ++ [Print (retry_message e); Sleep 30] ++ evs)%list.
              split; [now rewrite <- !app_assoc|].
              unfold only_patches in *. apply Forall_app. split; [exact Hone|].
              apply Forall_app. split; [|exact Hevs].
              constructor; [intros m u j H; discriminate|].
              constructor; [intros m u j H; discriminate|]. constructor.
           ++ injection Hrun as _ _ <-. eexists.
              split; [reflexivity|exact Hone].
Qed.

(** X9.  For a block without a [cells] key that converts to [payload],
    every request that [_update_block] sends, on the first attempt and on
    each retry, is a [PATCH] of that block with that same payload, and the
    block is left as its first conversion left it. *)
Theorem update_block_resends_payload :
  forall (block_id : value) (block block1 : NotionBlock) (payload : value)
         (w w' : world) (r : res unit) (b' : NotionBlock),
    (forall c, content block = VDict c -> dict_get "cells" c = None) ->
    _convert_block_to_json block = Ok (payload, block1) ->
    _update_block block_id (block, w) = (r, (b', w')) ->
    b' = block1 /\
    exists evs,
      trace w' = (trace w ++ evs)%list /\ only_patches block_id payload evs.
Proof.
  intros block_id block block1 payload w w' r b' Hcells Hconv Hrun.
  pose proof (convert_again_without_cells block block1 payload Hcells Hconv)
    as Hfix.
  destruct (update_block_retries block_id block1 payload Hfix 3 None
              block w r b' w' Hconv Hrun) as [Hb Hevs].
  split; [apply Hb; discriminate|exact Hevs].
Qed.

Lemma update_block_resends_payload_witness :
  exists evs,
    trace (snd (snd (_update_block (VStr "c-1")
                       (column_block, mkWorld [rate_limited; updated] []))))
    = ([] ++ evs)%list /\
    only_patches (VStr "c-1")
      (VDict [("object", VStr "block"); ("type", VStr "column");
              ("column",
               VDict [("children", VList [paragraph_wire; divider_wire])])])
      evs.
Proof.
  assert (Hcells : forall c, content column_block = VDict c ->
                             dict_get "cells" c = None).
  { intros c Hc. injection Hc as <-. reflexivity. }
  destruct (update_block_resends_payload (VStr "c-1") column_block _ _
              (mkWorld [rate_limited; updated] []) _ _ _
              Hcells eq_refl eq_refl) as [_ H].
  exact H.
Defined.

(** X10.  Converting a block without a [cells] key a second time changes
    nothing: the block that the first conversion leaves has no [cells] key
    either, and converts to the same payload and to itself. *)
Theorem convert_idempotent_without_cells :
  forall (block block1 : NotionBlock) (payload : value),
    (forall c, content block = VDict c -> dict_get "cells" c = None) ->
    _convert_block_to_json block = Ok (payload, block1) ->
    (forall c1, content block1 = VDict c1 -> dict_get "cells" c1 = None) /\
    _convert_block_to_json block1 = Ok (payload, block1).
Proof.
  intros block block1 payload Hcells Hrun. split.
  - destruct (convert_result_without_cells _ _ _ Hcells Hrun)
      as [->|(c & children' & Hc & -> & _)]; [exact Hcells|].
    intros c1 Hc1. cbn in Hc1. injection Hc1 as <-.
    rewrite dict_get_set_other by discriminate. now apply Hcells.
  - now apply (convert_again_without_cells block).
Qed.

Lemma convert_idempotent_without_cells_witness :
  exists payload block1,
    _convert_block_to_json column_block = Ok (payload, block1) /\
    _convert_block_to_json block1 = Ok (payload, block1).
Proof.
  eexists. eexists. split; [reflexivity|].
  apply (convert_idempotent_without_cells column_block).
  - intros c Hc. injection Hc as <-. reflexivity.
  - reflexivity.
Defined.

(** ** The link setter and a bulleted item without [text] *)

Lemma scan_blocks_runs_error (text url : string) (flag : bool)
    (before after : list NotionBlock) (block : NotionBlock) (e : exn)
    (w : world) :
  Forall (no_matching_run text) before ->
  runs_of block = Raise e ->
  scan_blocks text url flag (before ++ block :: after) w = (Raise e, w).
Proof.
  intros Hbefore Hruns.
  induction Hbefore as [|b before (items & Hb & Hno) _ IH]; simpl app.
  - cbn [scan_blocks]. unfold runs_of in Hruns. unfold bind, lift.
    destruct (getitem (content block) "text") as [txt|e0];
      cbn [res_bind] in Hruns.
    + now rewrite Hruns.
    + now injection Hruns as <-.
  - rewrite (scan_blocks_step _ _ _ _ _ _ _ Hb). unfold bind.
    now rewrite (scan_items_no_match _ _ _ _ _ _ Hno).
Qed.

(** X11.  When the first bulleted list item that is not free of a match has
    no [text] field in its content (the field is called [rich_text] there,
    say), [_set_bulleted_list_item_link] raises [KeyError] for [text]; it
    sends no update, and the items after it, matching or not, are not looked
    at. *)
Theorem set_link_item_without_text :
  forall (text_to_match url : string) (page_id : value) (flag : bool)
         (w w1 : world) (records : value) (elems : list value)
         (page_children before after : list NotionBlock)
         (block : NotionBlock) (c : list (string * value)),
    _get_block_children page_id w = (Ok records, w1) ->
    py_iter records = Ok elems ->
    map_res NotionBlock__init__ elems = Ok page_children ->
    bullet_list_blocks page_children = (before ++ block :: after)%list ->
    Forall (no_matching_run text_to_match) before ->
    content block = VDict c ->
    dict_get "text" c = None ->
    _set_bulleted_list_item_link text_to_match page_id url flag w
    = (Raise (KeyError (VStr "text")), w1).
Proof.
  intros text url page_id flag w w1 records elems page_children before after
         block c Hfetch Hiter Hdecode Hsplit Hbefore Hc Htext.
  unfold _set_bulleted_list_item_link. unfold bind at 1. rewrite Hfetch.
  unfold bind at 1, lift at 1. rewrite Hiter.
  unfold bind at 1, lift at 1. rewrite Hdecode.
  fold (bullet_list_blocks page_children). rewrite Hsplit.
  unfold suppress_StopIteration, bind.
  rewrite (scan_blocks_runs_error text url flag before after block
             (KeyError (VStr "text")) w1 Hbefore); [reflexivity|].
  unfold runs_of. rewrite Hc. cbn [getitem]. now rewrite Htext.
Qed.

Lemma set_link_item_without_text_witness :
  _set_bulleted_list_item_link "Click here" (VStr "pg") "http://x" false
    (mkWorld
       [children_response
          [VDict [("object", VStr "block"); ("id", VStr "b-1");
                  ("type", VStr "bulleted_list_item");
                  ("bulleted_list_item",
                   VDict [("rich_text", VList [run "Click here"])]);
                  ("has_children", VBool false)];
           bullet_record [run "Click here"]];
        updated] [])
  = (Raise (KeyError (VStr "text")),
     mkWorld [updated]
       [Request "GET" (url_block_children (VStr "pg")) None]).
Proof.
  eapply (set_link_item_without_text "Click here" "http://x" (VStr "pg")
            false _ _ _ _ _ [] _ _ _).
  - reflexivity.
  - reflexivity.
  - reflexivity.
  - reflexivity.
  - constructor.
  - reflexivity.
  - reflexivity.
Defined.

(** ** More on the pagination *)

Lemma key_eqb_str_r (s : string) (k : value) :
  key_eqb k (VStr s) = true -> k = VStr s.
Proof.
  destruct k; simpl; try discriminate. intros H.
  apply String.eqb_eq in H. now subst.
Qed.

Lemma pages_get_set_other_str (s : string) (i v : value)
    (pages : list (value * value)) :
  i <> VStr s ->
  pages_get (VStr s) (pages_set i v pages) = pages_get (VStr s) pages.
Proof.
  intros Hne. induction pages as [|[k0 v0] pages IH];
    cbn [pages_set pages_get].
  - destruct (key_eqb (VStr s) i) eqn:E; [|reflexivity].
    apply key_eqb_str in E. congruence.
  - destruct (key_eqb i k0) eqn:Ei; cbn [pages_get].
    + destruct (key_eqb (VStr s) k0) eqn:Es; [|reflexivity].
      apply key_eqb_str in Es. subst k0.
      apply key_eqb_str_r in Ei. congruence.
    + destruct (key_eqb (VStr s) k0); [reflexivity|exact IH].
Qed.

Lemma collect_items_app (items1 items2 : list value) :
  forall pages,
    collect_items (items1 ++ items2) pages
    = (pages1 <- collect_items items1 pages ;; collect_items items2 pages1).
Proof.
  induction items1 as [|item items1 IH]; intros pages; [reflexivity|].
  cbn [app collect_items].
  destruct (getitem item "object") as [o|e]; cbn [res_bind]; [|reflexivity].
  destruct (negb (eq_str o "page")); [apply IH|].
  destruct (extract_title item) as [title|e]; cbn [res_bind]; [|reflexivity].
  destruct (setitem item "title" title) as [item'|e]; cbn [res_bind];
    [|reflexivity].
  destruct (getitem item' "id") as [i|e]; cbn [res_bind]; [|reflexivity].
  destruct (hashable i); [apply IH|reflexivity].
Qed.

Lemma collect_items_other_ids (s : string) (items : list value) :
  (forall it, In it items -> getitem it "id" <> Ok (VStr s)) ->
  forall pages pages',
    collect_items items pages = Ok pages' ->
    pages_get (VStr s) pages' = pages_get (VStr s) pages.
Proof.
  induction items as [|item items IH]; intros Hids pages pages'.
  - intros H. now injection H as <-.
  - cbn [collect_items].
    assert (Hrest : forall it, In it items -> getitem it "id" <> Ok (VStr s))
      by (intros it Hin; apply Hids; now right).
    destruct (getitem item "object") as [o|e]; cbn [res_bind]; [|discriminate].
    destruct (negb (eq_str o "page")); [now apply IH|].
    destruct (extract_title item) as [title|e]; cbn [res_bind];
      [|discriminate].
    destruct item as [| | | | |d|]; try discriminate.
    cbn [setitem res_bind getitem].
    rewrite dict_get_set_other by discriminate.
    destruct (dict_get "id" d) as [i|] eqn:Hid; cbn [res_bind];
      [|discriminate].
    destruct (hashable i); [|discriminate].
    intros H. rewrite (IH Hrest _ _ H).
    apply pages_get_set_other_str. intros ->.
    apply (Hids (VDict d)); [now left|]. cbn [getitem]. now rewrite Hid.
Qed.

Lemma collect_items_page_record (item : value) (s : string) (title : value)
    (rest : list value) (pages : list (value * value)) :
  page_record item s title ->
  collect_items (item :: rest) pages
  = collect_items rest (pages_set (VStr s) (with_title item title) pages).
Proof.
  intros (Hobj & Hid & Htitle). cbn [collect_items].
  rewrite Hobj. cbn [res_bind eq_str]. rewrite String.eqb_refl. cbn [negb].
  rewrite Htitle. cbn [res_bind].
  destruct item as [| | | | |d|]; try discriminate.
  cbn [setitem res_bind getitem with_title].
  rewrite dict_get_set_other by discriminate.
  apply getitem_dict in Hid. rewrite Hid. reflexivity.
Qed.

Lemma collect_items_total (items : list value) :
  Forall well_formed_item items ->
  forall pages, exists pages', collect_items items pages = Ok pages'.
Proof.
  induction 1 as [|item items (o & Ho & Hpage) _ IH]; intros pages.
  - now exists pages.
  - cbn [collect_items]. rewrite Ho. cbn [res_bind].
    destruct (eq_str o "page") eqn:Eo; cbn [negb]; [|apply IH].
    destruct (Hpage eq_refl) as (page_id & title & Hrec).
    pose proof (collect_items_page_record item page_id title items pages Hrec)
      as Hstep.
    cbn [collect_items] in Hstep. rewrite Ho in Hstep.
    cbn [res_bind] in Hstep. rewrite Eo in Hstep. cbn [negb] in Hstep.
    rewrite Hstep. apply IH.
Qed.

Lemma last_page_process (r : Response) (pages : list (value * value))
    (cursor : value) (items : list value) :
  last_page r ->
  body_field r "results" = Some (VList items) ->
  process_response r pages cursor
  = (pages' <- collect_items items pages ;;
     match body_field r "has_more" with
     | Some h => Ok (pages', h, cursor)
     | None => Ok (pages', VNone, cursor)
     end).
Proof.
  intros [[d Hd] Hlast] Hres. unfold body_field in *. rewrite Hd in *.
  unfold process_response, response_json. rewrite Hd.
  cbn [res_bind getitem]. rewrite Hres. cbn [res_bind py_iter].
  destruct (collect_items items pages) as [pages'|e]; cbn [res_bind];
    [|reflexivity].
  cbn [get_method].
  destruct (dict_get "has_more" d) as [h|]; cbn [res_bind]; [|reflexivity].
  now rewrite (Hlast h eq_refl).
Qed.

(** X12.  When a page id occurs more than once in the results, the record
    that comes last is the one the mapping holds: a fetch that ends with a
    response of well-formed results returns a mapping in which the id of a
    page record maps to that record, with its title added, if no later
    result has the same id. *)
Theorem get_database_pages_last_record_wins :
  forall (fuel : nat) (database_id : value) (r : Response)
         (rs : list Response) (tr : list event)
         (items1 items2 : list value) (item : value) (s : string)
         (title : value),
    last_page r ->
    body_field r "results" = Some (VList (items1 ++ item :: items2)) ->
    Forall well_formed_item items1 ->
    Forall well_formed_item items2 ->
    page_record item s title ->
    (forall it, In it items2 -> getitem it "id" <> Ok (VStr s)) ->
    exists pages,
      _get_database_pages (Datatypes.S fuel) database_id
        (mkWorld (r :: rs) tr)
      = Some (Ok pages, mkWorld rs (tr ++ [query database_id None])) /\
      pages_get (VStr s) pages = Some (with_title item title).
Proof.
  intros fuel database_id r rs tr items1 items2 item s title
         Hlast Hres Hwf1 Hwf2 Hrec Hids.
  unfold _get_database_pages. cbn [pages_loop]. unfold requests_request.
  cbn [get_world put_world HasWorld_world log pending trace].
  rewrite (last_page_process r [] VNone _ Hlast Hres).
  rewrite collect_items_app.
  destruct (collect_items_total items1 Hwf1 []) as [pages1 ->].
  cbn [res_bind].
  rewrite (collect_items_page_record item s title items2 pages1 Hrec).
  destruct (collect_items_total items2 Hwf2
              (pages_set (VStr s) (with_title item title) pages1))
    as [pages2 Hcol].
  rewrite Hcol. cbn [res_bind].
  assert (Hget : pages_get (VStr s) pages2 = Some (with_title item title)).
  { rewrite (collect_items_other_ids s items2 Hids _ _ Hcol).
    apply pages_get_set_same. }
  exists pages2. split; [|exact Hget].
  destruct Hlast as [_ Hfalse].
  destruct (body_field r "has_more") as [h|].
  - rewrite (Hfalse h eq_refl). reflexivity.
  - reflexivity.
Qed.

Lemma get_database_pages_last_record_wins_witness :
  exists pages,
    _get_database_pages 1 (VStr "db")
      (mkWorld [results_page [page_item "id-1" "Name" "Old";
                              page_item "id-2" "Name" "Other";
                              page_item "id-1" "Name" "New"] false VNone] [])
    = Some (Ok pages, mkWorld [] [query (VStr "db") None]) /\
    pages_get (VStr "id-1") pages
    = Some (page_item_titled "id-1" "Name" "New").
Proof.
  refine (get_database_pages_last_record_wins 0 (VStr "db")
            (results_page [page_item "id-1" "Name" "Old";
                           page_item "id-2" "Name" "Other";
                           page_item "id-1" "Name" "New"] false VNone)
            [] []
            [page_item "id-1" "Name" "Old"; page_item "id-2" "Name" "Other"]
            [] (page_item "id-1" "Name" "New") "id-1" (VStr "New")
            _ eq_refl _ _ _ _).
  - split; [eexists; reflexivity|].
    intros h Hh. injection Hh as <-. reflexivity.
  - repeat constructor; eexists; (split; [reflexivity|]); intros _;
      eexists; eexists; repeat split.
  - constructor.
  - repeat split.
  - intros it [].
Defined.

Lemma untitled_page_extract (item : value) :
  untitled_page item -> extract_title item = Raise IndexError.
Proof.
  intros (_ & props & n & Hp & Hkey & Htitle).
  unfold extract_title, title_path. rewrite Hp. cbn [res_bind getitem].
  destruct Hkey as [Hbom|[Hbom Hname]].
  - rewrite Hbom. cbn [res_bind]. unfold title_text. rewrite Htitle.
    reflexivity.
  - rewrite Hbom, Hname. cbn [res_bind is_KeyError]. unfold title_text.
    rewrite Htitle. reflexivity.
Qed.

(** X13.  A page whose title list is empty aborts the fetch: the
    [IndexError] of [title][0] is not caught by [except KeyError], so there
    is no fallback to [Name], and [_get_database_pages] raises it; the
    records collected before it are not returned. *)
Theorem get_database_pages_untitled_page :
  forall (fuel : nat) (database_id : value) (r : Response)
         (rs : list Response) (tr : list event)
         (items1 items2 : list value) (item : value),
    body_field r "results" = Some (VList (items1 ++ item :: items2)) ->
    Forall well_formed_item items1 ->
    untitled_page item ->
    _get_database_pages (Datatypes.S fuel) database_id (mkWorld (r :: rs) tr)
    = Some (Raise IndexError, mkWorld rs (tr ++ [query database_id None])).
Proof.
  intros fuel database_id r rs tr items1 items2 item Hres Hwf Huntitled.
  unfold _get_database_pages. cbn [pages_loop]. unfold requests_request.
  cbn [get_world put_world HasWorld_world log pending trace].
  destruct (body_field_dict _ _ _ Hres) as (d & Hd & Hresd).
  unfold process_response, response_json. rewrite Hd.
  cbn [res_bind getitem]. rewrite Hresd. cbn [res_bind py_iter].
  rewrite collect_items_app.
  destruct (collect_items_total items1 Hwf []) as [pages1 ->].
  cbn [res_bind collect_items].
  destruct Huntitled as [Hobj Hrest].
  rewrite Hobj. cbn [res_bind eq_str]. rewrite String.eqb_refl. cbn [negb].
  rewrite (untitled_page_extract item (conj Hobj Hrest)). reflexivity.
Qed.

Lemma get_database_pages_untitled_page_witness :
  _get_database_pages 1 (VStr "db")
    (mkWorld
       [results_page
          [page_item "id-1" "Name" "Spec A";
           VDict [("object", VStr "page"); ("id", VStr "id-2");
                  ("properties",
                   VDict [(BOM_Name, VDict [("title", VList [])]);
                          ("Name", title_property "Spec B")])]]
          false VNone] [])
  = Some (Raise IndexError, mkWorld [] [query (VStr "db") None]).
Proof.
  apply (get_database_pages_untitled_page 0 (VStr "db") _ [] []
           [page_item "id-1" "Name" "Spec A"] []
           (VDict [("object", VStr "page"); ("id", VStr "id-2");
                   ("properties",
                    VDict [(BOM_Name, VDict [("title", VList [])]);
                           ("Name", title_property "Spec B")])])).
  - reflexivity.
  - constructor; [|constructor]. apply page_item_well_formed. now right.
  - split; [reflexivity|].
    exists [(BOM_Name, VDict [("title", VList [])]);
            ("Name", title_property "Spec B")], (VDict [("title", VList [])]).
    split; [reflexivity|]. split; [now left|reflexivity].
Defined.

Lemma pages_loop_without_cursor (database_id : value) (r : Response) :
  well_formed_results r ->
  more_page_without_cursor r ->
  forall (n fuel : nat) (pages : list (value * value)) (cursor : value)
         (tr : list event),
    (n < fuel)%nat ->
    truthy cursor = false ->
    pages_loop fuel database_id pages cursor (mkWorld (repeat r n) tr)
    = Some (Raise ConnectionError,
            mkWorld [] (tr ++ repeat (query database_id None)
                                     (Datatypes.S n))).
Proof.
  intros [[l Hl] Hwf] [(h & Hh & Hth) (c & Hc & Hfc)].
  assert (Hres : results_of r = l) by (unfold results_of; now rewrite Hl).
  rewrite Hres in Hwf.
  destruct (body_field_dict _ _ _ Hl) as (d & Hd & Hld).
  unfold body_field in Hh, Hc. rewrite Hd in Hh, Hc.
  induction n as [|n IH]; intros fuel pages cursor tr Hfuel Hcur;
    (destruct fuel as [|fuel]; [lia|]);
    cbn [pages_loop repeat]; unfold requests_request;
    cbn [get_world put_world HasWorld_world log pending trace];
    assert (Hq : Request "POST" (url_database_query database_id)
                         (Some (query_payload cursor))
                 = query database_id None)
      by (unfold query, query_payload; now rewrite Hcur);
    rewrite Hq.
  - reflexivity.
  - unfold process_response, response_json. rewrite Hd.
    cbn [res_bind getitem]. rewrite Hld. cbn [res_bind py_iter].
    destruct (collect_items_total l Hwf pages) as [pages' ->].
    cbn [res_bind get_method]. rewrite Hh. cbn [res_bind]. rewrite Hth, Hc.
    cbn [res_bind]. rewrite Hth.
    rewrite (IH fuel pages' c _ ltac:(lia) Hfc).
    rewrite <- app_assoc. reflexivity.
Qed.

(** X14.  Against a service that reports more results but hands out no
    usable cursor ([None] or an empty string), [_get_database_pages] sends
    the first query again, without a start cursor, and does so for as long
    as the service answers: [n] such answers are all consumed, by [n + 1]
    identical queries, and no result is returned. *)
Theorem get_database_pages_without_cursor_repeats :
  forall (database_id : value) (r : Response) (n fuel : nat)
         (tr : list event),
    well_formed_results r ->
    more_page_without_cursor r ->
    (n < fuel)%nat ->
    _get_database_pages fuel database_id (mkWorld (repeat r n) tr)
    = Some (Raise ConnectionError,
            mkWorld [] (tr ++ repeat (query database_id None)
                                     (Datatypes.S n))).
Proof.
  intros database_id r n fuel tr Hwf Hmore Hfuel.
  unfold _get_database_pages.
  now apply pages_loop_without_cursor.
Qed.

Lemma get_database_pages_without_cursor_repeats_witness :
  _get_database_pages 5 (VStr "db")
    (mkWorld
       (repeat (results_page [page_item "id-1" "Name" "Spec A"] true VNone) 3)
       [])
  = Some (Raise ConnectionError,
          mkWorld [] (repeat (query (VStr "db") None) 4)).
Proof.
  apply (get_database_pages_without_cursor_repeats (VStr "db")
           (results_page [page_item "id-1" "Name" "Spec A"] true VNone)
           3 5 []).
  - split; [eexists; reflexivity|].
    constructor; [|constructor]. apply page_item_well_formed. now right.
  - split.
    + exists (VBool true). split; reflexivity.
    + exists VNone. split; reflexivity.
  - lia.
Defined.

(** ** The text of a page *)

Lemma page_content_loop_spec (blocks : list value) :
  Forall (fun block =>
            exists ty,
              getitem block "type" = Ok ty /\
              (eq_str ty "paragraph" = true ->
               exists s, paragraph_text block = Ok s)) blocks ->
  forall page_content,
    exists texts,
      page_content_loop blocks page_content
      = Ok (page_content ++ texts)%list /\
      Forall2 (fun block s => paragraph_text block = Ok s)
              (filter is_paragraph_record blocks) texts.
Proof.
  induction 1 as [|block blocks (ty & Hty & Hpar) _ IH]; intros page_content.
  - exists []. rewrite app_nil_r. split; [reflexivity|constructor].
  - cbn [page_content_loop filter]. unfold is_paragraph_record at 1.
    rewrite Hty. cbn [res_bind].
    destruct (eq_str ty "paragraph") eqn:E.
    + destruct (Hpar eq_refl) as [s Hs]. rewrite Hs. cbn [res_bind].
      destruct (IH (page_content ++ [s])%list) as (texts & Hrun & HF).
      exists (s :: texts). rewrite Hrun, <- app_assoc.
      split; [reflexivity|]. now constructor.
    + apply IH.
Qed.

Lemma join_str_concat (ss : list string) :
  join_str (map VStr ss) = Ok (concat_all ss).
Proof.
  induction ss as [|s ss IH]; [reflexivity|].
  cbn [map join_str]. now rewrite IH.
Qed.

Lemma map_res_plain_text (runs : list value) (ss : list string) :
  Forall2 (fun run s => getitem run "plain_text" = Ok (VStr s)) runs ss ->
  map_res (fun t => getitem t "plain_text") runs = Ok (map VStr ss).
Proof.
  induction 1 as [|run s runs ss Hrun _ IH]; [reflexivity|].
  cbn [map_res map]. rewrite Hrun. cbn [res_bind]. now rewrite IH.
Qed.

(** X15.  [get_page_content] makes one request and does not look at the
    status of the answer.  From the [results] of the body it returns, in
    their order, the texts of the records whose [type] is exactly
    [paragraph], and nothing for the other records; the text of a paragraph
    is the concatenation of the [plain_text] of its runs. *)
Theorem get_page_content_paragraphs :
  forall (page_id : value) (r : Response) (rs : list Response)
         (tr : list event) (blocks : list value),
    body_field r "results" = Some (VList blocks) ->
    Forall (fun block =>
              exists ty,
                getitem block "type" = Ok ty /\
                (eq_str ty "paragraph" = true ->
                 exists s, paragraph_text block = Ok s)) blocks ->
    (exists texts,
        get_page_content page_id (mkWorld (r :: rs) tr)
        = (Ok texts,
           mkWorld rs
             (tr ++ [Request "GET" (url_block_children page_id) None])) /\
        Forall2 (fun block s => paragraph_text block = Ok s)
                (filter is_paragraph_record blocks) texts)
    /\
    (forall block p runs ss,
        getitem block "paragraph" = Ok p ->
        getitem p "rich_text" = Ok (VList runs) ->
        Forall2 (fun run s => getitem run "plain_text" = Ok (VStr s))
                runs ss ->
        paragraph_text block = Ok (concat_all ss)).
Proof.
  intros page_id r rs tr blocks Hres Hblocks. split.
  - destruct (page_content_loop_spec blocks Hblocks []) as (texts & Hrun & HF).
    exists texts. split; [|exact HF].
    destruct (body_field_dict _ _ _ Hres) as (d & Hd & Hresd).
    unfold get_page_content, bind, requests_request, lift.
    cbn [get_world put_world HasWorld_world log pending trace].
    unfold response_json. rewrite Hd. cbn [res_bind getitem].
    rewrite Hresd. cbn [res_bind py_iter]. now rewrite Hrun.
  - intros block p runs ss Hp Hrt Hruns. unfold paragraph_text.
    rewrite Hp. cbn [res_bind]. rewrite Hrt. cbn [res_bind py_iter].
    rewrite (map_res_plain_text runs ss Hruns). cbn [res_bind].
    apply join_str_concat.
Qed.

Lemma get_page_content_paragraphs_witness :
  get_page_content (VStr "pg")
    (mkWorld
       [mkResponse 500 "error"
          (Some (VDict [("results",
                         VList [heading_record; two_run_paragraph])]))] [])
  = (Ok ["Hello, world"],
     mkWorld [] [Request "GET" (url_block_children (VStr "pg")) None]).
Proof.
  destruct (get_page_content_paragraphs (VStr "pg")
              (mkResponse 500 "error"
                 (Some (VDict [("results",
                                VList [heading_record;
                                       two_run_paragraph])])))
              [] [] [heading_record; two_run_paragraph] eq_refl)
    as [(texts & Hrun & HF) _].
  - constructor; [|constructor; [|constructor]].
    + exists (VStr "heading_1"). split; [reflexivity|discriminate].
    + exists (VStr "paragraph"). split; [reflexivity|].
      intros _. eexists. reflexivity.
  - rewrite Hrun. f_equal. f_equal.
    vm_compute in Hrun. now injection Hrun as <-.
Defined.

(** ** Request headers *)

Lemma dict_get_app_last (k : string) (l : list (string * value))
    (kv : string * value) :
  dict_get k (l ++ [kv])
  = match dict_get k l with
    | Some v => Some v
    | None => if String.eqb k (fst kv) then Some (snd kv) else None
    end.
Proof.
  induction l as [|[k0 v0] l IH]; cbn [app dict_get].
  - destruct kv as [k1 v1]. reflexivity.
  - destruct (String.eqb k k0); [reflexivity|exact IH].
Qed.

Lemma dict_get_fold_set (k : string) (items : list (string * value)) :
  forall h,
    dict_get k (fold_left (fun h kv => dict_set (fst kv) (snd kv) h) items h)
    = match dict_get k (rev items) with
      | Some v => Some v
      | None => dict_get k h
      end.
Proof.
  induction items as [|[k1 v1] items IH]; intros h; [reflexivity|].
  cbn [fold_left rev fst snd]. rewrite IH, dict_get_app_last.
  destruct (dict_get k (rev items)); [reflexivity|]. cbn [fst snd].
  destruct (String.eqb_spec k k1) as [->|Hne].
  - apply dict_get_set_same.
  - apply dict_get_set_other. congruence.
Qed.

(** X16.  In the headers that [_get_headers] returns, a name of
    [add_headers] has the value given there (the last one, should the name
    occur twice); otherwise [content-type] has the JSON value with the
    charset when [is_json] holds, and every other name has its default
    value.  The JSON value is stored under the lower-case name, so that the
    default [Content-Type] stays: with [is_json] the headers carry both. *)
Theorem get_headers_lookup :
  (forall (default_headers items : list (string * value)) (is_json : bool)
          (k : string),
      exists headers,
        _get_headers default_headers is_json (VDict items) = Ok headers /\
        dict_get k headers
        = match dict_get k (rev items) with
          | Some v => Some v
          | None =>
              if (is_json && String.eqb k "content-type")%bool
              then Some (VStr "application/json; charset=UTF-8")
              else dict_get k default_headers
          end)
  /\
  (forall token : string,
      _get_headers (_set_headers token) true VNone
      = Ok [("Accept", VStr "application/json");
            ("Content-Type", VStr "application/json");
            ("Notion-Version", VStr "2022-06-28");
            ("Authorization", VStr ("Bearer " ++ token));
            ("content-type", VStr "application/json; charset=UTF-8")]).
Proof.
  split; [|reflexivity].
  intros default_headers items is_json k.
  set (base := if is_json
               then dict_set "content-type"
                             (VStr "application/json; charset=UTF-8")
                             default_headers
               else default_headers).
  assert (Hbase : dict_get k base
                  = if (is_json && String.eqb k "content-type")%bool
                    then Some (VStr "application/json; charset=UTF-8")
                    else dict_get k default_headers).
  { unfold base. destruct is_json; [|reflexivity]. cbn [andb].
    destruct (String.eqb_spec k "content-type") as [->|Hne].
    - apply dict_get_set_same.
    - apply dict_get_set_other. congruence. }
  unfold _get_headers. fold base. destruct items as [|kv items].
  - exists base. split; [reflexivity|exact Hbase].
  - cbn [truthy]. eexists. split; [reflexivity|].
    now rewrite dict_get_fold_set, Hbase.
Qed.

(** ** Finding a user by name *)

Lemma is_user_loop_named (str_lower : string -> string) (json_user : value)
    (user_name : string) (names : list string) :
  getitem json_user "name" = Ok (VStr user_name) ->
  forall is_user,
    is_user_loop str_lower names json_user is_user
    = Ok (is_user &&
          forallb (fun name =>
                     contains (str_lower name) (str_lower user_name))
                  names)%bool.
Proof.
  intros Hname. induction names as [|name names IH]; intros is_user.
  - cbn. now rewrite andb_true_r.
  - cbn [is_user_loop forallb]. rewrite Hname. cbn [res_bind]. rewrite IH.
    destruct (contains (str_lower name) (str_lower user_name));
      cbn [negb andb]; [reflexivity|].
    now rewrite andb_false_r.
Qed.

Lemma find_user_named (str_lower : string -> string) (names : list string)
    (users : list value) :
  Forall named_user users ->
  find_user str_lower names users
  = Ok match find (user_matches str_lower names) users with
       | Some json_user => json_user
       | None => VNone
       end.
Proof.
  induction 1 as [|json_user users [user_name Hname] _ IH]; [reflexivity|].
  cbn [find_user find]. unfold user_matches at 1. rewrite Hname.
  rewrite (is_user_loop_named str_lower json_user user_name names Hname).
  cbn [res_bind andb].
  destruct (forallb _ names); [reflexivity|exact IH].
Qed.

Lemma user_matches_permutation (str_lower : string -> string)
    (names names' : list string) (json_user : value) :
  Permutation names names' ->
  user_matches str_lower names json_user
  = user_matches str_lower names' json_user.
Proof.
  intros Hperm. unfold user_matches.
  destruct (getitem json_user "name") as [[| | |user_name| | |]|]; try reflexivity.
  apply eq_true_iff_eq. rewrite !forallb_forall. split; intros H x Hin.
  - apply H. eapply Permutation_in; [symmetry; exact Hperm|exact Hin].
  - apply H. eapply Permutation_in; [exact Hperm|exact Hin].
Qed.

Lemma find_ext_users (f g : value -> bool) (users : list value) :
  (forall u, f u = g u) -> find f users = find g users.
Proof.
  intros Hfg. induction users as [|u users IH]; [reflexivity|].
  cbn [find]. now rewrite Hfg, IH.
Qed.

(** X17.  Over users that all have a name, [_get_correct_user] returns the
    first one whose lower-cased name contains every piece that the spaces
    separate in the lower-cased query, and returns [None], without an
    error, when there is none.  The order of the pieces does not matter.
    The empty query has the one piece [""], which every name contains: it
    selects the first user of the list. *)
Theorem get_correct_user_first_match :
  forall (str_lower : string -> string) (users : list value) (user : string),
    Forall named_user users ->
    _get_correct_user str_lower (VList users) user
    = Ok match find (user_matches str_lower (split_space user)) users with
         | Some json_user => json_user
         | None => VNone
         end
    /\
    (forall user',
        Permutation (split_space user) (split_space user') ->
        _get_correct_user str_lower (VList users) user'
        = _get_correct_user str_lower (VList users) user)
    /\
    (forall json_user rest,
        str_lower "" = "" ->
        users = json_user :: rest ->
        _get_correct_user str_lower (VList users) "" = Ok json_user).
Proof.
  intros str_lower users user Hnamed.
  assert (Hspec : forall q,
             _get_correct_user str_lower (VList users) q
             = Ok match find (user_matches str_lower (split_space q)) users
                  with
                  | Some json_user => json_user
                  | None => VNone
                  end).
  { intros q. unfold _get_correct_user. cbn [py_iter res_bind].
    now apply find_user_named. }
  split; [apply Hspec|]. split.
  - intros user' Hperm. rewrite !Hspec.
    rewrite (find_ext_users (user_matches str_lower (split_space user))
               (user_matches str_lower (split_space user')) users);
      [reflexivity|].
    intros u. now apply user_matches_permutation.
  - intros json_user rest Hempty ->. rewrite Hspec.
    inversion Hnamed as [|? ? [user_name Hname] _]; subst.
    cbn [split_space split_space_from find]. unfold user_matches.
    rewrite Hname. cbn [forallb]. rewrite Hempty.
    destruct (str_lower user_name); reflexivity.
Qed.

Lemma get_correct_user_first_match_witness :
  _get_correct_user lower (VList [user_ada; user_alan]) "turing AL"
  = Ok user_alan /\
  _get_correct_user lower (VList [user_ada; user_alan]) "Grace" = Ok VNone /\
  _get_correct_user lower (VList [user_ada; user_alan]) "" = Ok user_ada.
Proof.
  assert (Hnamed : Forall named_user [user_ada; user_alan]).
  { constructor; [eexists; reflexivity|].
    constructor; [eexists; reflexivity|constructor]. }
  split; [|split].
  - destruct (get_correct_user_first_match lower [user_ada; user_alan]
                "turing AL" Hnamed) as [H _].
    exact H.
  - destruct (get_correct_user_first_match lower [user_ada; user_alan]
                "Grace" Hnamed) as [H _].
    exact H.
  - destruct (get_correct_user_first_match lower [user_ada; user_alan]
                "" Hnamed) as (_ & _ & H).
    exact (H user_ada [user_alan] eq_refl eq_refl).
Defined.

(** ** Updating the properties of a page *)

Lemma find_app_last (A : Type) (f : A -> bool) (l : list A) (x : A) :
  find f (l ++ [x])
  = match find f l with
    | Some y => Some y
    | None => if f x then Some x else None
    end.
Proof.
  induction l as [|y l IH]; cbn [app find]; [reflexivity|].
  destruct (f y); [reflexivity|exact IH].
Qed.

Lemma properties_dict_lookup (name : string)
    (properties : list NotionPageProperty) :
  forall d,
    dict_get name
      (fold_left
         (fun d page_property =>
            dict_set (p_name page_property)
                     (NotionPageProperty_to_dict page_property) d)
         properties d)
    = match find (fun p => String.eqb name (p_name p)) (rev properties) with
      | Some p => Some (NotionPageProperty_to_dict p)
      | None => dict_get name d
      end.
Proof.
  induction properties as [|p properties IH]; intros d; [reflexivity|].
  cbn [fold_left rev]. rewrite IH, find_app_last.
  destruct (find _ (rev properties)); [reflexivity|].
  destruct (String.eqb_spec name (p_name p)) as [->|Hne].
  - apply dict_get_set_same.
  - apply dict_get_set_other. congruence.
Qed.

(** X18.  Against an answer with status 200, [_update_page] sends one
    [PATCH] of the page whose payload holds, under [properties], one entry
    per property name: the encoding of the last property of the list that
    has the name. *)
Theorem update_page_payload :
  forall (page_id : value) (properties : list NotionPageProperty)
         (r : Response) (rs : list Response) (tr : list event),
    status_code r = 200 ->
    _update_page page_id properties (mkWorld (r :: rs) tr)
    = (Ok tt,
       mkWorld rs
         (tr ++ [Request "PATCH" (url_page page_id)
                   (Some (VDict [("properties",
                                  VDict (properties_dict properties))]))]))
    /\
    forall name,
      dict_get name (properties_dict properties)
      = option_map NotionPageProperty_to_dict
          (find (fun p => String.eqb name (p_name p)) (rev properties)).
Proof.
  intros page_id properties r rs tr H200. split.
  - unfold _update_page, retry_on_bad_response. apply retry_loop_Ok.
    unfold _update_page__wrapped__, bind, requests_request, lift.
    cbn [get_world put_world HasWorld_world log pending trace].
    now rewrite (check_response_200 _ H200).
  - intros name. unfold properties_dict.
    rewrite properties_dict_lookup.
    destruct (find _ (rev properties)); reflexivity.
Qed.

Lemma update_page_payload_witness :
  exists p1 p2,
    NotionPageProperty__init__ "Status" (VDict select_record) = Ok p1 /\
    NotionPageProperty__init__ "Status"
      (VDict [("type", VStr "select");
              ("select", VDict [("name", VStr "Open")])]) = Ok p2 /\
    _update_page (VStr "pg") [p1; p2] (mkWorld [updated] [])
    = (Ok tt,
       mkWorld []
         [Request "PATCH" (url_page (VStr "pg"))
            (Some (VDict
                     [("properties",
                       VDict [("Status",
                               VDict [("type", VStr "select");
                                      ("select",
                                       VDict [("name", VStr "Open")])])])]))]).
Proof.
  eexists. eexists. split; [reflexivity|]. split; [reflexivity|].
  refine (proj1 (update_page_payload (VStr "pg") _ updated [] [] eq_refl)).
Defined.

(** ** Fetching a tree of blocks *)

Lemma get_block_children_answer (parent_id : value) (records : list value)
    (rs : list Response) (tr : list event) :
  _get_block_children parent_id
    (mkWorld (children_response records :: rs) tr)
  = (Ok (VList records),
     mkWorld rs (tr ++ [Request "GET" (url_block_children parent_id) None])).
Proof.
  unfold _get_block_children, retry_on_bad_response. apply retry_loop_Ok.
  rewrite get_block_children_attempt. reflexivity.
Qed.

Lemma decode_remote_records (ts : list remote_block) :
  Forall well_formed_remote ts ->
  map_res NotionBlock__init__ (map remote_record ts)
  = Ok (map remote_decoded ts).
Proof.
  induction 1 as [|t ts Ht _ IH]; [reflexivity|].
  cbn [map map_res]. rewrite IH.
  destruct Ht as [record block H _|record block d children H _ _ _];
    cbn [remote_record remote_decoded]; rewrite H; reflexivity.
Qed.

Lemma height_below (ts : list remote_block) (n : nat) :
  (list_max (map height ts) <= n)%nat ->
  Forall (fun t => (height t <= n)%nat) ts.
Proof.
  intros H. apply Forall_forall. intros t Hin.
  apply list_max_le in H. rewrite Forall_forall in H.
  apply H, in_map, Hin.
Qed.

Lemma expand_children_nested
    (rec : value -> world -> option (res (list NotionBlock) * world))
    (n : nat) :
  (forall parent_id ts rs tr,
      Forall well_formed_remote ts ->
      (list_max (map height ts) < n)%nat ->
      rec parent_id
          (mkWorld (children_response (map remote_record ts)
                      :: flat_map answers_below ts ++ rs) tr)
      = Some (Ok (map nested ts),
              mkWorld rs
                (tr ++ Request "GET" (url_block_children parent_id) None
                    :: flat_map requests_below ts))) ->
  forall ts,
    Forall well_formed_remote ts ->
    Forall (fun t => (height t <= n)%nat) ts ->
    forall rs tr,
      expand_children rec (map remote_decoded ts)
        (mkWorld (flat_map answers_below ts ++ rs) tr)
      = Some (Ok (map nested ts),
              mkWorld rs (tr ++ flat_map requests_below ts)).
Proof.
  intros Hrec ts Hwf. induction Hwf as [|t ts Ht Hts IH]; intros Hh rs tr.
  - cbn. now rewrite app_nil_r.
  - inversion Hh as [|? ? Hht Hhts]; subst.
    destruct Ht as [record block Hdec Hfalse
                   |record block d children Hdec Htrue Hcontent Hsub].
    + cbn [map remote_decoded expand_children flat_map answers_below
               requests_below nested app].
      rewrite Hfalse, (IH Hhts rs tr). reflexivity.
    + cbn [map remote_decoded expand_children flat_map answers_below
               requests_below nested].
      rewrite Htrue, Hcontent.
      cbn [height] in Hht.
      rewrite <- app_assoc, <- app_comm_cons.
      rewrite (Hrec (id block) children _ tr Hsub) by lia.
      cbn [setitem].
      rewrite (IH Hhts rs _).
      rewrite <- app_assoc. reflexivity.
Qed.

Lemma get_all_children_nested (fuel : nat) :
  forall parent_id ts rs tr,
    Forall well_formed_remote ts ->
    (list_max (map height ts) < fuel)%nat ->
    _get_all_children fuel parent_id
      (mkWorld (children_response (map remote_record ts)
                  :: flat_map answers_below ts ++ rs) tr)
    = Some (Ok (map nested ts),
            mkWorld rs
              (tr ++ Request "GET" (url_block_children parent_id) None
                  :: flat_map requests_below ts)).
Proof.
  induction fuel as [|fuel IH]; intros parent_id ts rs tr Hwf Hh; [lia|].
  cbn [_get_all_children].
  rewrite get_block_children_answer.
  cbn [py_iter res_bind]. rewrite (decode_remote_records ts Hwf).
  rewrite (expand_children_nested (_get_all_children fuel) fuel IH ts Hwf
             (height_below ts fuel ltac:(lia)) rs _).
  rewrite <- app_assoc. reflexivity.
Qed.

(** X19.  [_get_all_children] walks the blocks below a parent depth first.
    When the service answers each request with the records of the blocks
    under the block asked for, and the recursion is allowed more levels than
    the tree has, it sends one request for the parent and one for each
    block that has children, a block before the blocks under it, consumes
    exactly those answers, and returns the blocks of the first level, each
    block with children holding under [children] the list of the blocks
    below it, nested in the same way. *)
Theorem get_all_children_depth_first :
  forall (fuel : nat) (parent_id : value) (ts : list remote_block)
         (rs : list Response) (tr : list event),
    Forall well_formed_remote ts ->
    (list_max (map height ts) < fuel)%nat ->
    _get_all_children fuel parent_id
      (mkWorld (children_response (map remote_record ts)
                  :: flat_map answers_below ts ++ rs) tr)
    = Some (Ok (map nested ts),
            mkWorld rs
              (tr ++ Request "GET" (url_block_children parent_id) None
                  :: flat_map requests_below ts)).
Proof. exact get_all_children_nested. Qed.

Lemma get_all_children_depth_first_witness :
  Forall well_formed_remote [remote_toggle] /\
  _get_all_children 2 (VStr "pg")
    (mkWorld [children_response [toggle_record];
              children_response [VDict paragraph_record]] [])
  = Some (Ok [set_content toggle_block
                (VDict [("rich_text", VList []);
                        ("children", VList [VBlock paragraph_b1])])],
          mkWorld []
            [Request "GET" (url_block_children (VStr "pg")) None;
             Request "GET" (url_block_children (VStr "t-1")) None]).
Proof.
  assert (Hwf : Forall well_formed_remote [remote_toggle]).
  { repeat constructor.
    eapply wf_inner; [reflexivity|reflexivity|reflexivity|].
    repeat constructor; reflexivity. }
  split; [exact Hwf|].
  exact (get_all_children_depth_first 2 (VStr "pg") [remote_toggle] [] []
           Hwf ltac:(cbn; lia)).
Defined.

Lemma convert_children_without_cells (block : NotionBlock)
    (c : list (string * value)) (l l' : list value) :
  content block = VDict c ->
  dict_get "children" c = Some (VList l) ->
  l <> [] ->
  dict_get "cells" c = None ->
  Forall2 converted_elem l l' ->
  _convert_block_to_json block
  = Ok (NotionBlock_to_dict
          (set_content block (VDict (dict_set "children" (VList l') c))),
        set_content block (VDict (dict_set "children" (VList l') c))).
Proof.
  intros Hc Hl Hne Hcells HF.
  assert (Hconv : forall b, In (VBlock b) l ->
            convert_rec (depth (VBlock block)) b = _convert_block_to_json b).
  { intros b Hin. apply convert_rec_nested.
    pose proof (depth_In_list _ _ Hin).
    pose proof (depth_dict_get _ _ _ Hl).
    pose proof (depth_content block) as Hd. rewrite Hc in Hd. lia. }
  assert (Ht : truthy (VList l) = true)
    by (destruct l; [congruence|reflexivity]).
  unfold _convert_block_to_json. rewrite convert_rec_S, Hc.
  cbn [get_method]. rewrite Hl. cbn [res_bind]. rewrite Ht.
  cbn [convert_keys getitem]. rewrite Hl, Hcells. cbn [res_bind py_iter].
  rewrite (convert_elems_Forall2 _ _ _ Hconv HF). cbn [is_KeyError app].
  reflexivity.
Qed.

Lemma convert_nested_wire (n : nat) :
  forall t,
    (height t <= n)%nat ->
    plain_remote t ->
    exists block', _convert_block_to_json (nested t) = Ok (wire t, block').
Proof.
  induction n as [|n IH]; intros t Hh Hplain;
    destruct Hplain as [record block d Hc Hno
                       |record block d children Hc Hcells Hsub];
    cbn [height] in Hh; try lia.
  - exists block. cbn [nested wire]. unfold _convert_block_to_json.
    rewrite convert_rec_S, Hc. cbn [get_method]. now rewrite Hno.
  - exists block. cbn [nested wire]. unfold _convert_block_to_json.
    rewrite convert_rec_S, Hc. cbn [get_method]. now rewrite Hno.
  - cbn [nested wire]. rewrite Hc.
    set (c := dict_set "children"
                (VList (map VBlock (map nested children))) d).
    assert (Hcases : children = [] \/ children <> [])
      by (destruct children; [left; reflexivity|right; discriminate]).
    destruct Hcases as [->|Hne0].
    + eexists. unfold _convert_block_to_json. rewrite convert_rec_S.
      cbn [content set_content get_method]. subst c.
      rewrite dict_get_set_same. reflexivity.
    + assert (Hne : map VBlock (map nested children) <> [])
        by (destruct children; [congruence|discriminate]).
      assert (HF : Forall2 converted_elem
                     (map VBlock (map nested children))
                     (map wire children)).
      { assert (Hh' : Forall (fun t => (height t <= n)%nat) children).
        { apply height_below. lia. }
        clear -IH Hh' Hsub.
        induction Hsub as [|t ts Ht _ IHts]; cbn [map]; constructor.
        - inversion Hh'; subst. cbn [converted_elem]. now apply IH.
        - inversion Hh'; subst. now apply IHts. }
      eexists.
      rewrite (convert_children_without_cells
                 (set_content block (VDict c)) c _ _ eq_refl
                 (dict_get_set_same _ _ _) Hne
                 ltac:(subst c; rewrite dict_get_set_other by discriminate;
                       exact Hcells) HF).
      subst c. rewrite dict_set_twice. reflexivity.
Qed.

Lemma convert_all_nested (ts : list remote_block) :
  Forall plain_remote ts ->
  convert_all (map nested ts) = Ok (map wire ts).
Proof.
  unfold convert_all.
  induction 1 as [|t ts Ht _ IH]; [reflexivity|].
  cbn [map map_res].
  destruct (convert_nested_wire (height t) t (Nat.le_refl _) Ht)
    as [block' ->].
  cbn [res_bind fst]. now rewrite IH.
Qed.

(** X20.  The blocks that [_get_all_children] returns for a tree of the
    service whose contents are objects, without [children] in a block that
    has no children and without [cells] in a block that has children, are
    converted by [_convert_block_to_json], one after the other as
    [_create_new_page_under_database] converts its children, to the records
    of the first level, each holding under [children] the records of the
    blocks below it. *)
Theorem get_all_children_then_convert :
  forall (fuel : nat) (parent_id : value) (ts : list remote_block)
         (rs : list Response) (tr : list event),
    Forall well_formed_remote ts ->
    Forall plain_remote ts ->
    (list_max (map height ts) < fuel)%nat ->
    exists blocks w',
      _get_all_children fuel parent_id
        (mkWorld (children_response (map remote_record ts)
                    :: flat_map answers_below ts ++ rs) tr)
      = Some (Ok blocks, w') /\
      pending w' = rs /\
      convert_all blocks = Ok (map wire ts).
Proof.
  intros fuel parent_id ts rs tr Hwf Hplain Hfuel.
  eexists. eexists. split; [|split].
  - exact (get_all_children_nested fuel parent_id ts rs tr Hwf Hfuel).
  - reflexivity.
  - exact (convert_all_nested ts Hplain).
Qed.

Lemma get_all_children_then_convert_witness :
  exists blocks w',
    _get_all_children 2 (VStr "pg")
      (mkWorld [children_response [toggle_record];
                children_response [VDict paragraph_record]] [])
    = Some (Ok blocks, w') /\
    pending w' = [] /\
    convert_all blocks
    = Ok [VDict [("object", VStr "block"); ("type", VStr "toggle");
                 ("toggle",
                  VDict [("rich_text", VList []);
                         ("children",
                          VList [VDict [("object", VStr "block");
                                        ("type", VStr "paragraph");
                                        ("paragraph",
                                         VDict [("rich_text",
                                                 VList [])])]])])]].
Proof.
  assert (Hwf : Forall well_formed_remote [remote_toggle]).
  { repeat constructor.
    eapply wf_inner; [reflexivity|reflexivity|reflexivity|].
    repeat constructor; reflexivity. }
  assert (Hplain : Forall plain_remote [remote_toggle]).
  { repeat constructor.
    eapply plain_inner; [reflexivity|reflexivity|].
    repeat constructor. eapply plain_leaf; reflexivity. }
  exact (get_all_children_then_convert 2 (VStr "pg") [remote_toggle] [] []
           Hwf Hplain ltac:(cbn; lia)).
Defined.

(** ** The query by title *)

(** X21.  [_query_database_by_title] asks for one page of at most 100
    results and never for a second one: against an answer with status 200
    it sends one query, without a cursor, and returns the [results] of that
    answer, whatever the answer tells about further results; the answers
    after it stay unread. *)
Theorem query_database_by_title_first_page_only :
  forall (database_id : value) (query_term : string) (r : Response)
         (rs : list Response) (tr : list event) (results : value),
    status_code r = 200 ->
    body_field r "results" = Some results ->
    _query_database_by_title database_id query_term (mkWorld (r :: rs) tr)
    = (Ok results,
       mkWorld rs
         (tr ++ [Request "POST" (url_database_query database_id)
                   (Some (VDict
                      [("page_size", VInt 100);
                       ("filter",
                        VDict [("or",
                                VList [VDict
                                         [("property", VStr "title");
                                          ("text",
                                           VDict [("contains",
                                                   VStr query_term)])]])])]))])).
Proof.
  intros database_id query_term r rs tr results H200 Hres.
  destruct (body_field_dict r "results" results Hres) as (d & Hbody & Hget).
  unfold _query_database_by_title, retry_on_bad_response.
  apply retry_loop_Ok.
  unfold _query_database_by_title__wrapped__, bind, requests_request, lift.
  cbn [get_world put_world HasWorld_world log pending trace].
  rewrite (check_response_200 _ H200). unfold response_json.
  rewrite Hbody. cbn [res_bind getitem]. now rewrite Hget.
Qed.

Lemma query_database_by_title_first_page_only_witness :
  exists payload,
    _query_database_by_title (VStr "db") "Spec"
      (mkWorld [first_results; second_results; third_results] [])
    = (Ok (VList [page_item "id-1" BOM_Name "Spec A"]),
       mkWorld [second_results; third_results]
         [Request "POST" (url_database_query (VStr "db")) (Some payload)]).
Proof.
  eexists.
  exact (query_database_by_title_first_page_only (VStr "db") "Spec"
           first_results [second_results; third_results] []
           (VList [page_item "id-1" BOM_Name "Spec A"]) eq_refl eq_refl).
Defined.

(** ** The indexing script *)

Lemma get_page_content_answer (page_id : value) (r : Response)
    (rs : list Response) (tr : list event) (blocks : list value)
    (texts : list string) :
  body_field r "results" = Some (VList blocks) ->
  page_content_loop blocks [] = Ok texts ->
  get_page_content page_id (mkWorld (r :: rs) tr)
  = (Ok texts,
     mkWorld rs (tr ++ [Request "GET" (url_block_children page_id) None])).
Proof.
  intros Hres Hloop.
  destruct (body_field_dict r "results" _ Hres) as (d & Hbody & Hget).
  unfold get_page_content, bind, requests_request, lift.
  cbn [get_world put_world HasWorld_world log pending trace].
  unfold response_json. rewrite Hbody. cbn [res_bind getitem].
  rewrite Hget. cbn [res_bind py_iter]. now rewrite Hloop.
Qed.

(** X22.  The script gathers the texts to index page by page, in the order
    of the pages: it asks once for the content of each page and keeps the
    texts of the answer that are not empty, each with the id of the page
    and the [url] of its record. *)
Theorem gather_page_content_entries :
  forall (visits : list visit) (page_content : list (value * value * string))
         (rs : list Response) (tr : list event),
    Forall visit_ok visits ->
    gather_page_content (map (fun v => (visit_id v, visit_page v)) visits)
      page_content (mkWorld (map visit_answer visits ++ rs) tr)
    = (Ok (page_content ++
             flat_map
               (fun v =>
                  map (fun paragraph => (visit_id v, visit_url v, paragraph))
                      (filter (fun paragraph =>
                                 negb (String.eqb paragraph ""))
                              (visit_texts v)))
               visits)%list,
       mkWorld rs
         (tr ++ map (fun v =>
                       Request "GET" (url_block_children (visit_id v)) None)
                    visits)).
Proof.
  intros visits page_content rs tr Hok. revert page_content tr.
  induction Hok as [|v visits (Hurl & blocks & Hres & Hloop) _ IH];
    intros page_content tr.
  - cbn. now rewrite !app_nil_r.
  - cbn [map gather_page_content flat_map app]. unfold bind at 1.
    rewrite (get_page_content_answer _ _ _ _ _ _ Hres Hloop).
    unfold bind at 1. unfold lift at 1. rewrite Hurl.
    rewrite IH. rewrite <- !app_assoc. reflexivity.
Qed.

Lemma gather_page_content_entries_witness :
  gather_page_content
    [(VStr "id-1", VDict [("url", VStr "https://notion.so/id-1")])] []
    (mkWorld
       [children_response
          [heading_record; two_run_paragraph; VDict paragraph_record]] [])
  = (Ok [(VStr "id-1", VStr "https://notion.so/id-1", "Hello, world")],
     mkWorld [] [Request "GET" (url_block_children (VStr "id-1")) None]).
Proof.
  refine (gather_page_content_entries
            [mkVisit (VStr "id-1")
               (VDict [("url", VStr "https://notion.so/id-1")])
               (VStr "https://notion.so/id-1")
               (children_response
                  [heading_record; two_run_paragraph;
                   VDict paragraph_record])
               ["Hello, world"; ""]] [] [] [] _).
  repeat constructor. eexists. split; reflexivity.
Defined.

Lemma numbered_cons (off : nat) (entry : value * value * string)
    (l : list (value * value * string)) :
  numbered off (entry :: l)
  = (str_nat off, metadata_of entry) :: numbered (Datatypes.S off) l.
Proof. reflexivity. Qed.

Lemma numbered_app (l1 l2 : list (value * value * string)) :
  forall off,
    numbered off (l1 ++ l2)
    = (numbered off l1 ++ numbered (off + length l1) l2)%list.
Proof.
  induction l1 as [|entry l1 IH]; intros off.
  - cbn [app length]. now rewrite Nat.add_0_r.
  - cbn [app length]. rewrite !numbered_cons, IH. cbn [app].
    now rewrite Nat.add_succ_r.
Qed.

Lemma zip3_id_and_metadata (vector : Type) (ids : list string)
    (metadatas : list value) :
  forall xc : list vector,
    length xc = length ids ->
    length metadatas = length ids ->
    map id_and_metadata (zip3 ids xc metadatas) = combine ids metadatas.
Proof.
  revert metadatas.
  induction ids as [|i ids IH]; intros metadatas xc Hx Hm.
  - reflexivity.
  - destruct xc as [|x xc]; [discriminate|].
    destruct metadatas as [|m metadatas]; [discriminate|].
    cbn [zip3 map combine id_and_metadata fst snd].
    f_equal. apply IH; cbn [length] in *; lia.
Qed.

Lemma zip3_length (A B C : Type) (a : list A) :
  forall (b : list B) (c : list C),
    (length (zip3 a b c) <= length a)%nat.
Proof.
  induction a as [|x a IH]; intros b c; [cbn; lia|].
  destruct b as [|y b]; [cbn; lia|].
  destruct c as [|z c]; [cbn; lia|].
  cbn [zip3 length]. specialize (IH b c). lia.
Qed.

Lemma slice_batch (A : Type) (l : list A) (i : nat) :
  slice l i (Nat.min (i + batch_size) (length l))
  = firstn batch_size (skipn i l).
Proof.
  unfold slice.
  destruct (Nat.le_gt_cases (i + batch_size) (length l)) as [Hle|Hgt].
  - rewrite Nat.min_l by exact Hle. f_equal. lia.
  - rewrite Nat.min_r by lia.
    rewrite !firstn_all2; [reflexivity| |]; rewrite length_skipn; lia.
Qed.

Lemma upsert_batch_numbered (vector : Type)
    (encode : list string -> list vector)
    (sample : list (value * value * string)) (i : nat) :
  (forall texts, length (encode texts) = length texts) ->
  map id_and_metadata (upsert_batch vector encode sample i)
  = numbered i (firstn batch_size (skipn i sample)).
Proof.
  intros Hencode. unfold upsert_batch. cbv zeta.
  rewrite slice_batch.
  assert (Hlen : (Nat.min (i + batch_size) (length sample) - i
                  = length (firstn batch_size (skipn i sample)))%nat).
  { rewrite length_firstn, length_skipn. lia. }
  rewrite Hlen. apply zip3_id_and_metadata.
  - rewrite Hencode, !length_map, length_seq. reflexivity.
  - rewrite !length_map, length_seq. reflexivity.
Qed.

Lemma numbered_chunks (count : nat) :
  forall (l : list (value * value * string)) (off : nat),
    (length l <= count * batch_size)%nat ->
    concat (map (fun k =>
                   numbered (off + k * batch_size)
                            (firstn batch_size (skipn (k * batch_size) l)))
                (seq 0 count))
    = numbered off l.
Proof.
  induction count as [|count IH]; intros l off Hlen.
  - destruct l; [reflexivity|cbn in Hlen; lia].
  - cbn [seq map concat]. rewrite <- seq_shift, map_map.
    rewrite (map_ext _
               (fun k =>
                  numbered ((off + batch_size) + k * batch_size)
                    (firstn batch_size
                       (skipn (k * batch_size) (skipn batch_size l))))).
    2:{ intros k. rewrite skipn_skipn. f_equal; [lia|].
        f_equal. f_equal. lia. }
    rewrite (IH (skipn batch_size l) (off + batch_size)%nat)
      by (rewrite length_skipn; lia).
    cbn [Nat.mul skipn]. rewrite Nat.add_0_r.
    rewrite <- (firstn_skipn batch_size l) at 3.
    rewrite numbered_app. f_equal.
    destruct (Nat.le_gt_cases batch_size (length l)) as [Hle|Hgt].
    + rewrite length_firstn, Nat.min_l by exact Hle. reflexivity.
    + rewrite skipn_all2 by lia. reflexivity.
Qed.

Lemma range_step_covers (n : nat) :
  (n <= (n + batch_size - 1) / batch_size * batch_size)%nat.
Proof.
  pose proof (Nat.div_mod_eq (n + batch_size - 1) batch_size) as Hdiv.
  pose proof (Nat.mod_upper_bound (n + batch_size - 1) batch_size
                ltac:(discriminate)) as Hmod.
  unfold batch_size in *. lia.
Qed.

(** X23.  The script upserts the first [vector_limit] gathered entries in
    batches of at most [batch_size] records.  When the encoder gives one
    vector for each text, the batches taken together hold one record for
    each entry of the sample, in the order of the sample: the id of the
    record is the index of its entry, in decimal, and its metadata are the
    page id, the url and the text of that entry. *)
Theorem upsert_batches_number_the_sample :
  forall (vector : Type) (encode : list string -> list vector)
         (page_content : list (value * value * string)),
    (forall texts, length (encode texts) = length texts) ->
    concat (map (map id_and_metadata)
                (upsert_batches vector encode page_content))
    = numbered 0 (firstn vector_limit page_content)
    /\
    Forall (fun batch => (length batch <= batch_size)%nat)
           (upsert_batches vector encode page_content).
Proof.
  intros vector encode page_content Hencode. split.
  - unfold upsert_batches, py_range_step. cbv zeta.
    rewrite !map_map.
    rewrite (map_ext _
               (fun k =>
                  numbered (0 + k * batch_size)
                    (firstn batch_size
                       (skipn (k * batch_size)
                              (firstn vector_limit page_content)))))
      by (intros k; apply upsert_batch_numbered, Hencode).
    apply numbered_chunks, range_step_covers.
  - unfold upsert_batches. cbv zeta. apply Forall_map, Forall_forall.
    intros i _. unfold upsert_batch. cbv zeta.
    eapply Nat.le_trans; [apply zip3_length|].
    rewrite length_map, length_seq. lia.
Qed.

Lemma upsert_batches_number_the_sample_witness :
  concat (map (map id_and_metadata)
              (upsert_batches nat (map String.length)
                 [(VStr "id-1", VStr "u-1", "Hello");
                  (VStr "id-2", VStr "u-2", "world")]))
  = [("0", VDict [("id", VStr "id-1"); ("url", VStr "u-1");
                  ("text", VStr "Hello")]);
     ("1", VDict [("id", VStr "id-2"); ("url", VStr "u-2");
                  ("text", VStr "world")])].
Proof.
  exact (proj1 (upsert_batches_number_the_sample nat (map String.length)
                  [(VStr "id-1", VStr "u-1", "Hello");
                   (VStr "id-2", VStr "u-2", "world")]
                  (fun texts => length_map String.length texts))).
Defined.
